(** * The nVHE hypervisor buddy page allocator
    (arch/arm64/kvm/hyp/nvhe/page_alloc.c)

    A shallow embedding of the allocator: one [struct hyp_pool], the
    [hyp_vmemmap] array of [struct hyp_page] it works on and the bodies of the
    pages, followed by the properties of the allocator proved on it. *)

From Stdlib Require Import ZArith List Bool Lia FinFun.
Import ListNotations.
Local Open Scope Z_scope.

(** ** Machine arithmetic *)

Definition u8 (x : Z) : Z := x mod 2 ^ 8.
Definition u32 (x : Z) : Z := x mod 2 ^ 32.
Definition u64 (x : Z) : Z := x mod 2 ^ 64.

(** [x << n] on an [unsigned long].  The file is built for arm64 only, where
    the register form of LSL takes the amount modulo the register width. *)
Definition shl64 (x n : Z) : Z := u64 (Z.shiftl x (n mod 64)).

(** [x << n] on an [unsigned int]. *)
Definition shl32 (x n : Z) : Z := u32 (Z.shiftl x (n mod 32)).

(** The C expression [1 << n] for a [u8 n]: an [int] shift (amount modulo 32
    on arm64), read as a signed 32-bit value, which is how it is converted
    when it is added to a [u64]. *)
Definition int_shl1 (n : Z) : Z :=
  let r := shl32 1 n in if r <? 2 ^ 31 then r else r - 2 ^ 32.

(** ** Error monad: [None] is a fatal stop (BUG_ON, a broken list link) *)

Definition bind {A B : Type} (m : option A) (k : A -> option B) : option B :=
  match m with
  | Some a => k a
  | None => None
  end.

Notation "x <- m ;; k" := (bind m (fun x => k))
  (at level 61, m at next level, right associativity).
Notation "' pat <- m ;; k" := (bind m (fun x => match x with pat => k end))
  (at level 61, pat pattern, m at next level, right associativity).

(** ** Data model *)

(** [struct hyp_page]: one entry of the vmemmap per page frame. *)
Record hyp_page : Type := mkPage {
  refcount : Z;
  order : Z
}.

(** The body of a page, as far as the allocator is concerned: its first
    [sizeof(struct list_head)] bytes, which hold the free-list links while the
    page is on a list, and the remaining bytes.  Each part is either known to
    be all zero ([false]) or may hold non-zero bytes ([true]). *)
Record page_body : Type := mkBody {
  node_bytes : bool;
  data_bytes : bool
}.

Definition zero_body : page_body := mkBody false false.
Definition dirty_body : page_body := mkBody true true.
Definition body_is_zero (b : page_body) : bool :=
  negb (node_bytes b) && negb (data_bytes b).

(** One [struct hyp_pool] (fields [free_area], [free_pages], [range_start],
    [range_end], [max_order]), the global [hyp_vmemmap] array, indexed by page
    frame number, and the page bodies.  A [struct hyp_page *] is the index of
    the entry in the vmemmap.  A free list is the sequence of the pages
    linked on it, first entry first. *)
Record state : Type := mkState {
  vmemmap : Z -> hyp_page;
  free_area : Z -> list Z;
  free_pages : Z;
  range_start : Z;
  range_end : Z;
  max_order : Z;
  mem : Z -> page_body
}.

Definition page_order (s : state) (p : Z) : Z := order (vmemmap s p).
Definition page_refcount (s : state) (p : Z) : Z := refcount (vmemmap s p).

Definition upd {A : Type} (f : Z -> A) (k : Z) (v : A) : Z -> A :=
  fun j => if j =? k then v else f j.

Definition set_vmemmap (s : state) (v : Z -> hyp_page) : state :=
  mkState v (free_area s) (free_pages s) (range_start s) (range_end s)
          (max_order s) (mem s).
Definition set_free_area (s : state) (fa : Z -> list Z) : state :=
  mkState (vmemmap s) fa (free_pages s) (range_start s) (range_end s)
          (max_order s) (mem s).
Definition set_free_pages (s : state) (n : Z) : state :=
  mkState (vmemmap s) (free_area s) n (range_start s) (range_end s)
          (max_order s) (mem s).
Definition set_mem (s : state) (m : Z -> page_body) : state :=
  mkState (vmemmap s) (free_area s) (free_pages s) (range_start s)
          (range_end s) (max_order s) m.

(** [p->order = o] *)
Definition set_order (s : state) (p o : Z) : state :=
  set_vmemmap s (upd (vmemmap s) p (mkPage (page_refcount s p) o)).
(** [p->refcount = r] *)
Definition set_refcount (s : state) (p r : Z) : state :=
  set_vmemmap s (upd (vmemmap s) p (mkPage r (page_order s p))).

(** The integers [lo, lo + 1, ..., lo + n - 1]. *)
Definition zrange (lo : Z) (n : nat) : list Z :=
  map (fun i => lo + Z.of_nat i) (seq 0 n).

Definition HYP_NO_ORDER : Z := 255.

Section Model.

Variable PAGE_SHIFT : Z.
Variable MAX_ORDER : Z.

Definition PAGE_SIZE : Z := Z.shiftl 1 PAGE_SHIFT.

(** Modelled from the spec: the address mapping of nvhe/memory.h, which is not
    among the sources: bijections between page frame numbers, physical
    addresses, vmemmap entries and the directly addressable page bodies.  The
    hypervisor's linear map is a fixed offset, left out here: a virtual
    address is modelled by the physical address. *)
Definition hyp_pfn_to_phys (pfn : Z) : Z := u64 (Z.shiftl pfn PAGE_SHIFT).
Definition hyp_phys_to_pfn (phys : Z) : Z := Z.shiftr phys PAGE_SHIFT.
Definition hyp_page_to_phys (p : Z) : Z := hyp_pfn_to_phys p.
Definition hyp_phys_to_page (phys : Z) : Z := hyp_phys_to_pfn phys.
Definition hyp_page_to_virt (p : Z) : Z := hyp_page_to_phys p.
Definition hyp_virt_to_page (addr : Z) : Z := hyp_phys_to_page addr.

(** Modelled from the spec: the reference-count helpers of nvhe/memory.h.
    [ref_get] reads the count, [set_page_refcounted] sets it to 1, [ref_inc]
    increments it, and [ref_dec_and_test] decrements it and tells whether the
    result is zero; decrementing a zero count is a fatal stop. *)
Definition hyp_refcount_get (r : Z) : Z := r.
Definition hyp_set_page_refcounted (s : state) (p : Z) : state :=
  set_refcount s p 1.
Definition hyp_page_ref_inc (s : state) (p : Z) : state :=
  set_refcount s p (page_refcount s p + 1).
Definition hyp_page_ref_dec_and_test (s : state) (p : Z)
  : option (state * bool) :=
  if page_refcount s p <=? 0 then None
  else let s' := set_refcount s p (page_refcount s p - 1) in
       Some (s', page_refcount s' p =? 0).

(** Modelled from the spec: [get_order] of asm-generic/getorder.h, the least
    order whose group holds [size] bytes, i.e. the ceiling of the binary
    logarithm of the number of pages. *)
Definition get_order (size : Z) : Z :=
  Z.log2_up ((size + PAGE_SIZE - 1) / PAGE_SIZE).

(** *** Buddy indexing *)

Definition __find_buddy_nocheck (s : state) (p order : Z) : option Z :=
  let addr := hyp_page_to_phys p in
  let addr := Z.lxor addr (shl64 PAGE_SIZE order) in
  if (addr <? range_start s) || (range_end s <=? addr) then None
  else Some (hyp_phys_to_page addr).

Definition __find_buddy_avail (s : state) (p order : Z) : option Z :=
  match __find_buddy_nocheck s p order with
  | None => None
  | Some buddy =>
      if negb (page_order s buddy =? order)
         || negb (hyp_refcount_get (page_refcount s buddy) =? 0)
      then None
      else Some buddy
  end.

(** *** Free lists, whose nodes live in the pages *)

Definition list_empty (l : list Z) : bool :=
  match l with
  | [] => true
  | _ :: _ => false
  end.

Definition on_list (p : Z) (l : list Z) : bool := existsb (Z.eqb p) l.

(** The lists the pool has initialised are [free_area[0..max_order]]. *)
Definition on_free_list (s : state) (p : Z) : bool :=
  existsb (fun k => on_list p (free_area s k))
          (zrange 0 (Z.to_nat (max_order s + 1))).

Definition list_del (p : Z) (l : list Z) : list Z :=
  filter (fun q => negb (q =? p)) l.

Definition set_node_bytes (s : state) (p : Z) (b : bool) : state :=
  set_mem s (upd (mem s) p (mkBody b (data_bytes (mem s p)))).

(** [memset(hyp_page_to_virt(p), 0, len)] for a [len] that is a multiple of
    the page size. *)
Definition memset_pages (s : state) (p len : Z) : state :=
  set_mem s (fun q => if (p <=? q) && (q <? p + Z.shiftr len PAGE_SHIFT)
                      then zero_body else mem s q).

(** [__list_del_entry] unlinks the node from the list it is linked on; the
    links of a page that is on no list are not links, and following them is a
    fatal stop.  The node bytes are cleared afterwards. *)
Definition page_remove_from_list (s : state) (p : Z) : option state :=
  if on_free_list s p then
    Some (set_node_bytes
            (set_free_area s (fun k => list_del p (free_area s k))) p false)
  else None.

(** [page_add_to_list(p, &pool->free_area[k])]: the node in the page body is
    initialised and linked at the tail.  Only [free_area[0..max_order]] are
    list heads. *)
Definition page_add_to_list (s : state) (p k : Z) : option state :=
  if (0 <=? k) && (k <=? max_order s) then
    Some (set_node_bytes
            (set_free_area s (upd (free_area s) k (free_area s k ++ [p])))
            p true)
  else None.

Definition node_to_page (node : Z) : Z := hyp_virt_to_page node.

(** *** Attach: release into the pool, with coalescing *)

(** The [for] loop of [__hyp_attach_page]; it yields the pool, the head [p]
    and [order] at the [insert] label. *)
Fixpoint attach_loop (fuel : nat) (s : state) (p order : Z)
  : option (state * Z * Z) :=
  match fuel with
  | O => Some (s, p, order)
  | S fuel' =>
      if order + 1 <=? max_order s then
        match __find_buddy_avail s p order with
        | None => Some (s, p, order)
        | Some buddy =>
            s1 <- page_remove_from_list s buddy ;;
            let s2 := set_order s1 buddy HYP_NO_ORDER in
            attach_loop fuel' s2 (Z.min p buddy) (order + 1)
        end
      else Some (s, p, order)
  end.

(** The [insert] label of [__hyp_attach_page]. *)
Definition attach_insert (s : state) (p order : Z) : option state :=
  let s := set_order s p order in
  page_add_to_list s p order.

Definition __hyp_attach_page (s : state) (p : Z) : option state :=
  let phys := hyp_page_to_phys p in
  let order := page_order s p in
  let s := memset_pages s p (shl64 PAGE_SIZE (page_order s p)) in
  if (phys <? range_start s) || (range_end s <=? phys) then
    attach_insert s p order
  else
    let s := set_order s p HYP_NO_ORDER in
    ' (s, p, order) <-
        attach_loop (Z.to_nat (max_order s - order)) s p order ;;
    attach_insert s p order.

(** *** Extract: allocation with splitting *)

(** The [while] loop of [__hyp_extract_page]. *)
Fixpoint extract_loop (fuel : nat) (s : state) (p order : Z)
  : option state :=
  match fuel with
  | O => Some s
  | S fuel' =>
      if order <? page_order s p then
        match __find_buddy_nocheck s p (page_order s p - 1) with
        | None => Some s
        | Some buddy =>
            let s1 := set_order s p (page_order s p - 1) in
            let s2 := set_order s1 buddy (page_order s1 p) in
            s3 <- page_add_to_list s2 buddy (page_order s2 buddy) ;;
            extract_loop fuel' s3 p order
        end
      else Some s
  end.

(** The page returned is always the page passed in. *)
Definition __hyp_extract_page (s : state) (p order : Z)
  : option (state * Z) :=
  s <- page_remove_from_list s p ;;
  s <- extract_loop (Z.to_nat (page_order s p - order)) s p order ;;
  Some (s, p).

(** *** Public operations *)

Definition __hyp_put_page (s : state) (p : Z) : option state :=
  ' (s, zero) <- hyp_page_ref_dec_and_test s p ;;
  if zero : bool then
    s <- __hyp_attach_page s p ;;
    let free_pages := u64 (free_pages s + int_shl1 (page_order s p)) in
    Some (set_free_pages s free_pages)
  else Some s.

Definition hyp_put_page (s : state) (addr : Z) : option state :=
  let p := hyp_virt_to_page addr in
  if max_order s <? page_order s p then None
  else __hyp_put_page s p.

Definition hyp_get_page (s : state) (addr : Z) : state :=
  let p := hyp_virt_to_page addr in
  hyp_page_ref_inc s p.

Definition hyp_split_page (s : state) (p : Z) : state :=
  let order := page_order s p in
  let s := set_order s p 0 in
  fold_left (fun s tail => hyp_set_page_refcounted (set_order s tail 0) tail)
            (zrange (p + 1) (Z.to_nat (u32 (int_shl1 order)) - 1)) s.

(** The [while] loop of [hyp_alloc_pages] looking for a high-enough order. *)
Fixpoint alloc_scan (fuel : nat) (s : state) (i : Z) : Z :=
  match fuel with
  | O => i
  | S fuel' =>
      if (i <=? max_order s) && list_empty (free_area s i)
      then alloc_scan fuel' s (u8 (i + 1))
      else i
  end.

Definition hyp_alloc_pages (s : state) (order : Z)
  : option (option Z * state) :=
  let i := alloc_scan (Z.to_nat (max_order s + 1 - order)) s order in
  if max_order s <? i then Some (None, s)
  else
    match free_area s i with
    | [] => None
    | p :: _ =>
        ' (s, p) <- __hyp_extract_page s p order ;;
        let s := hyp_set_page_refcounted s p in
        let free_pages := u64 (free_pages s - int_shl1 (page_order s p)) in
        Some (Some (hyp_page_to_virt p), set_free_pages s free_pages)
    end.

Definition hyp_pool_free_pages (s : state) : Z := free_pages s.

(** *** Initialisation *)

Definition __hyp_pool_init (s : state) (pfn nr_pages reserved_pages : Z)
           (empty_alloc : bool) : option state :=
  let phys := hyp_pfn_to_phys pfn in
  let max_order := Z.min MAX_ORDER (get_order (shl32 nr_pages PAGE_SHIFT)) in
  let s := mkState (vmemmap s)
                   (fun i => if (0 <=? i) && (i <=? max_order) then []
                             else free_area s i)
                   (free_pages s) (range_start s) (range_end s) max_order
                   (mem s) in
  if empty_alloc then
    Some (mkState (vmemmap s) (free_area s) (free_pages s)
                  (u64 (-1)) 0 max_order (mem s))
  else
    let s := mkState (vmemmap s) (free_area s) (free_pages s)
                     phys (u64 (phys + shl32 nr_pages PAGE_SHIFT))
                     max_order (mem s) in
    let p := hyp_phys_to_page phys in
    let s := fold_left (fun s i => hyp_set_page_refcounted s (p + i))
                       (zrange 0 (Z.to_nat nr_pages)) s in
    fold_left (fun r i => s <- r ;; __hyp_put_page s (p + i))
              (zrange reserved_pages (Z.to_nat (nr_pages - reserved_pages)))
              (Some s).

Definition hyp_pool_init (s : state) (pfn nr_pages reserved_pages : Z)
  : option state :=
  __hyp_pool_init s pfn nr_pages reserved_pages false.

Definition hyp_pool_init_empty (s : state) (nr_pages : Z) : option state :=
  __hyp_pool_init s 0 nr_pages 0 true.

End Model.

(** The memory a pool is initialised on: a zeroed vmemmap and page bodies
    that hold arbitrary data.  The pool structure has not been initialised
    and no operation other than [hyp_pool_init] and [hyp_pool_init_empty],
    which initialise [free_area[0..max_order]], works on it; its list heads
    are written as lists without entries. *)
Definition boot_state : state :=
  mkState (fun _ => mkPage 0 0) (fun _ => []) 0 0 0 0 (fun _ => dirty_body).

Definition fa_upto (s : state) (n : nat) : list (list Z) :=
  map (free_area s) (zrange 0 n).

(** ** Scenario states (PAGE_SIZE = 4096, MAX_ORDER = 4) *)

(** The vmemmap entry of frame [p] as its owner hands it to [put]: a head of
    order [o] with one reference. *)
Definition donate (s : state) (p o : Z) : state :=
  set_refcount (set_order s p o) p 1.

(** S1: [pool_init(pool, pfn=0, nr_pages=4, reserved_pages=0)]. *)
Abbreviation S1 := (hyp_pool_init 12 4 boot_state 0 4 0).

(** A two-page pool with both pages reserved, then frame 0 released. *)
Definition two_pages_low_free : option state :=
  s <- hyp_pool_init 12 4 boot_state 0 2 2 ;;
  hyp_put_page 12 s (hyp_page_to_virt 12 0).

(** An empty-range pool into which the external frame 100 was released as
    the head of an order-1 group. *)
Definition empty_pool_order1 : option state :=
  s <- hyp_pool_init_empty 12 4 boot_state 8 ;;
  hyp_put_page 12 (donate s 100 1) (hyp_page_to_virt 12 100).

(** A three-page pool next to the frame 3, which its owner holds. *)
Definition three_pages : option state :=
  hyp_pool_init 12 4 (donate boot_state 3 0) 0 3 0.

(** The external frame 3 released into the three-page pool. *)
Definition three_pages_plus_external : option state :=
  s <- three_pages ;; hyp_put_page 12 s (hyp_page_to_virt 12 3).

(** ** The algorithms as the specification words them *)

Section Spec.

Variable PAGE_SHIFT : Z.

(** The address of the buddy of [p] at order [k]:
    [phys(p) XOR (PAGE_SIZE << k)]. *)
Definition buddy_addr (p k : Z) : Z :=
  Z.lxor (hyp_page_to_phys PAGE_SHIFT p) (shl64 (PAGE_SIZE PAGE_SHIFT) k).

Definition addr_in_range (s : state) (a : Z) : Prop :=
  range_start s <= a < range_end s.

(** [b] is the buddy of [p] at order [k] and it is available: it exists in
    range, has order [k] and no reference. *)
Definition buddy_avail (s : state) (p k b : Z) : Prop :=
  addr_in_range s (buddy_addr p k) /\
  b = hyp_phys_to_page PAGE_SHIFT (buddy_addr p k) /\
  page_order s b = k /\
  page_refcount s b = 0.

(** The parameters of the pool and its counter are the same in [s] and
    [s']. *)
Definition same_pool (s s' : state) : Prop :=
  max_order s' = max_order s /\
  range_start s' = range_start s /\
  range_end s' = range_end s /\
  free_pages s' = free_pages s.

(** Page [b] left the free list it was on: every list is as it was without
    [b], the other entries in their order; the list node in the body of [b]
    is cleared; nothing else changed. *)
Definition unlinked (s : state) (b : Z) (s' : state) : Prop :=
  (forall j, free_area s' j = remove Z.eq_dec b (free_area s j)) /\
  (forall q, vmemmap s' q = vmemmap s q) /\
  mem s' b = mkBody false (data_bytes (mem s b)) /\
  (forall q, q <> b -> mem s' q = mem s q) /\
  same_pool s s'.

(** Page [p] went to the tail of [free_area[k]]: that list is as it was
    followed by [p], the other lists are as they were, the body of [p]
    holds the links of its list node; nothing else changed. *)
Definition linked_at_tail (s : state) (p k : Z) (s' : state) : Prop :=
  free_area s' k = free_area s k ++ [p] /\
  (forall j, j <> k -> free_area s' j = free_area s j) /\
  (forall q, vmemmap s' q = vmemmap s q) /\
  mem s' p = mkBody true (data_bytes (mem s p)) /\
  (forall q, q <> p -> mem s' q = mem s q) /\
  same_pool s s'.

(** The order of [p] became [o]; nothing else changed. *)
Definition order_set (s : state) (p o : Z) (s' : state) : Prop :=
  vmemmap s' p = mkPage (page_refcount s p) o /\
  (forall q, q <> p -> vmemmap s' q = vmemmap s q) /\
  (forall j, free_area s' j = free_area s j) /\
  (forall q, mem s' q = mem s q) /\
  same_pool s s'.

(** The start of an attach of the in-range head [p]: the bodies of the
    [2 ^ order] pages of its group are zeroed and [p] is marked
    [HYP_NO_ORDER]; nothing else changed. *)
Definition attach_started (s : state) (p : Z) (s' : state) : Prop :=
  (forall q, p <= q < p + 2 ^ page_order s p -> mem s' q = zero_body) /\
  (forall q, ~ p <= q < p + 2 ^ page_order s p -> mem s' q = mem s q) /\
  vmemmap s' p = mkPage (page_refcount s p) HYP_NO_ORDER /\
  (forall q, q <> p -> vmemmap s' q = vmemmap s q) /\
  (forall j, free_area s' j = free_area s j) /\
  same_pool s s'.

(** Coalescing from head [p] at [order]: while [order < max_order] and the
    buddy is available, the buddy leaves its free list, is marked
    [HYP_NO_ORDER], the lower-addressed of the two becomes the head and
    [order] grows by one. *)
Inductive coalesce_run : state -> Z -> Z -> state -> Z -> Z -> Prop :=
| coalesce_top : forall s p k,
    max_order s <= k ->
    coalesce_run s p k s p k
| coalesce_stop : forall s p k,
    k < max_order s ->
    (forall b, ~ buddy_avail s p k b) ->
    coalesce_run s p k s p k
| coalesce_merge : forall s p k b s1 s2 s' p' k',
    k < max_order s ->
    buddy_avail s p k b ->
    unlinked s b s1 ->
    order_set s1 b HYP_NO_ORDER s2 ->
    coalesce_run s2 (Z.min p b) (k + 1) s' p' k' ->
    coalesce_run s p k s' p' k'.

(** Splitting the head [p] down to [want]: while [p.order > want] the buddy
    of order [p.order - 1] is looked up without a check of its state; if its
    address is outside the range the split stops, otherwise [p.order] is
    decremented, the buddy takes that order and goes to the tail of the free
    list of that order. *)
Inductive split_run (p want : Z) : state -> state -> Prop :=
| split_done : forall s,
    page_order s p <= want ->
    split_run p want s s
| split_oversize : forall s,
    want < page_order s p ->
    ~ addr_in_range s (buddy_addr p (page_order s p - 1)) ->
    split_run p want s s
| split_half : forall s buddy s1 s2 s3 s',
    want < page_order s p ->
    addr_in_range s (buddy_addr p (page_order s p - 1)) ->
    buddy = hyp_phys_to_page PAGE_SHIFT (buddy_addr p (page_order s p - 1)) ->
    order_set s p (page_order s p - 1) s1 ->
    order_set s1 buddy (page_order s p - 1) s2 ->
    linked_at_tail s2 buddy (page_order s p - 1) s3 ->
    split_run p want s3 s' ->
    split_run p want s s'.

End Spec.

(** ** Callers *)

Section Callers.

Variable PAGE_SHIFT : Z.

(** A page frame number whose physical address fits in 64 bits. *)
Definition valid_pfn (p : Z) : Prop := 0 <= p < 2 ^ (64 - PAGE_SHIFT).

(** [hyp_put_page] on the frames of [ps], one after the other. *)
Definition put_pages (s : state) (ps : list Z) : option state :=
  fold_left (fun r p =>
               s <- r ;; hyp_put_page PAGE_SHIFT s
                                      (hyp_page_to_virt PAGE_SHIFT p))
            ps (Some s).

End Callers.

(** The state an operation left, for operations known to succeed. *)
Definition state_of (r : option state) : state :=
  match r with
  | Some s => s
  | None => boot_state
  end.

(** S4: [pool_init(pool, pfn=0, nr_pages=4, reserved_pages=1)]. *)
Definition S4 : state := state_of (hyp_pool_init 12 4 boot_state 0 4 1).

(** S5, before the pool is set up: frames 100 and 101 are held by their
    owner. *)
Definition S5_frames : state := donate (donate boot_state 100 0) 101 0.

(** What a scenario looks at: the free lists of orders 0 to 4, the
    [free_pages] counter, and the reference count and order of the given
    frames. *)
Definition observe (r : option state) (frames : list Z)
  : option (list (list Z) * Z * list (Z * Z * Z)) :=
  option_map
    (fun s => (fa_upto s 5, free_pages s,
               map (fun p => (p, page_refcount s p, page_order s p)) frames))
    r.

(** ** Groups of frames *)

(** [p] is a multiple of [2 ^ k]. *)
Definition aligned (p k : Z) : Prop := p mod 2 ^ k = 0.

(** The frame number of the buddy of [p] at order [k]. *)
Definition buddy_pfn (p k : Z) : Z := Z.lxor p (2 ^ k).

(** Frame [q] is one of the [2 ^ k] frames of the group headed by [p]. *)
Definition in_group (p k q : Z) : Prop := p <= q < p + 2 ^ k.

(** ** The pool invariant *)

Section Invariant.

Variable PAGE_SHIFT : Z.

(** Frame [p] lies inside the pool range. *)
Definition in_range (s : state) (p : Z) : Prop :=
  valid_pfn PAGE_SHIFT p /\
  addr_in_range s (hyp_page_to_phys PAGE_SHIFT p).

(** The entry of [p] heads a group: its order is not the sentinel. *)
Definition is_head (s : state) (p : Z) : Prop :=
  page_order s p <> HYP_NO_ORDER.

(** [p] is an entry of [free_area[k]], one of the lists of the pool. *)
Definition on_free_area (s : state) (k p : Z) : Prop :=
  0 <= k <= max_order s /\ In p (free_area s k).

(** Frame [q] belongs to a free group. *)
Definition free_covered (s : state) (q : Z) : Prop :=
  exists k p, on_free_area s k p /\ in_group p k q.

(** The body of frame [q] is all zero. *)
Definition page_zero (s : state) (q : Z) : Prop :=
  node_bytes (mem s q) = false /\ data_bytes (mem s q) = false.

(** Invariant 1 of the specification: every entry of [free_area[k]] is a
    head of order [k] without a reference. *)
Definition free_entries_are_heads (s : state) : Prop :=
  forall k p, on_free_area s k p ->
              page_order s p = k /\ page_refcount s p = 0.

(** Invariant 3 of the specification, as it is worded: a free head of order
    [k < max_order] whose buddy address is inside the range does not have
    that buddy free at order [k]. *)
Definition no_free_buddies (s : state) : Prop :=
  forall k p,
    on_free_area s k p -> k < max_order s ->
    addr_in_range s (buddy_addr PAGE_SHIFT p k) ->
    ~ In (hyp_phys_to_page PAGE_SHIFT (buddy_addr PAGE_SHIFT p k))
         (free_area s k).

(** Invariant 3 for the free heads that are themselves inside the range. *)
Definition no_free_buddies_in_range (s : state) : Prop :=
  forall k p,
    on_free_area s k p -> k < max_order s ->
    addr_in_range s (hyp_page_to_phys PAGE_SHIFT p) ->
    addr_in_range s (buddy_addr PAGE_SHIFT p k) ->
    ~ In (hyp_phys_to_page PAGE_SHIFT (buddy_addr PAGE_SHIFT p k))
         (free_area s k).

(** The group of an in-range head: its order is one of the pool, the head is
    aligned on the group size, and the other frames of the group are in
    range, carry no order and no reference (invariant 4). *)
Definition group_ok (s : state) (p : Z) : Prop :=
  0 <= page_order s p <= max_order s /\
  aligned p (page_order s p) /\
  forall q, p < q < p + 2 ^ page_order s p ->
            in_range s q /\
            page_order s q = HYP_NO_ORDER /\
            page_refcount s q = 0.

(** A group given to the pool from outside: aligned, and none of its frames
    inside the range. *)
Definition external_ok (s : state) (k p : Z) : Prop :=
  aligned p k /\
  forall q, in_group p k q ->
            valid_pfn PAGE_SHIFT q /\
            ~ addr_in_range s (hyp_page_to_phys PAGE_SHIFT q).

(** The frames of a free group are zero, but for the list node that lives in
    the head. *)
Definition group_zero (s : state) (k p : Z) : Prop :=
  forall q, in_group p k q ->
            data_bytes (mem s q) = false /\
            (q <> p -> node_bytes (mem s q) = false).

(** The invariant of a pool between two operations.  [hole] names the page
    an operation is working on, which is a head without a reference that is
    on no list yet. *)
Record pool_wf_but (hole : Z -> Prop) (s : state) : Prop := mk_pool_wf {
  wf_max_order : 0 <= max_order s <= 30 /\ PAGE_SHIFT + max_order s < 64;
  wf_valid : forall k p, on_free_area s k p -> valid_pfn PAGE_SHIFT p;
  wf_heads : free_entries_are_heads s;
  wf_listed : forall p,
      in_range s p -> is_head s p -> page_refcount s p = 0 -> ~ hole p ->
      In p (free_area s (page_order s p));
  wf_buddies : no_free_buddies_in_range s;
  wf_groups : forall p, in_range s p -> is_head s p -> group_ok s p;
  wf_external : forall k p,
      on_free_area s k p -> ~ in_range s p -> external_ok s k p;
  wf_zero : forall k p, on_free_area s k p -> group_zero s k p
}.

Definition pool_wf : state -> Prop := pool_wf_but (fun _ => False).

(** The block a release is coalescing: [2 ^ k] in-range frames from [p],
    aligned, none of them a head or referenced, all zero, and none of them
    in the group of a head. *)
Definition orphan (s : state) (p k : Z) : Prop :=
  0 <= k <= max_order s /\
  aligned p k /\
  (forall q, in_group p k q ->
             in_range s q /\ page_order s q = HYP_NO_ORDER /\
             page_refcount s q = 0 /\ page_zero s q) /\
  (forall h q, in_range s h -> is_head s h ->
               in_group h (page_order s h) q -> ~ in_group p k q).

End Invariant.

(** What an operation on the lists leaves alone: the parameters of the pool,
    every reference count, and the order of every page that is
    referenced. *)
Definition frame_of (s s' : state) : Prop :=
  max_order s' = max_order s /\
  range_start s' = range_start s /\
  range_end s' = range_end s /\
  free_pages s' = free_pages s /\
  (forall q, page_refcount s' q = page_refcount s q) /\
  (forall q, page_refcount s q <> 0 -> page_order s' q = page_order s q).

(** What [put] of the page [p] guarantees about the state it leaves. *)
Definition put_post (s : state) (p : Z) (s' : state) : Prop :=
  max_order s' = max_order s /\
  range_start s' = range_start s /\
  range_end s' = range_end s /\
  (forall q, page_refcount s' q
             = if q =? p then page_refcount s p - 1 else page_refcount s q) /\
  (forall q, q <> p -> page_refcount s q <> 0 ->
             page_order s' q = page_order s q) /\
  (page_refcount s p = 1 ->
   forall q, free_covered s q \/ in_group p (page_order s p) q ->
             free_covered s' q).

(** The pages a caller may [put]: pages it holds a reference on, which are
    heads of the pool range, or external groups that are aligned, lie
    outside the range and are not free in the pool already. *)
Definition may_put (PAGE_SHIFT : Z) (s : state) (p : Z) : Prop :=
  valid_pfn PAGE_SHIFT p /\
  1 <= page_refcount s p /\
  ((in_range PAGE_SHIFT s p /\ is_head s p) \/
   (~ in_range PAGE_SHIFT s p /\
    0 <= page_order s p <= max_order s /\
    external_ok PAGE_SHIFT s (page_order s p) p /\
    ~ free_covered s p)).

(** The page [p] an allocation is carving out of the pool: unlinked, still
    without a reference, its group zeroed; it is a head of the range or an
    external group. *)
Definition extracting (PAGE_SHIFT : Z) (s : state) (p : Z) : Prop :=
  pool_wf_but PAGE_SHIFT (eq p) s /\
  valid_pfn PAGE_SHIFT p /\
  page_refcount s p = 0 /\
  0 <= page_order s p <= max_order s /\
  (forall k, ~ on_free_area s k p) /\
  (in_range PAGE_SHIFT s p \/
   external_ok PAGE_SHIFT s (page_order s p) p) /\
  (forall q, in_group p (page_order s p) q -> page_zero s q).

(** What [alloc] guarantees about its result [r] and the state it leaves. *)
Definition alloc_post (PAGE_SHIFT : Z) (s : state) (want : Z)
           (r : option Z) (s' : state) : Prop :=
  match r with
  | None => s' = s
  | Some v =>
      exists p,
        v = hyp_page_to_virt PAGE_SHIFT p /\
        valid_pfn PAGE_SHIFT p /\
        on_free_area s (page_order s p) p /\
        page_refcount s' p = 1 /\
        want <= page_order s' p <= page_order s p /\
        max_order s' = max_order s /\
        range_start s' = range_start s /\
        range_end s' = range_end s /\
        (forall q, q <> p -> page_refcount s' q = page_refcount s q) /\
        (forall q, page_refcount s q <> 0 ->
                   page_order s' q = page_order s q) /\
        (forall q, in_group p (page_order s' p) q -> page_zero s' q)
  end.

(** ** The states a pool goes through *)

(** [free_covered], computed. *)
Definition free_coveredb (s : state) (q : Z) : bool :=
  existsb (fun k => existsb (fun p => (p <=? q) && (q <? p + 2 ^ k))
                            (free_area s k))
          (zrange 0 (Z.to_nat (max_order s + 1))).

(** The calls of [hyp_pool_init] covered: the range fits the address space
    and the 32-bit page count, and the vmemmap entries of the range are
    zeroed as far as the order goes. *)
Definition init_ok (PAGE_SHIFT : Z) (s : state)
           (pfn nr_pages reserved_pages : Z) : Prop :=
  0 <= pfn /\
  0 <= reserved_pages <= nr_pages /\
  nr_pages * 2 ^ PAGE_SHIFT < 2 ^ 32 /\
  pfn + nr_pages < 2 ^ (64 - PAGE_SHIFT) /\
  forall q, pfn <= q < pfn + nr_pages -> page_order s q = 0.

(** The states of a pool whose callers keep to the contract: they put, get
    and split pages they hold a reference on, and write only into pages
    that are not free. *)
Inductive reachable (PAGE_SHIFT MAX_ORDER : Z) : state -> Prop :=
| reach_init : forall s pfn nr_pages reserved_pages s',
    init_ok PAGE_SHIFT s pfn nr_pages reserved_pages ->
    hyp_pool_init PAGE_SHIFT MAX_ORDER s pfn nr_pages reserved_pages
    = Some s' ->
    reachable PAGE_SHIFT MAX_ORDER s'
| reach_init_empty : forall s nr_pages s',
    hyp_pool_init_empty PAGE_SHIFT MAX_ORDER s nr_pages = Some s' ->
    reachable PAGE_SHIFT MAX_ORDER s'
| reach_alloc : forall s want r s',
    reachable PAGE_SHIFT MAX_ORDER s ->
    0 <= want ->
    hyp_alloc_pages PAGE_SHIFT s want = Some (r, s') ->
    reachable PAGE_SHIFT MAX_ORDER s'
| reach_put : forall s p s',
    reachable PAGE_SHIFT MAX_ORDER s ->
    may_put PAGE_SHIFT s p ->
    hyp_put_page PAGE_SHIFT s (hyp_page_to_virt PAGE_SHIFT p) = Some s' ->
    reachable PAGE_SHIFT MAX_ORDER s'
| reach_get : forall s p,
    reachable PAGE_SHIFT MAX_ORDER s ->
    valid_pfn PAGE_SHIFT p ->
    1 <= page_refcount s p ->
    reachable PAGE_SHIFT MAX_ORDER
              (hyp_get_page PAGE_SHIFT s (hyp_page_to_virt PAGE_SHIFT p))
| reach_split : forall s p,
    reachable PAGE_SHIFT MAX_ORDER s ->
    in_range PAGE_SHIFT s p -> is_head s p ->
    1 <= page_refcount s p ->
    reachable PAGE_SHIFT MAX_ORDER (hyp_split_page s p)
| reach_write : forall s q body,
    reachable PAGE_SHIFT MAX_ORDER s ->
    free_coveredb s q = false ->
    reachable PAGE_SHIFT MAX_ORDER (set_mem s (upd (mem s) q body)).

(** The outcome of an allocation known to succeed. *)
Definition result_of (r : option (option Z * state)) : option Z * state :=
  match r with
  | Some x => x
  | None => (None, boot_state)
  end.

(** A page is allocated from S1, written to, and put back. *)
Abbreviation S1_alloc :=
  (snd (result_of (hyp_alloc_pages 12 (state_of S1) 0))).
Abbreviation S1_written :=
  (set_mem S1_alloc (upd (mem S1_alloc) 0 dirty_body)).
Abbreviation S1_put_back :=
  (state_of (hyp_put_page 12 S1_written (hyp_page_to_virt 12 0))).

(** The operation did not stop. *)
Definition succeeded {A : Type} (r : option A) : bool :=
  match r with
  | Some _ => true
  | None => false
  end.

(** S6: a two-page pool whose order-1 group is allocated and split; both
    pages are then put, the upper one first. *)
Abbreviation S6 := (hyp_pool_init 12 4 boot_state 0 2 0).
Abbreviation S6_alloc :=
  (snd (result_of (hyp_alloc_pages 12 (state_of S6) 1))).
Abbreviation S6_split := (hyp_split_page S6_alloc 0).
Abbreviation S6_put_all := (put_pages 12 S6_split [1; 0]).

(** Of a two-page pool, what the counter is not: the bodies of the two
    frames and the parameters of the pool. *)
Definition pool_shape (s : state) : list page_body * Z * Z * Z :=
  (map (mem s) [0; 1], max_order s, range_start s, range_end s).

(** Frame 0 of S1 held by two references. *)
Abbreviation S1_shared := (hyp_get_page 12 S1_alloc (hyp_page_to_virt 12 0)).

(** An empty-range pool, before the frames 100 and 101 are put into it. *)
Abbreviation S5_empty := (state_of (hyp_pool_init_empty 12 4 S5_frames 8)).

(** * Properties *)

Section Proofs.

Variable PAGE_SHIFT : Z.
Variable MAX_ORDER : Z.

Local Abbreviation PAGE_SIZE := (PAGE_SIZE PAGE_SHIFT).
Local Abbreviation hyp_page_to_phys := (hyp_page_to_phys PAGE_SHIFT).
Local Abbreviation hyp_phys_to_page := (hyp_phys_to_page PAGE_SHIFT).
Local Abbreviation hyp_page_to_virt := (hyp_page_to_virt PAGE_SHIFT).
Local Abbreviation hyp_virt_to_page := (hyp_virt_to_page PAGE_SHIFT).
Local Abbreviation __find_buddy_nocheck := (__find_buddy_nocheck PAGE_SHIFT).
Local Abbreviation __find_buddy_avail := (__find_buddy_avail PAGE_SHIFT).
Local Abbreviation attach_loop := (attach_loop PAGE_SHIFT).
Local Abbreviation __hyp_attach_page := (__hyp_attach_page PAGE_SHIFT).
Local Abbreviation extract_loop := (extract_loop PAGE_SHIFT).
Local Abbreviation __hyp_extract_page := (__hyp_extract_page PAGE_SHIFT).
Local Abbreviation __hyp_put_page := (__hyp_put_page PAGE_SHIFT).
Local Abbreviation hyp_put_page := (hyp_put_page PAGE_SHIFT).
Local Abbreviation hyp_get_page := (hyp_get_page PAGE_SHIFT).
Local Abbreviation hyp_alloc_pages := (hyp_alloc_pages PAGE_SHIFT).
Local Abbreviation hyp_pool_init := (hyp_pool_init PAGE_SHIFT MAX_ORDER).
Local Abbreviation hyp_pool_init_empty := (hyp_pool_init_empty PAGE_SHIFT MAX_ORDER).
Local Abbreviation buddy_addr := (buddy_addr PAGE_SHIFT).
Local Abbreviation buddy_avail := (buddy_avail PAGE_SHIFT).
Local Abbreviation coalesce_run := (coalesce_run PAGE_SHIFT).
Local Abbreviation split_run := (split_run PAGE_SHIFT).

(** ** Machine arithmetic *)

Lemma u8_small (x : Z) : 0 <= x < 256 -> u8 x = x.
Proof. intros H. unfold u8. apply Z.mod_small. lia. Qed.

Lemma int_shl1_small (n : Z) : 0 <= n <= 30 -> int_shl1 n = 2 ^ n.
Proof.
  intros H. unfold int_shl1, shl32, u32.
  rewrite (Z.mod_small n 32) by lia.
  rewrite Z.shiftl_1_l.
  assert (Hp : 0 < 2 ^ n <= 2 ^ 30) by
    (split; [apply Z.pow_pos_nonneg; lia | apply Z.pow_le_mono_r; lia]).
  change (2 ^ 30) with 1073741824 in Hp.
  rewrite Z.mod_small by (change (2 ^ 32) with 4294967296; lia).
  destruct (Z.ltb_spec (2 ^ n) (2 ^ 31)) as [_ | Hge]; [reflexivity|].
  change (2 ^ 31) with 2147483648 in Hge. lia.
Qed.

(** ** Reading a state after an update *)

Lemma upd_same {A : Type} (f : Z -> A) (k : Z) (v : A) : upd f k v k = v.
Proof. unfold upd. now rewrite Z.eqb_refl. Qed.

Lemma upd_other {A : Type} (f : Z -> A) (k j : Z) (v : A) :
  j <> k -> upd f k v j = f j.
Proof. intros H. unfold upd. now apply Z.eqb_neq in H as ->. Qed.

Lemma page_order_set_order (s : state) (p o q : Z) :
  page_order (set_order s p o) q = if q =? p then o else page_order s q.
Proof.
  unfold page_order, set_order, set_vmemmap, upd; simpl.
  now destruct (q =? p).
Qed.

Lemma page_refcount_set_order (s : state) (p o q : Z) :
  page_refcount (set_order s p o) q = page_refcount s q.
Proof.
  unfold page_refcount, set_order, set_vmemmap, upd; simpl.
  destruct (Z.eqb_spec q p) as [-> | _]; reflexivity.
Qed.

Lemma page_order_set_refcount (s : state) (p r q : Z) :
  page_order (set_refcount s p r) q = page_order s q.
Proof.
  unfold page_order, set_refcount, set_vmemmap, upd; simpl.
  destruct (Z.eqb_spec q p) as [-> | _]; reflexivity.
Qed.

Lemma page_refcount_set_refcount (s : state) (p r q : Z) :
  page_refcount (set_refcount s p r) q =
  if q =? p then r else page_refcount s q.
Proof.
  unfold page_refcount, set_refcount, set_vmemmap, upd; simpl.
  now destruct (q =? p).
Qed.

(** ** Free-list primitives *)

Lemma on_list_In (p : Z) (l : list Z) : on_list p l = true <-> In p l.
Proof.
  unfold on_list. rewrite existsb_exists. split.
  - intros (x & Hx & He). apply Z.eqb_eq in He. now subst.
  - intros H. exists p. split; [assumption | apply Z.eqb_refl].
Qed.

Lemma In_zrange (lo : Z) (n : nat) (x : Z) :
  In x (zrange lo n) <-> lo <= x < lo + Z.of_nat n.
Proof.
  unfold zrange. rewrite in_map_iff. split.
  - intros (i & <- & Hi). apply in_seq in Hi. lia.
  - intros H. exists (Z.to_nat (x - lo)). split; [lia|].
    apply in_seq. lia.
Qed.

Lemma on_free_list_iff (s : state) (p : Z) :
  on_free_list s p = true <->
  exists k, 0 <= k <= max_order s /\ In p (free_area s k).
Proof.
  unfold on_free_list. rewrite existsb_exists. split.
  - intros (k & Hk & Hp). apply In_zrange in Hk. apply on_list_In in Hp.
    exists k. split; [lia | assumption].
  - intros (k & Hk & Hp). exists k. split.
    + apply In_zrange. lia.
    + now apply on_list_In.
Qed.

Lemma In_list_del (p q : Z) (l : list Z) :
  In q (list_del p l) <-> In q l /\ q <> p.
Proof.
  unfold list_del. rewrite filter_In.
  destruct (Z.eqb_spec q p); simpl; intuition congruence.
Qed.

(** ** The scan of [hyp_alloc_pages] *)

Lemma alloc_scan_none (s : state) :
  max_order s < 255 ->
  forall (fuel : nat) (i : Z),
    0 <= i ->
    (forall j, i <= j <= max_order s -> free_area s j = []) ->
    max_order s + 1 - i <= Z.of_nat fuel ->
    max_order s < alloc_scan fuel s i.
Proof.
  intros Hmax. induction fuel as [| fuel IH]; intros i Hi Hempty Hfuel.
  - simpl. lia.
  - simpl. destruct (Z.leb_spec i (max_order s)) as [Hle | Hgt]; simpl.
    + rewrite (Hempty i) by lia. simpl.
      rewrite u8_small by lia.
      apply IH; [lia | intros j Hj; apply Hempty; lia | lia].
    + lia.
Qed.

Lemma alloc_scan_first (s : state) :
  max_order s < 255 ->
  forall (fuel : nat) (i i0 : Z),
    0 <= i <= i0 -> i0 <= max_order s ->
    (forall j, i <= j < i0 -> free_area s j = []) ->
    free_area s i0 <> [] ->
    alloc_scan fuel s i <= i0 ->
    i0 - i < Z.of_nat fuel ->
    alloc_scan fuel s i = i0.
Proof.
  intros Hmax. induction fuel as [| fuel IH]; intros i i0 Hi Hi0 Hempty Hne _ Hf.
  - lia.
  - simpl. destruct (Z.eq_dec i i0) as [-> | Hneq].
    + destruct (free_area s i0) eqn:E; [congruence|].
      now rewrite andb_false_r.
    + assert (Hle : (i <=? max_order s) = true) by (apply Z.leb_le; lia).
      rewrite Hle, (Hempty i) by lia. simpl.
      rewrite u8_small by lia.
      assert (Hrec : forall f j, j <= i0 -> 
                (forall x, j <= x < i0 -> free_area s x = []) ->
                0 <= j -> alloc_scan f s j <= i0).
      { induction f as [| f IHf]; intros j Hj He Hj0; simpl; [lia|].
        destruct ((j <=? max_order s) && list_empty (free_area s j)) eqn:Eb;
          [| lia].
        destruct (Z.eq_dec j i0) as [-> | Hn].
        - apply andb_prop in Eb as [_ Eb].
          destruct (free_area s i0); [congruence | discriminate].
        - rewrite u8_small by lia.
          apply IHf; [lia | intros x Hx; apply He; lia | lia]. }
      apply IH; try lia.
      * intros j Hj. apply Hempty. lia.
      * assumption.
      * apply Hrec; [lia | intros x Hx; apply Hempty; lia | lia].
Qed.

(** ** Allocation failure *)

Lemma alloc_null (s : state) (want : Z) :
  0 <= want ->
  max_order s < 255 ->
  (forall i, want <= i <= max_order s -> free_area s i = []) ->
  hyp_alloc_pages s want = Some (None, s).
Proof.
  intros Hw Hmax Hempty. unfold hyp_alloc_pages.
  pose proof (alloc_scan_none s Hmax
                (Z.to_nat (max_order s + 1 - want)) want Hw Hempty) as Hs.
  apply Z.ltb_lt in Hs; [| lia].
  now rewrite Hs.
Qed.

(** ** Fields left alone by the list primitives *)

Lemma page_add_to_list_inv (s s' : state) (p k : Z) :
  page_add_to_list s p k = Some s' ->
  0 <= k <= max_order s /\
  s' = set_node_bytes
         (set_free_area s (upd (free_area s) k (free_area s k ++ [p]))) p true.
Proof.
  unfold page_add_to_list.
  destruct (Z.leb_spec 0 k), (Z.leb_spec k (max_order s)); simpl;
    intros [= <-] || discriminate.
  split; [lia | reflexivity].
Qed.

Lemma page_add_to_list_ok (s : state) (p k : Z) :
  0 <= k <= max_order s ->
  page_add_to_list s p k =
  Some (set_node_bytes
          (set_free_area s (upd (free_area s) k (free_area s k ++ [p])))
          p true).
Proof.
  intros [H0 H1]. unfold page_add_to_list.
  apply Z.leb_le in H0, H1. now rewrite H0, H1.
Qed.

Lemma page_remove_from_list_inv (s s' : state) (p : Z) :
  page_remove_from_list s p = Some s' ->
  on_free_list s p = true /\
  s' = set_node_bytes
         (set_free_area s (fun k => list_del p (free_area s k))) p false.
Proof.
  unfold page_remove_from_list.
  destruct (on_free_list s p); intros [= <-] || discriminate.
  now split.
Qed.

Lemma nocheck_some (s : state) (p k b : Z) :
  __find_buddy_nocheck s p k = Some b <->
  addr_in_range s (buddy_addr p k) /\ b = hyp_phys_to_page (buddy_addr p k).
Proof.
  unfold __find_buddy_nocheck, addr_in_range, buddy_addr.
  destruct (Z.ltb_spec (Z.lxor (hyp_page_to_phys p) (shl64 PAGE_SIZE k))
                       (range_start s));
    destruct (Z.leb_spec (range_end s)
                (Z.lxor (hyp_page_to_phys p) (shl64 PAGE_SIZE k)));
    simpl; split; try (intros [= <-]); try discriminate; try lia;
    try (intros [? ->]); try (split; [lia | reflexivity]); try reflexivity;
    lia.
Qed.

Lemma nocheck_none (s : state) (p k : Z) :
  __find_buddy_nocheck s p k = None <-> ~ addr_in_range s (buddy_addr p k).
Proof.
  destruct (__find_buddy_nocheck s p k) as [b|] eqn:E.
  - apply nocheck_some in E as [Hin _]. split; [discriminate | tauto].
  - split; [| reflexivity]. intros _ Hin.
    assert (H : __find_buddy_nocheck s p k
                = Some (hyp_phys_to_page (buddy_addr p k)))
      by (apply nocheck_some; now split).
    congruence.
Qed.

Lemma avail_some (s : state) (p k b : Z) :
  __find_buddy_avail s p k = Some b <-> buddy_avail s p k b.
Proof.
  unfold __find_buddy_avail, buddy_avail, hyp_refcount_get.
  destruct (__find_buddy_nocheck s p k) as [b'|] eqn:E.
  - apply nocheck_some in E as [Hin ->].
    destruct (Z.eqb_spec (page_order s (hyp_phys_to_page (buddy_addr p k))) k);
      destruct (Z.eqb_spec
                  (page_refcount s (hyp_phys_to_page (buddy_addr p k))) 0);
      simpl; split; try (intros [= <-]); try discriminate; try tauto;
      try (intros (_ & -> & ? & ?)); try reflexivity; try congruence.
  - apply nocheck_none in E. split; [discriminate | tauto].
Qed.

Lemma avail_none (s : state) (p k : Z) :
  __find_buddy_avail s p k = None <-> forall b, ~ buddy_avail s p k b.
Proof.
  split.
  - intros E b Hb. apply avail_some in Hb. congruence.
  - intros H. destruct (__find_buddy_avail s p k) as [b|] eqn:E;
      [| reflexivity].
    apply avail_some in E. now apply H in E.
Qed.

(** ** The list primitives against their specification *)

Lemma list_del_remove (p : Z) (l : list Z) :
  list_del p l = remove Z.eq_dec p l.
Proof.
  unfold list_del. induction l as [| a l IH]; simpl; [reflexivity|].
  destruct (Z.eq_dec p a) as [<- | Hne].
  - rewrite Z.eqb_refl. simpl. exact IH.
  - assert (E : (a =? p) = false) by (apply Z.eqb_neq; congruence).
    rewrite E. simpl. now rewrite IH.
Qed.

Lemma same_pool_refl (s : state) : same_pool s s.
Proof. repeat split. Qed.

Lemma same_pool_trans (s1 s2 s3 : state) :
  same_pool s1 s2 -> same_pool s2 s3 -> same_pool s1 s3.
Proof.
  intros (A1 & A2 & A3 & A4) (B1 & B2 & B3 & B4).
  repeat split; congruence.
Qed.

Lemma page_remove_unlinked (s s1 : state) (b : Z) :
  page_remove_from_list s b = Some s1 -> unlinked s b s1.
Proof.
  intros H. apply page_remove_from_list_inv in H as [_ ->].
  split; [| split; [| split; [| split]]].
  - intros j. cbn. apply list_del_remove.
  - reflexivity.
  - cbn. now rewrite upd_same.
  - intros q Hq. cbn. now rewrite upd_other.
  - repeat split.
Qed.

Lemma page_add_linked (s s1 : state) (p k : Z) :
  page_add_to_list s p k = Some s1 -> linked_at_tail s p k s1.
Proof.
  intros H. apply page_add_to_list_inv in H as [_ ->].
  split; [| split; [| split; [| split; [| split]]]].
  - cbn. now rewrite upd_same.
  - intros j Hj. cbn. now rewrite upd_other.
  - reflexivity.
  - cbn. now rewrite upd_same.
  - intros q Hq. cbn. now rewrite upd_other.
  - repeat split.
Qed.

Lemma set_order_order_set (s : state) (p o : Z) :
  order_set s p o (set_order s p o).
Proof.
  split; [| split; [| split; [| split]]].
  - cbn. now rewrite upd_same.
  - intros q Hq. cbn. now rewrite upd_other.
  - reflexivity.
  - reflexivity.
  - repeat split.
Qed.

Lemma order_set_view (s s' : state) (p o : Z) :
  order_set s p o s' ->
  page_order s' p = o /\
  (forall q, q <> p -> page_order s' q = page_order s q) /\
  (forall q, page_refcount s' q = page_refcount s q).
Proof.
  intros (Hp & Hq & _). unfold page_order, page_refcount.
  split; [now rewrite Hp|]. split.
  - intros q Hne. now rewrite Hq.
  - intros q. destruct (Z.eq_dec q p) as [-> | Hne].
    + now rewrite Hp.
    + now rewrite Hq.
Qed.

(** ** The split loop against its specification *)

Lemma split_half_view (s s1 s2 s3 : state) (p b k : Z) :
  order_set s p k s1 ->
  order_set s1 b k s2 ->
  linked_at_tail s2 b k s3 ->
  page_order s3 p = k /\ same_pool s s3 /\
  (forall q, page_refcount s3 q = page_refcount s q).
Proof.
  intros H1 H2 H3.
  destruct (order_set_view _ _ _ _ H1) as (A1 & A2 & A3).
  destruct (order_set_view _ _ _ _ H2) as (B1 & B2 & B3).
  destruct H1 as (_ & _ & _ & _ & P1).
  destruct H2 as (_ & _ & _ & _ & P2).
  destruct H3 as (_ & _ & Hvm & _ & _ & P3).
  split; [| split].
  - unfold page_order. rewrite Hvm. fold (page_order s2 p).
    destruct (Z.eq_dec p b) as [-> | Hne]; [exact B1|].
    now rewrite B2.
  - exact (same_pool_trans _ _ _ (same_pool_trans _ _ _ P1 P2) P3).
  - intros q. unfold page_refcount. rewrite Hvm.
    fold (page_refcount s2 q). now rewrite B3, A3.
Qed.

Lemma extract_loop_split_run (want p : Z) :
  forall (fuel : nat) (s s' : state),
    page_order s p - want <= Z.of_nat fuel ->
    extract_loop fuel s p want = Some s' ->
    split_run p want s s'.
Proof.
  induction fuel as [| fuel IH]; intros s s' Hfuel Hrun; simpl in Hrun.
  - injection Hrun as <-. apply split_done. lia.
  - destruct (Z.ltb_spec want (page_order s p)) as [Hlt | Hge].
    + destruct (__find_buddy_nocheck s p (page_order s p - 1)) as [b|] eqn:Eb.
      * apply nocheck_some in Eb as [Hin ->].
        match type of Hrun with
        | bind ?m _ = _ => destruct m as [s3|] eqn:Eadd
        end; [| discriminate].
        simpl in Hrun.
        set (b := hyp_phys_to_page (buddy_addr p (page_order s p - 1))) in *.
        set (s1 := set_order s p (page_order s p - 1)) in *.
        assert (E1 : page_order s1 p = page_order s p - 1)
          by (unfold s1; now rewrite page_order_set_order, Z.eqb_refl).
        rewrite E1 in Eadd.
        set (s2 := set_order s1 b (page_order s p - 1)) in *.
        assert (E2 : page_order s2 b = page_order s p - 1)
          by (unfold s2; now rewrite page_order_set_order, Z.eqb_refl).
        rewrite E2 in Eadd.
        assert (O1 : order_set s p (page_order s p - 1) s1)
          by apply set_order_order_set.
        assert (O2 : order_set s1 b (page_order s p - 1) s2)
          by apply set_order_order_set.
        assert (L3 : linked_at_tail s2 b (page_order s p - 1) s3)
          by now apply page_add_linked.
        apply (split_half PAGE_SHIFT p want s b s1 s2 s3 s' Hlt Hin eq_refl O1 O2 L3).
        apply IH; [| assumption].
        destruct (split_half_view _ _ _ _ _ _ _ O1 O2 L3) as [Ho _]. lia.
      * injection Hrun as <-. apply split_oversize; [assumption|].
        now apply nocheck_none.
    + injection Hrun as <-. apply split_done. lia.
Qed.

Lemma split_half_fields (s s3 : state) (p b : Z) :
  let s1 := set_order s p (page_order s p - 1) in
  let s2 := set_order s1 b (page_order s1 p) in
  page_add_to_list s2 b (page_order s2 b) = Some s3 ->
  page_order s3 p = page_order s p - 1 /\
  max_order s3 = max_order s /\
  range_start s3 = range_start s /\
  range_end s3 = range_end s /\
  free_pages s3 = free_pages s /\
  (forall q, page_refcount s3 q = page_refcount s q).
Proof.
  intros s1 s2 Hadd. apply page_add_to_list_inv in Hadd as [_ ->].
  assert (H1 : page_order s1 p = page_order s p - 1).
  { unfold s1. rewrite page_order_set_order. now rewrite Z.eqb_refl. }
  repeat split.
  - change (page_order s2 p = page_order s p - 1).
    unfold s2. rewrite page_order_set_order, H1. now destruct (p =? b).
  - intros q. change (page_refcount s2 q = page_refcount s q).
    unfold s2, s1. now rewrite !page_refcount_set_order.
Qed.

Lemma extract_loop_ok (want p : Z) :
  0 <= want ->
  forall (fuel : nat) (s : state),
    page_order s p <= max_order s ->
    exists s', extract_loop fuel s p want = Some s'.
Proof.
  intros Hw. induction fuel as [| fuel IH]; intros s Hmax; simpl.
  - now exists s.
  - destruct (Z.ltb_spec want (page_order s p)) as [Hlt | Hge];
      [| now exists s].
    destruct (__find_buddy_nocheck s p (page_order s p - 1)) as [b|];
      [| now exists s].
    set (s1 := set_order s p (page_order s p - 1)).
    set (s2 := set_order s1 b (page_order s1 p)).
    assert (H2 : page_order s2 b = page_order s p - 1).
    { unfold s2. rewrite page_order_set_order, Z.eqb_refl.
      unfold s1. now rewrite page_order_set_order, Z.eqb_refl. }
    assert (Hadd : exists s3, page_add_to_list s2 b (page_order s2 b) = Some s3).
    { rewrite page_add_to_list_ok; [eauto|]. rewrite H2.
      change (max_order s2) with (max_order s). lia. }
    destruct Hadd as [s3 Hadd]. rewrite Hadd. simpl.
    apply split_half_fields in Hadd as (Ho & Hm & _).
    apply IH. lia.
Qed.

Lemma split_run_final (want p : Z) (s s' : state) :
  split_run p want s s' ->
  want <= page_order s p ->
  want <= page_order s' p <= page_order s p /\
  (page_order s' p = want \/
   (want < page_order s' p /\
    ~ addr_in_range s' (buddy_addr p (page_order s' p - 1)))).
Proof.
  induction 1 as [s Hle | s Hlt Hout
                  | s b s1 s2 s3 s' Hlt Hin Hb O1 O2 L3 _ IH];
    intros Hw.
  - split; [lia | left; lia].
  - split; [lia | right; now split].
  - destruct (split_half_view _ _ _ _ _ _ _ O1 O2 L3) as [Ho _].
    destruct IH as [IH1 IH2]; [lia|]. split; [lia | assumption].
Qed.

Lemma split_run_fields (want p : Z) (s s' : state) :
  split_run p want s s' ->
  max_order s' = max_order s /\
  range_start s' = range_start s /\
  range_end s' = range_end s /\
  free_pages s' = free_pages s /\
  (forall q, page_refcount s' q = page_refcount s q).
Proof.
  induction 1 as [s Hle | s Hlt Hout
                  | s b s1 s2 s3 s' Hlt Hin Hb O1 O2 L3 _ IH];
    try (repeat split; reflexivity).
  destruct (split_half_view _ _ _ _ _ _ _ O1 O2 L3)
    as (_ & (Hm & Hs & He & Hf) & Hr).
  destruct IH as (IHm & IHs & IHe & IHf & IHr).
  repeat split; try congruence.
Qed.

(** ** Extract *)

Lemma extract_page_run (s : state) (p want : Z) :
  on_free_list s p = true ->
  0 <= want <= page_order s p ->
  page_order s p <= max_order s ->
  exists s0 s',
    __hyp_extract_page s p want = Some (s', p) /\
    unlinked s p s0 /\
    split_run p want s0 s' /\
    (page_order s' p = want \/
     (want < page_order s' p /\
      ~ addr_in_range s' (buddy_addr p (page_order s' p - 1)))).
Proof.
  intros Hon Hw Hmax.
  set (s0 := set_node_bytes
               (set_free_area s (fun k => list_del p (free_area s k)))
               p false).
  assert (Hrem : page_remove_from_list s p = Some s0)
    by (unfold page_remove_from_list; now rewrite Hon).
  assert (Ho : page_order s0 p = page_order s p) by reflexivity.
  destruct (extract_loop_ok want p (proj1 Hw)
              (Z.to_nat (page_order s0 p - want)) s0) as [s' Hloop].
  { rewrite Ho. exact Hmax. }
  assert (Hrun : split_run p want s0 s')
    by (eapply extract_loop_split_run; [| exact Hloop]; lia).
  exists s0, s'. split; [| split; [| split]].
  - unfold __hyp_extract_page. rewrite Hrem. simpl. now rewrite Hloop.
  - now apply page_remove_unlinked.
  - exact Hrun.
  - apply (split_run_final want p s0 s' Hrun). lia.
Qed.


(** ** The coalescing loop against its specification *)

Lemma attach_loop_coalesce_run :
  forall (fuel : nat) (s : state) (p k : Z) (s' : state) (p' k' : Z),
    max_order s - k <= Z.of_nat fuel ->
    attach_loop fuel s p k = Some (s', p', k') ->
    coalesce_run s p k s' p' k'.
Proof.
  induction fuel as [| fuel IH]; intros s p k s' p' k' Hfuel Hrun;
    simpl in Hrun.
  - injection Hrun as <- <- <-. apply coalesce_top. lia.
  - destruct (Z.leb_spec (k + 1) (max_order s)) as [Hle | Hgt].
    + destruct (__find_buddy_avail s p k) as [b|] eqn:Eb.
      * apply avail_some in Eb.
        destruct (page_remove_from_list s b) as [s1|] eqn:Erem;
          [| discriminate].
        simpl in Hrun.
        apply (coalesce_merge PAGE_SHIFT s p k b s1
                              (set_order s1 b HYP_NO_ORDER) s' p' k');
          [lia | exact Eb | now apply page_remove_unlinked
           | apply set_order_order_set |].
        apply IH; [| assumption].
        apply page_remove_from_list_inv in Erem as [_ ->].
        change (max_order s - (k + 1) <= Z.of_nat fuel). lia.
      * injection Hrun as <- <- <-.
        apply coalesce_stop; [lia | now apply avail_none].
    + injection Hrun as <- <- <-. apply coalesce_top. lia.
Qed.


(** ** Allocation *)

Lemma alloc_first_entry (s : state) (want : Z) :
  0 <= want ->
  max_order s <= 30 ->
  ((forall i, want <= i <= max_order s -> free_area s i = []) ->
   hyp_alloc_pages s want = Some (None, s)) /\
  (forall (i p : Z) (l : list Z),
      want <= i <= max_order s ->
      (forall j, want <= j < i -> free_area s j = []) ->
      free_area s i = p :: l ->
      page_order s p = i ->
      exists s1 s',
        __hyp_extract_page s p want = Some (s1, p) /\
        hyp_alloc_pages s want = Some (Some (hyp_page_to_virt p), s') /\
        s' = set_free_pages (hyp_set_page_refcounted s1 p) (free_pages s') /\
        page_refcount s' p = 1 /\
        free_pages s' = u64 (free_pages s - 2 ^ page_order s' p) /\
        want <= page_order s' p <= i /\
        (page_order s' p = want \/
         (want < page_order s' p /\
          ~ addr_in_range s' (buddy_addr p (page_order s' p - 1))))).
Proof.
  intros Hw Hmax. split.
  - apply alloc_null; lia.
  - intros i p l Hi Hempty Hfa Hord.
    assert (Hon : on_free_list s p = true).
    { apply on_free_list_iff. exists i. split; [lia|].
      rewrite Hfa. now left. }
    destruct (extract_page_run s p want Hon ltac:(lia) ltac:(lia))
      as (s0 & s1 & Hext & Hunl & Hrun & Hfin).
    destruct Hunl as (_ & Hvm0 & _ & _ & (_ & _ & _ & Hfp0)).
    assert (H0 : page_order s0 p = page_order s p)
      by (unfold page_order; now rewrite Hvm0).
    destruct (split_run_final want p s0 s1 Hrun ltac:(lia)) as [Hb _].
    destruct (split_run_fields want p s0 s1 Hrun)
      as (_ & Hrs & Hre & Hfp & _).
    assert (Hscan : alloc_scan (Z.to_nat (max_order s + 1 - want)) s want = i).
    { assert (Hne : free_area s i <> []) by (rewrite Hfa; discriminate).
      assert (Hub : forall f j, 0 <= j <= i ->
                 (forall x, j <= x < i -> free_area s x = []) ->
                 alloc_scan f s j <= i).
      { induction f as [| f IHf]; intros j Hj He; simpl; [lia|].
        destruct ((j <=? max_order s) && list_empty (free_area s j)) eqn:Eb;
          [| lia].
        destruct (Z.eq_dec j i) as [-> | Hn].
        - apply andb_prop in Eb as [_ Eb]. rewrite Hfa in Eb. discriminate.
        - rewrite u8_small by lia.
          apply IHf; [lia | intros x Hx; apply He; lia]. }
      apply alloc_scan_first; try lia; try assumption.
      apply Hub; [lia | assumption]. }
    exists s1.
    eexists. split; [exact Hext|].
    unfold hyp_alloc_pages. rewrite Hscan.
    destruct (Z.ltb_spec (max_order s) i) as [? | _]; [lia|].
    rewrite Hfa, Hext. cbn [bind].
    assert (Ho' : page_order (hyp_set_page_refcounted s1 p) p
                  = page_order s1 p)
      by (unfold hyp_set_page_refcounted; apply page_order_set_refcount).
    rewrite Ho'.
    split; [reflexivity|]. split; [reflexivity|].
    split.
    { unfold page_refcount, hyp_set_page_refcounted, set_refcount; simpl.
      now rewrite upd_same. }
    change (page_order (set_free_pages (hyp_set_page_refcounted s1 p) _) p)
      with (page_order (hyp_set_page_refcounted s1 p) p).
    rewrite Ho'.
    change (addr_in_range (set_free_pages (hyp_set_page_refcounted s1 p) _))
      with (addr_in_range s1).
    split.
    { cbn [free_pages set_free_pages hyp_set_page_refcounted set_refcount
           set_vmemmap].
      rewrite Hfp, Hfp0.
      rewrite int_shl1_small by lia. reflexivity. }
    split; [lia | exact Hfin].
Qed.


(** ** Address mapping *)

Section Addresses.

Hypothesis PAGE_SHIFT_range : 0 <= PAGE_SHIFT <= 64.

Local Abbreviation valid_pfn := (valid_pfn PAGE_SHIFT).

Lemma phys_of_valid (p : Z) : valid_pfn p -> hyp_page_to_phys p = p * 2 ^ PAGE_SHIFT.
Proof.
  intros [H0 H1].
  unfold hyp_page_to_phys, hyp_pfn_to_phys, u64.
  rewrite Z.shiftl_mul_pow2 by lia.
  apply Z.mod_small. split; [apply Z.mul_nonneg_nonneg; lia|].
  replace (2 ^ 64) with (2 ^ (64 - PAGE_SHIFT) * 2 ^ PAGE_SHIFT)
    by (rewrite <- Z.pow_add_r by lia; f_equal; lia).
  apply Z.mul_lt_mono_pos_r; [apply Z.pow_pos_nonneg; lia | assumption].
Qed.

Lemma virt_to_page_to_virt (p : Z) :
  valid_pfn p -> hyp_virt_to_page (hyp_page_to_virt p) = p.
Proof.
  intros Hp.
  unfold hyp_virt_to_page, hyp_page_to_virt.
  rewrite phys_of_valid by assumption.
  unfold hyp_phys_to_page, hyp_phys_to_pfn.
  rewrite Z.shiftr_div_pow2 by lia.
  apply Z.div_mul. apply Z.pow_nonzero; lia.
Qed.

End Addresses.


(** ** External pages *)

Lemma vmemmap_set_order_same (s : state) (p q : Z) :
  vmemmap (set_order s p (page_order s p)) q = vmemmap s q.
Proof.
  unfold set_order, set_vmemmap, upd, page_order, page_refcount; simpl.
  destruct (Z.eqb_spec q p) as [-> | _]; [| reflexivity].
  now destruct (vmemmap s p).
Qed.

Lemma attach_external (s : state) (p : Z) :
  ~ addr_in_range s (hyp_page_to_phys p) ->
  0 <= page_order s p <= max_order s ->
  exists s',
    __hyp_attach_page s p = Some s' /\
    (forall k, free_area s' k =
               if k =? page_order s p then free_area s k ++ [p]
               else free_area s k) /\
    (forall q, vmemmap s' q = vmemmap s q) /\
    max_order s' = max_order s /\
    range_start s' = range_start s /\
    range_end s' = range_end s /\
    free_pages s' = free_pages s.
Proof.
  intros Hout Hord. unfold __hyp_attach_page.
  change (range_start (memset_pages PAGE_SHIFT s p _)) with (range_start s).
  change (range_end (memset_pages PAGE_SHIFT s p _)) with (range_end s).
  assert (Hb : (hyp_page_to_phys p <? range_start s)
               || (range_end s <=? hyp_page_to_phys p) = true).
  { unfold addr_in_range in Hout.
    destruct (Z.ltb_spec (hyp_page_to_phys p) (range_start s));
      destruct (Z.leb_spec (range_end s) (hyp_page_to_phys p));
      simpl; try reflexivity; lia. }
  rewrite Hb. unfold attach_insert.
  rewrite page_add_to_list_ok by exact Hord.
  eexists. split; [reflexivity|]. repeat split.
  - intros k. simpl. unfold upd.
    destruct (Z.eqb_spec k (page_order s p)) as [-> | _]; reflexivity.
  - intros q.
    exact (vmemmap_set_order_same
             (memset_pages PAGE_SHIFT s p (shl64 PAGE_SIZE (page_order s p)))
             p q).
Qed.

Lemma put_external (s : state) (p : Z) :
  ~ addr_in_range s (hyp_page_to_phys p) ->
  page_refcount s p = 1 ->
  0 <= page_order s p <= max_order s ->
  exists s',
    __hyp_put_page s p = Some s' /\
    (forall k, free_area s' k =
               if k =? page_order s p then free_area s k ++ [p]
               else free_area s k) /\
    (forall q, page_order s' q = page_order s q) /\
    (forall q, page_refcount s' q = if q =? p then 0 else page_refcount s q) /\
    max_order s' = max_order s /\
    range_start s' = range_start s /\
    range_end s' = range_end s.
Proof.
  intros Hout Href Hord.
  unfold __hyp_put_page, hyp_page_ref_dec_and_test.
  rewrite Href. cbn [Z.leb Z.compare bind].
  rewrite page_refcount_set_refcount, Z.eqb_refl.
  change (1 - 1 =? 0) with true. cbv iota.
  set (s1 := set_refcount s p (1 - 1)).
  destruct (attach_external s1 p) as (s2 & Hatt & Hfa & Hvm & Hm & Hs & He & _).
  { exact Hout. }
  { unfold s1. rewrite page_order_set_refcount.
    change (max_order (set_refcount s p (1 - 1))) with (max_order s).
    exact Hord. }
  rewrite Hatt. cbn [bind]. eexists. split; [reflexivity|].
  assert (Ho1 : forall q, page_order s1 q = page_order s q)
    by (intros q; apply page_order_set_refcount).
  repeat split; try assumption.
  - intros k. cbn [free_area set_free_pages]. rewrite Hfa, Ho1.
    reflexivity.
  - intros q. unfold page_order. cbn [vmemmap set_free_pages].
    rewrite Hvm. apply Ho1.
  - intros q. unfold page_refcount at 1. cbn [vmemmap set_free_pages].
    rewrite Hvm. fold (page_refcount s1 q). unfold s1.
    now rewrite page_refcount_set_refcount.
Qed.


Lemma put_pages_nil (s : state) : put_pages PAGE_SHIFT s [] = Some s.
Proof. reflexivity. Qed.

Lemma put_pages_cons (s : state) (p : Z) (ps : list Z) :
  put_pages PAGE_SHIFT s (p :: ps) =
  (s1 <- hyp_put_page s (hyp_page_to_virt p) ;; put_pages PAGE_SHIFT s1 ps).
Proof.
  unfold put_pages. simpl.
  destruct (hyp_put_page s (hyp_page_to_virt p)) as [s1|]; simpl;
    [reflexivity|].
  induction ps as [| q ps IH]; simpl; [reflexivity | exact IH].
Qed.

Lemma put_pages_external :
  0 <= PAGE_SHIFT <= 64 ->
  forall (ps : list Z) (s : state),
    range_end s <= range_start s ->
    0 <= max_order s ->
    NoDup ps ->
    (forall p, In p ps ->
               valid_pfn PAGE_SHIFT p /\ page_refcount s p = 1 /\
               page_order s p = 0) ->
    exists s',
      put_pages PAGE_SHIFT s ps = Some s' /\
      free_area s' 0 = free_area s 0 ++ ps /\
      (forall k, k <> 0 -> free_area s' k = free_area s k) /\
      (forall q, page_order s' q = page_order s q) /\
      (forall q, In q ps -> page_refcount s' q = 0) /\
      (forall q, ~ In q ps -> page_refcount s' q = page_refcount s q) /\
      max_order s' = max_order s /\
      range_start s' = range_start s /\
      range_end s' = range_end s.
Proof.
  intros HPS. induction ps as [| p ps IH]; intros s Hrange Hmax Hnd Hps.
  - exists s. rewrite put_pages_nil, app_nil_r.
    repeat split; try reflexivity. intros q [].
  - destruct (Hps p (or_introl eq_refl)) as (Hv & Href & Hord).
    inversion Hnd as [| ? ? Hnotin Hnd']; subst.
    destruct (put_external s p) as (s1 & Hput & Hfa & Ho & Hr & Hm & Hs & He).
    { unfold addr_in_range. lia. }
    { exact Href. }
    { rewrite Hord. lia. }
    destruct (IH s1) as (s' & Hputs & Hfa' & Hfak & Ho' & Hr0 & Hr' & Hm' & Hs' & He').
    { lia. }
    { lia. }
    { exact Hnd'. }
    { intros q Hq. destruct (Hps q (or_intror Hq)) as (Hvq & Hrq & Hoq).
      rewrite Ho, Hr.
      destruct (Z.eqb_spec q p) as [-> | _]; [contradiction|].
      split; [assumption | split; assumption]. }
    exists s'. rewrite put_pages_cons. unfold hyp_put_page.
    rewrite virt_to_page_to_virt by assumption.
    destruct (Z.ltb_spec (max_order s) (page_order s p)) as [? | _]; [lia|].
    rewrite Hput. cbn [bind]. repeat split.
    + exact Hputs.
    + rewrite Hfa', Hfa, Hord. cbn. now rewrite <- app_assoc.
    + intros k Hk. rewrite Hfak, Hfa, Hord by assumption.
      now apply Z.eqb_neq in Hk as ->.
    + intros q. now rewrite Ho', Ho.
    + intros q [<- | Hq].
      * rewrite Hr' by assumption. now rewrite Hr, Z.eqb_refl.
      * now apply Hr0.
    + intros q Hq. rewrite Hr' by (intros Hin; apply Hq; now right).
      rewrite Hr.
      destruct (Z.eqb_spec q p) as [-> | _]; [| reflexivity].
      exfalso. apply Hq. now left.
    + congruence.
    + congruence.
    + congruence.
Qed.

(** C7: a page whose physical address is outside
    [[range_start, range_end)] is attached without any coalescing: it goes
    to the tail of [free_area[order]] and no vmemmap entry changes.
    [hyp_pool_init_empty] sets [range_start] to the largest address and
    [range_end] to 0, so no address is in range; order-0 frames then put
    into the pool from outside all sit in [free_area[0]], one entry each, the
    lists of the higher orders stay empty, allocating at order 1 returns
    NULL and allocating at order 0 returns one of the frames (the first
    that was put). *)
Theorem external_pages_never_coalesce :
  0 <= PAGE_SHIFT <= 64 ->
  0 <= MAX_ORDER <= 30 ->
  (forall (s : state) (p : Z),
      ~ addr_in_range s (hyp_page_to_phys p) ->
      0 <= page_order s p <= max_order s ->
      exists s',
        __hyp_attach_page s p = Some s' /\
        (forall k, free_area s' k =
                   if k =? page_order s p then free_area s k ++ [p]
                   else free_area s k) /\
        (forall q, vmemmap s' q = vmemmap s q)) /\
  (forall (s : state) (nr_pages : Z) (ps : list Z),
      NoDup ps ->
      (forall p, In p ps ->
                 valid_pfn PAGE_SHIFT p /\ page_refcount s p = 1 /\
                 page_order s p = 0) ->
      exists s0 s1,
        hyp_pool_init_empty s nr_pages = Some s0 /\
        range_start s0 = 2 ^ 64 - 1 /\
        range_end s0 = 0 /\
        (forall a, ~ addr_in_range s0 a) /\
        put_pages PAGE_SHIFT s0 ps = Some s1 /\
        free_area s1 0 = ps /\
        (forall k, 1 <= k <= max_order s1 -> free_area s1 k = []) /\
        (forall p, In p ps -> page_order s1 p = 0 /\ page_refcount s1 p = 0) /\
        hyp_alloc_pages s1 1 = Some (None, s1) /\
        (forall p l, ps = p :: l ->
                     exists s2, hyp_alloc_pages s1 0
                                = Some (Some (hyp_page_to_virt p), s2))).
Proof.
  intros HPS HMO. split.
  - intros s p Hout Hord.
    destruct (attach_external s p Hout Hord) as (s' & H1 & H2 & H3 & _).
    exists s'. repeat split; assumption.
  - intros s nr ps Hnd Hps.
    unfold hyp_pool_init_empty, __hyp_pool_init.
    set (mo := Z.min MAX_ORDER (get_order PAGE_SHIFT (shl32 nr PAGE_SHIFT))).
    assert (Hmo : 0 <= mo <= 30).
    { unfold mo, get_order.
      pose proof (Z.log2_up_nonneg
                    ((shl32 nr PAGE_SHIFT + PAGE_SIZE - 1) / PAGE_SIZE)).
      lia. }
    eexists. 
    match goal with
    | |- exists s1, Some ?x = Some _ /\ _ => set (s0 := x)
    end.
    destruct (put_pages_external HPS ps s0)
      as (s1 & Hput & Hfa0 & Hfak & Ho & Hr0 & Hr & Hm & Hs & He).
    { simpl. change (u64 (-1)) with 18446744073709551615. lia. }
    { simpl. lia. }
    { exact Hnd. }
    { exact Hps. }
    assert (Hfa0' : free_area s1 0 = ps).
    { rewrite Hfa0. simpl.
      destruct (Z.leb_spec 0 mo); [reflexivity | lia]. }
    assert (Hfak' : forall k, 1 <= k <= max_order s1 -> free_area s1 k = []).
    { intros k Hk. rewrite Hfak by lia. rewrite Hm in Hk. simpl in Hk |- *.
      destruct (Z.leb_spec 0 k); [| lia].
      destruct (Z.leb_spec k mo); [reflexivity | lia]. }
    assert (Hm1 : max_order s1 = mo) by (rewrite Hm; reflexivity).
    exists s1.
    split; [reflexivity|].
    split; [reflexivity|].
    split; [reflexivity|].
    split; [intros a [Ha1 Ha2]; simpl in Ha1, Ha2;
            change (u64 (-1)) with 18446744073709551615 in Ha1; lia|].
    split; [exact Hput|].
    split; [exact Hfa0'|].
    split; [exact Hfak'|].
    split; [intros p Hp; split; [rewrite Ho; now apply Hps | now apply Hr0]|].
    split.
    + apply alloc_null; [lia | lia |]. intros i Hi. apply Hfak'. lia.
    + intros p l ->.
      destruct (alloc_first_entry s1 0 ltac:(lia) ltac:(lia)) as [_ Hal].
      destruct (Hal 0 p l) as (s1' & s2 & _ & Hall & _).
      * lia.
      * intros j Hj. lia.
      * exact Hfa0'.
      * rewrite Ho. now apply (Hps p (or_introl eq_refl)).
      * exists s2. exact Hall.
Qed.


(** ** The claims on allocation and extraction *)

(** C10: when no free list of an order from [want] up to [max_order] holds
    an entry (in particular when [want] exceeds [max_order]),
    [hyp_alloc_pages] returns NULL and the state it leaves is the state it
    was given: free lists, page orders and reference counts, and the
    [free_pages] counter. *)
Theorem alloc_null_leaves_pool_unchanged (s : state) (want : Z) :
  0 <= want ->
  max_order s < 255 ->
  (forall i, want <= i <= max_order s -> free_area s i = []) ->
  hyp_alloc_pages s want = Some (None, s).
Proof. exact (alloc_null s want). Qed.

(** C5: extracting a head [p] taken from a free list down to an order
    [want <= p.order] succeeds.  It first unlinks [p] (every free list is
    the list it was without [p], and the list node of [p] is cleared) and
    then runs the split loop of the specification: while [p.order > want]
    the buddy of order [p.order - 1] is the entry at
    [phys(p) XOR (PAGE_SIZE << (p.order - 1))], [p.order] is decremented,
    the buddy takes that order and goes to the tail of the free list of
    that order (that list is the list it was followed by the buddy, the
    others are unchanged); when the buddy address is outside
    [[range_start, range_end)] the loop stops and [p] is returned at its
    current, larger order. *)
Theorem extract_page_splits (s : state) (p want : Z) :
  on_free_list s p = true ->
  0 <= want <= page_order s p ->
  page_order s p <= max_order s ->
  exists s0 s',
    __hyp_extract_page s p want = Some (s', p) /\
    unlinked s p s0 /\
    split_run p want s0 s' /\
    (page_order s' p = want \/
     (want < page_order s' p /\
      ~ addr_in_range s' (buddy_addr p (page_order s' p - 1)))).
Proof. exact (extract_page_run s p want). Qed.

(** C3, as the code has it: [hyp_alloc_pages] scans
    [free_area[want], free_area[want + 1], ...] up to [max_order] and takes
    the first entry [p] of the first list that is not empty; if there is no
    such list it returns NULL.  Otherwise it extracts [p] towards [want],
    sets its reference count to 1, takes [1 << p.order] off [free_pages] (in
    64-bit arithmetic) for the order [p] ends with, and returns the address
    of the page body.  That order is [want] when the split ran to its end,
    and a larger one when it stopped at a buddy address outside the pool
    range. *)
Theorem alloc_takes_lowest_order (s : state) (want : Z) :
  0 <= want ->
  max_order s <= 30 ->
  ((forall i, want <= i <= max_order s -> free_area s i = []) ->
   hyp_alloc_pages s want = Some (None, s)) /\
  (forall (i p : Z) (l : list Z),
      want <= i <= max_order s ->
      (forall j, want <= j < i -> free_area s j = []) ->
      free_area s i = p :: l ->
      page_order s p = i ->
      exists s1 s',
        __hyp_extract_page s p want = Some (s1, p) /\
        hyp_alloc_pages s want = Some (Some (hyp_page_to_virt p), s') /\
        s' = set_free_pages (hyp_set_page_refcounted s1 p) (free_pages s') /\
        page_refcount s' p = 1 /\
        free_pages s' = u64 (free_pages s - 2 ^ page_order s' p) /\
        want <= page_order s' p <= i /\
        (page_order s' p = want \/
         (want < page_order s' p /\
          ~ addr_in_range s' (buddy_addr p (page_order s' p - 1))))).
Proof. exact (alloc_first_entry s want). Qed.


(** ** Arithmetic of aligned groups *)

Lemma pow2_pos (k : Z) : 0 <= k -> 0 < 2 ^ k.
Proof. intros H. apply Z.pow_pos_nonneg; lia. Qed.

Lemma pow2_succ (k : Z) : 0 <= k -> 2 ^ (k + 1) = 2 * 2 ^ k.
Proof. intros H. rewrite Z.pow_add_r by lia. lia. Qed.

Lemma aligned_mult (p k : Z) :
  0 <= k -> (aligned p k <-> exists n, p = 2 ^ k * n).
Proof.
  intros Hk. pose proof (pow2_pos k Hk) as Hp. unfold aligned. split.
  - intros H. exists (p / 2 ^ k).
    pose proof (Z.div_mod p (2 ^ k) ltac:(lia)). lia.
  - intros [n ->]. rewrite Z.mul_comm. apply Z.mod_mul. lia.
Qed.

Lemma aligned_0 (p : Z) : aligned p 0.
Proof. unfold aligned. simpl. apply Z.mod_1_r. Qed.

Lemma aligned_le (p j k : Z) :
  0 <= j <= k -> aligned p k -> aligned p j.
Proof.
  intros Hjk H. apply aligned_mult in H as [n ->]; [| lia].
  apply aligned_mult; [lia|].
  exists (2 ^ (k - j) * n).
  replace k with (j + (k - j)) at 1 by lia.
  rewrite Z.pow_add_r by lia. lia.
Qed.

Lemma lxor_1 (n : Z) :
  0 <= n -> Z.lxor n 1 = if Z.even n then n + 1 else n - 1.
Proof.
  intros H. destruct n as [| q | q]; [reflexivity | | lia].
  destruct q; simpl; try reflexivity.
Qed.

Lemma buddy_pfn_mult (k n : Z) :
  0 <= k -> 0 <= n ->
  buddy_pfn (2 ^ k * n) k = if Z.even n then 2 ^ k * n + 2 ^ k
                            else 2 ^ k * n - 2 ^ k.
Proof.
  intros Hk Hn. unfold buddy_pfn.
  replace (2 ^ k * n) with (Z.shiftl n k)
    by (rewrite Z.shiftl_mul_pow2 by lia; lia).
  replace (2 ^ k) with (Z.shiftl 1 k) at 1
    by (rewrite Z.shiftl_mul_pow2 by lia; lia).
  rewrite <- Z.shiftl_lxor, lxor_1 by lia.
  rewrite !Z.shiftl_mul_pow2 by lia.
  destruct (Z.even n); lia.
Qed.

Lemma buddy_pfn_cases (p k : Z) :
  0 <= k -> 0 <= p -> aligned p k ->
  (buddy_pfn p k = p + 2 ^ k /\ aligned p (k + 1)) \/
  (buddy_pfn p k = p - 2 ^ k /\ aligned (p - 2 ^ k) (k + 1)).
Proof.
  intros Hk Hp Ha. pose proof (pow2_pos k Hk) as Hpos.
  apply aligned_mult in Ha as [n ->]; [| lia].
  assert (Hn : 0 <= n) by nia.
  rewrite buddy_pfn_mult by lia.
  destruct (Z.even n) eqn:E.
  - left. split; [reflexivity|].
    apply Z.even_spec in E as [m ->].
    apply aligned_mult; [lia|]. exists m. rewrite pow2_succ by lia. lia.
  - right. split; [reflexivity|].
    assert (Ho : Z.odd n = true) by (rewrite <- Z.negb_even, E; reflexivity).
    apply Z.odd_spec in Ho as [m ->].
    apply aligned_mult; [lia|]. exists m. rewrite pow2_succ by lia. lia.
Qed.

Lemma buddy_pfn_up (p k : Z) :
  0 <= k -> 0 <= p -> aligned p (k + 1) -> buddy_pfn p k = p + 2 ^ k.
Proof.
  intros Hk Hp Ha. pose proof (pow2_pos k Hk) as Hpos.
  apply aligned_mult in Ha as [n ->]; [| lia].
  rewrite pow2_succ by lia.
  replace (2 * 2 ^ k * n) with (2 ^ k * (2 * n)) by lia.
  assert (Hn : 0 <= n) by (rewrite pow2_succ in Hp by lia; nia).
  rewrite buddy_pfn_mult by lia.
  now rewrite Z.even_mul.
Qed.

Lemma buddy_pfn_neq (p k : Z) : 0 <= k -> buddy_pfn p k <> p.
Proof.
  intros Hk H. unfold buddy_pfn in H.
  assert (E : Z.lxor p (Z.lxor p (2 ^ k)) = Z.lxor p p) by now rewrite H.
  rewrite <- Z.lxor_assoc, Z.lxor_nilpotent, Z.lxor_0_l in E.
  pose proof (pow2_pos k Hk). lia.
Qed.

Lemma buddy_pfn_invol (p k : Z) : buddy_pfn (buddy_pfn p k) k = p.
Proof.
  unfold buddy_pfn.
  now rewrite Z.lxor_assoc, Z.lxor_nilpotent, Z.lxor_0_r.
Qed.

(** Two aligned groups that share a frame are nested. *)
Lemma groups_nested (p a q b x : Z) :
  0 <= a <= b ->
  aligned p a -> aligned q b ->
  in_group p a x -> in_group q b x ->
  q <= p /\ p + 2 ^ a <= q + 2 ^ b.
Proof.
  intros Hab Hp Hq [Hx1 Hx2] [Hx3 Hx4].
  apply aligned_mult in Hp as [n ->]; [| lia].
  apply aligned_mult in Hq as [m ->]; [| lia].
  replace b with (a + (b - a)) in * by lia.
  rewrite Z.pow_add_r in * by lia.
  pose proof (pow2_pos a ltac:(lia)) as HA.
  pose proof (pow2_pos (b - a) ltac:(lia)) as HC.
  set (A := 2 ^ a) in *. set (C := 2 ^ (b - a)) in *.
  assert (C * m < n + 1) by nia.
  assert (n < C * (m + 1)) by nia.
  split; nia.
Qed.

(** The lower of two buddies heads the group made of both. *)
Lemma buddy_group (p k : Z) :
  0 <= k -> 0 <= p -> aligned p k ->
  let b := buddy_pfn p k in
  0 <= b /\ aligned b k /\ aligned (Z.min p b) (k + 1) /\
  (forall q, in_group (Z.min p b) (k + 1) q <->
             in_group p k q \/ in_group b k q).
Proof.
  intros Hk Hp Ha. cbv zeta. pose proof (pow2_pos k Hk) as Hpos.
  pose proof (pow2_succ k Hk) as Hs.
  destruct (buddy_pfn_cases p k Hk Hp Ha) as [[Hb Hal] | [Hb Hal]];
    rewrite Hb.
  - split; [lia|]. split; [| split].
    + apply aligned_mult in Ha as [n ->]; [| lia].
      apply aligned_mult; [lia|]. exists (n + 1). lia.
    + now rewrite Z.min_l by lia.
    + intros q. rewrite Z.min_l by lia. unfold in_group. rewrite Hs. lia.
  - assert (Hlow : 0 <= p - 2 ^ k).
    { apply aligned_mult in Ha as [n ->]; [| lia].
      apply aligned_mult in Hal as [m Hm]; [| lia].
      rewrite Hs in Hm. assert (0 <= n) by nia.
      destruct (Z.eq_dec n 0) as [-> | Hn]; [| nia].
      assert (2 * m = -1) by nia. lia. }
    split; [lia|]. split; [| split].
    + eapply aligned_le; [| exact Hal]. lia.
    + now rewrite Z.min_r by lia.
    + intros q. rewrite Z.min_r by lia. unfold in_group. rewrite Hs. lia.
Qed.


(** ** Buddy addresses and buddy frame numbers *)

Lemma lxor_lt_pow2 (a b n : Z) :
  0 <= a < 2 ^ n -> 0 <= b < 2 ^ n -> 0 <= Z.lxor a b < 2 ^ n.
Proof.
  intros Ha Hb.
  assert (Hn : 0 <= n).
  { destruct (Z.le_gt_cases 0 n); [assumption|].
    rewrite Z.pow_neg_r in Ha by lia. lia. }
  split; [apply Z.lxor_nonneg; tauto|].
  destruct (Z.eq_dec (Z.lxor a b) 0) as [-> | Hne]; [lia|].
  assert (Hpos : 0 < Z.lxor a b).
  { assert (0 <= Z.lxor a b) by (apply Z.lxor_nonneg; tauto). lia. }
  assert (Hn' : 0 < n).
  { destruct (Z.eq_dec n 0) as [-> |]; [| lia].
    assert (a = 0) by (simpl in Ha; lia).
    assert (b = 0) by (simpl in Hb; lia).
    subst. simpl in Hne. congruence. }
  apply Z.log2_lt_pow2; [assumption|].
  pose proof (Z.log2_lxor a b ltac:(lia) ltac:(lia)) as Hl.
  assert (La : Z.log2 a < n).
  { destruct (Z.eq_dec a 0) as [-> | ?]; [simpl; lia|].
    apply Z.log2_lt_pow2; lia. }
  assert (Lb : Z.log2 b < n).
  { destruct (Z.eq_dec b 0) as [-> | ?]; [simpl; lia|].
    apply Z.log2_lt_pow2; lia. }
  lia.
Qed.

Lemma buddy_addr_pfn (p k : Z) :
  0 <= PAGE_SHIFT ->
  valid_pfn PAGE_SHIFT p ->
  0 <= k -> PAGE_SHIFT + k < 64 ->
  valid_pfn PAGE_SHIFT (buddy_pfn p k) /\
  buddy_addr p k = hyp_page_to_phys (buddy_pfn p k) /\
  hyp_phys_to_page (buddy_addr p k) = buddy_pfn p k.
Proof.
  intros HPS Hp Hk Hfit.
  assert (Hv : valid_pfn PAGE_SHIFT (buddy_pfn p k)).
  { unfold valid_pfn, buddy_pfn in *. apply lxor_lt_pow2; [assumption|].
    split; [apply Z.lt_le_incl, pow2_pos; lia|].
    apply Z.pow_lt_mono_r; lia. }
  assert (Ha : buddy_addr p k = buddy_pfn p k * 2 ^ PAGE_SHIFT).
  { unfold buddy_addr. rewrite phys_of_valid by (assumption || lia).
    unfold shl64, PAGE_SIZE, u64.
    rewrite (Z.mod_small k 64) by lia.
    rewrite Z.shiftl_shiftl, Z.shiftl_1_l by lia.
    rewrite Z.mod_small
      by (split; [apply Z.lt_le_incl, pow2_pos; lia
                 | apply Z.pow_lt_mono_r; lia]).
    unfold buddy_pfn.
    rewrite <- (Z.shiftl_mul_pow2 p) by lia.
    rewrite <- (Z.shiftl_mul_pow2 (Z.lxor p (2 ^ k))) by lia.
    rewrite Z.shiftl_lxor. f_equal.
    rewrite Z.shiftl_mul_pow2, <- Z.pow_add_r by lia. f_equal. lia. }
  split; [exact Hv|]. split.
  - rewrite Ha. symmetry. apply phys_of_valid; [lia | exact Hv].
  - rewrite Ha. unfold hyp_phys_to_page, hyp_phys_to_pfn.
    rewrite Z.shiftr_div_pow2 by lia.
    apply Z.div_mul. pose proof (pow2_pos PAGE_SHIFT HPS). lia.
Qed.


(** ** The pool invariant *)

Local Abbreviation valid_pfn := (valid_pfn PAGE_SHIFT).
Local Abbreviation in_range := (in_range PAGE_SHIFT).
Local Abbreviation no_free_buddies := (no_free_buddies PAGE_SHIFT).
Local Abbreviation no_free_buddies_in_range :=
  (no_free_buddies_in_range PAGE_SHIFT).
Local Abbreviation group_ok := (group_ok PAGE_SHIFT).
Local Abbreviation external_ok := (external_ok PAGE_SHIFT).
Local Abbreviation pool_wf_but := (pool_wf_but PAGE_SHIFT).
Local Abbreviation pool_wf := (pool_wf PAGE_SHIFT).
Local Abbreviation orphan := (orphan PAGE_SHIFT).

Lemma in_range_frame (s s' : state) (p : Z) :
  range_start s' = range_start s -> range_end s' = range_end s ->
  (in_range s' p <-> in_range s p).
Proof.
  intros Hs He. unfold in_range, addr_in_range. rewrite Hs, He. tauto.
Qed.

Lemma in_range_dec (s : state) (p : Z) : in_range s p \/ ~ in_range s p.
Proof. unfold in_range, valid_pfn, addr_in_range. lia. Qed.

Lemma in_group_head (p k : Z) : 0 <= k -> in_group p k p.
Proof. intros H. pose proof (pow2_pos k H). unfold in_group. lia. Qed.

Lemma is_head_order (s : state) (p : Z) :
  0 <= page_order s p <= 30 -> is_head s p.
Proof. unfold is_head, HYP_NO_ORDER. lia. Qed.

(** In a well-formed pool the groups of two in-range heads do not
    overlap. *)
Lemma heads_disjoint (hole : Z -> Prop) (s : state) (h1 h2 q : Z) :
  pool_wf_but hole s ->
  in_range s h1 -> is_head s h1 ->
  in_range s h2 -> is_head s h2 ->
  in_group h1 (page_order s h1) q ->
  in_group h2 (page_order s h2) q ->
  h1 = h2.
Proof.
  intros Hwf Hr1 Hh1 Hr2 Hh2 Hq1 Hq2.
  destruct (wf_groups _ _ _ Hwf h1 Hr1 Hh1) as (Ho1 & Ha1 & Ht1).
  destruct (wf_groups _ _ _ Hwf h2 Hr2 Hh2) as (Ho2 & Ha2 & Ht2).
  destruct (Z.eq_dec h1 h2) as [| Hne]; [assumption | exfalso].
  destruct (Z.le_ge_cases (page_order s h1) (page_order s h2)) as [Hle | Hle].
  - destruct (groups_nested h1 (page_order s h1) h2 (page_order s h2) q
                ltac:(lia) Ha1 Ha2 Hq1 Hq2) as [H1 H2].
    pose proof (pow2_pos (page_order s h1) ltac:(lia)).
    destruct (Ht2 h1 ltac:(lia)) as (_ & Hno & _). contradiction.
  - destruct (groups_nested h2 (page_order s h2) h1 (page_order s h1) q
                ltac:(lia) Ha2 Ha1 Hq2 Hq1) as [H1 H2].
    pose proof (pow2_pos (page_order s h2) ltac:(lia)).
    destruct (Ht1 h2 ltac:(lia)) as (_ & Hno & _). contradiction.
Qed.

(** A buddy found available is a free head of the pool. *)
Lemma avail_is_free_head (s : state) (p k b : Z) :
  pool_wf s ->
  0 <= PAGE_SHIFT ->
  in_range s p -> 0 <= k <= max_order s ->
  buddy_avail s p k b ->
  b = buddy_pfn p k /\ in_range s b /\ is_head s b /\
  on_free_area s k b /\ on_free_list s b = true.
Proof.
  intros Hwf HPS [Hv Hr] Hk (Hin & Hb & Ho & Hc).
  destruct (wf_max_order _ _ _ Hwf) as [Hmax Hfit].
  destruct (buddy_addr_pfn p k HPS Hv ltac:(lia) ltac:(lia))
    as (Hvb & Haddr & Hpage).
  rewrite Hpage in Hb. subst b.
  assert (Hrb : in_range s (buddy_pfn p k)).
  { split; [assumption|]. now rewrite <- Haddr. }
  assert (Hhb : is_head s (buddy_pfn p k))
    by (apply is_head_order; lia).
  assert (Hon : on_free_area s k (buddy_pfn p k)).
  { split; [lia|].
    pose proof (wf_listed _ _ _ Hwf (buddy_pfn p k) Hrb Hhb Hc
                          (fun F : False => F)) as Hl.
    now rewrite Ho in Hl. }
  repeat split; try assumption; try apply Hvb; try apply Hrb; try apply Hon.
  apply on_free_list_iff. exists k. exact Hon.
Qed.


Lemma frame_of_refl (s : state) : frame_of s s.
Proof. repeat split. Qed.

Lemma frame_of_trans (s1 s2 s3 : state) :
  frame_of s1 s2 -> frame_of s2 s3 -> frame_of s1 s3.
Proof.
  intros (Hm & Hs & He & Hf & Hr & Ho) (Hm' & Hs' & He' & Hf' & Hr' & Ho').
  do 4 (split; [congruence|]). split.
  - intros q. now rewrite Hr', Hr.
  - intros q Hq. rewrite Ho' by (rewrite Hr; exact Hq). now apply Ho.
Qed.

(** *** One round of coalescing *)

Lemma coalesce_step_view (s : state) (b : Z) :
  let s2 := set_order
              (set_node_bytes
                 (set_free_area s (fun k => list_del b (free_area s k)))
                 b false)
              b HYP_NO_ORDER in
  (forall q, page_order s2 q
             = if q =? b then HYP_NO_ORDER else page_order s q) /\
  (forall q, page_refcount s2 q = page_refcount s q) /\
  (forall k, free_area s2 k = list_del b (free_area s k)) /\
  (forall q, mem s2 q
             = if q =? b then mkBody false (data_bytes (mem s b))
               else mem s q) /\
  max_order s2 = max_order s /\
  range_start s2 = range_start s /\
  range_end s2 = range_end s /\
  free_pages s2 = free_pages s.
Proof.
  intros s2. repeat split.
  - intros q. unfold s2. now rewrite page_order_set_order.
  - intros q. unfold s2. now rewrite page_refcount_set_order.
Qed.

Lemma coalesce_step_wf (s : state) (p k b : Z) :
  0 <= PAGE_SHIFT ->
  pool_wf s -> orphan s p k ->
  k < max_order s ->
  buddy_avail s p k b ->
  exists s1,
    page_remove_from_list s b = Some s1 /\
    pool_wf (set_order s1 b HYP_NO_ORDER) /\
    orphan (set_order s1 b HYP_NO_ORDER) (Z.min p b) (k + 1) /\
    frame_of s (set_order s1 b HYP_NO_ORDER) /\
    (forall q, free_covered s q \/ in_group p k q ->
               free_covered (set_order s1 b HYP_NO_ORDER) q \/
               in_group (Z.min p b) (k + 1) q).
Proof.
  intros HPS Hwf (Hk & Hal & Hfr & Hdis) Hlt Hav.
  destruct (wf_max_order _ _ _ Hwf) as [Hmax Hfit].
  assert (Hrp : in_range s p) by (apply (Hfr p), in_group_head; lia).
  destruct (avail_is_free_head s p k b Hwf HPS Hrp ltac:(lia) Hav)
    as (Hb & Hrb & Hhb & Hon & Honl).
  destruct Hav as (_ & _ & Hob & Hcb).
  assert (Hp0 : 0 <= p) by (destruct Hrp as [[? ?] _]; assumption).
  destruct (buddy_group p k ltac:(lia) Hp0 Hal) as (Hb0 & Halb & Halm & Hgrp).
  rewrite <- Hb in Hb0, Halb, Halm, Hgrp.
  destruct (wf_groups _ _ _ Hwf b Hrb Hhb) as (_ & _ & Htb).
  rewrite Hob in Htb.
  pose proof (wf_zero _ _ _ Hwf k b Hon) as Hzb.
  unfold page_remove_from_list. rewrite Honl. eexists. split; [reflexivity|].
  match goal with |- pool_wf ?x /\ _ => set (s2 := x) end.
  destruct (coalesce_step_view s b)
    as (Vo & Vr & Vfa & Vm & Vmax & Vs & Ve & Vfp).
  fold s2 in Vo, Vr, Vfa, Vm, Vmax, Vs, Ve.
  assert (Vin : forall q, in_range s2 q <-> in_range s q)
    by (intros q; now apply in_range_frame).
  assert (Von : forall k1 p1, on_free_area s2 k1 p1 ->
                              on_free_area s k1 p1 /\ p1 <> b).
  { intros k1 p1 [Hk1 Hin]. rewrite Vfa in Hin. apply In_list_del in Hin.
    rewrite Vmax in Hk1. split; [split|]; tauto. }
  assert (Vhead : forall q, is_head s2 q -> is_head s q /\ q <> b).
  { intros q Hq. unfold is_head in *. rewrite Vo in Hq.
    destruct (Z.eqb_spec q b); [congruence | tauto]. }
  assert (Vord : forall q, q <> b -> page_order s2 q = page_order s q).
  { intros q Hq. rewrite Vo. now apply Z.eqb_neq in Hq as ->. }
  split; [| split; [| split]].
  - (* the pool invariant *)
    constructor.
    + rewrite Vmax. tauto.
    + intros k1 p1 H1. apply Von in H1 as [H1 _].
      exact (wf_valid _ _ _ Hwf k1 p1 H1).
    + intros k1 p1 H1. apply Von in H1 as [H1 Hne].
      rewrite Vord, Vr by assumption. exact (wf_heads _ _ _ Hwf k1 p1 H1).
    + intros p1 Hr1 Hh1 Hc1 _. apply Vhead in Hh1 as [Hh1 Hne].
      rewrite Vord by assumption. rewrite Vfa. apply In_list_del.
      split; [| assumption].
      apply (wf_listed _ _ _ Hwf p1 (proj1 (Vin p1) Hr1) Hh1);
        [now rewrite <- Vr | tauto].
    + intros k1 p1 H1 Hlt1 Hr1 Hbr1. apply Von in H1 as [H1 Hne].
      rewrite Vfa. intros Hin. apply In_list_del in Hin as [Hin _].
      revert Hin. apply (wf_buddies _ _ _ Hwf k1 p1 H1).
      * now rewrite <- Vmax.
      * unfold addr_in_range in *. now rewrite <- Vs, <- Ve.
      * unfold addr_in_range in *. now rewrite <- Vs, <- Ve.
    + intros p1 Hr1 Hh1. apply Vhead in Hh1 as [Hh1 Hne].
      apply (proj1 (Vin p1)) in Hr1.
      destruct (wf_groups _ _ _ Hwf p1 Hr1 Hh1) as (Ho1 & Ha1 & Ht1).
      unfold group_ok. rewrite Vord, Vmax by assumption.
      split; [assumption|]. split; [assumption|].
      intros q Hq. destruct (Ht1 q Hq) as (Hrq & Hoq & Hcq).
      split; [apply (proj2 (Vin q)); assumption|]. split; [| now rewrite Vr].
      rewrite Vo. now destruct (q =? b).
    + intros k1 p1 H1 Hnr. apply Von in H1 as [H1 Hne].
      assert (Hnr' : ~ in_range s p1)
        by (intros H; apply Hnr; exact (proj2 (Vin p1) H)).
      destruct (wf_external _ _ _ Hwf k1 p1 H1 Hnr') as [He1 He2].
      split; [assumption|]. intros q Hq.
      destruct (He2 q Hq) as [Hv Hn]. split; [assumption|].
      unfold addr_in_range in *. now rewrite Vs, Ve.
    + intros k1 p1 H1. apply Von in H1 as [H1 Hne].
      intros q Hq. destruct (wf_zero _ _ _ Hwf k1 p1 H1 q Hq) as [Hd Hn].
      rewrite Vm. destruct (Z.eqb_spec q b) as [-> | _]; simpl.
      * split; [assumption | reflexivity].
      * split; assumption.
  - (* the block being coalesced *)
    split; [rewrite Vmax; lia|]. split; [exact Halm|]. split.
    + intros q Hq. apply Hgrp in Hq as [Hq | Hq].
      * destruct (Hfr q Hq) as (Hrq & Hoq & Hcq & Hzq).
        split; [apply (proj2 (Vin q)); assumption|]. split; [| split].
        -- rewrite Vo. now destruct (q =? b).
        -- now rewrite Vr.
        -- unfold page_zero in *. rewrite Vm.
           destruct (Z.eqb_spec q b) as [-> | _]; simpl; tauto.
      * destruct (Hzb q Hq) as [Hdq Hnq].
        destruct (Z.eq_dec q b) as [-> | Hne].
        -- split; [apply (proj2 (Vin b)); assumption|]. split; [| split].
           ++ rewrite Vo. now rewrite Z.eqb_refl.
           ++ now rewrite Vr.
           ++ unfold page_zero. rewrite Vm, Z.eqb_refl. simpl. tauto.
        -- destruct (Htb q) as (Hrq & Hoq & Hcq).
           { unfold in_group in Hq. lia. }
           split; [apply (proj2 (Vin q)); assumption|]. split; [| split].
           ++ now rewrite Vord.
           ++ now rewrite Vr.
           ++ unfold page_zero. rewrite Vm. specialize (Hnq Hne).
              apply Z.eqb_neq in Hne as ->. tauto.
    + intros h q Hrh Hhh Hqh Hq. apply Vhead in Hhh as [Hhh Hne].
      apply (proj1 (Vin h)) in Hrh. rewrite Vord in Hqh by assumption.
      apply Hgrp in Hq as [Hq | Hq].
      * exact (Hdis h q Hrh Hhh Hqh Hq).
      * apply Hne.
        apply (heads_disjoint _ s h b q Hwf Hrh Hhh Hrb Hhb Hqh).
        now rewrite Hob.
  - (* what is left alone *)
    repeat split; try assumption.
    intros q Hq. apply Vord. intros ->. contradiction.
  - (* free frames stay free or join the block *)
    intros q [(k1 & p1 & H1 & Hq) | Hq].
    + destruct (Z.eq_dec p1 b) as [-> | Hne].
      * right. apply Hgrp. right.
        destruct (wf_heads _ _ _ Hwf k1 b H1) as [Hk1 _].
        rewrite Hob in Hk1. now subst k1.
      * left. exists k1, p1. split; [| assumption].
        destruct H1 as [Hk1 Hin]. split; [now rewrite Vmax|].
        rewrite Vfa. apply In_list_del. tauto.
    + right. apply Hgrp. now left.
Qed.


(** *** The coalescing loop *)

Lemma attach_loop_wf :
  0 <= PAGE_SHIFT ->
  forall (fuel : nat) (s : state) (p k : Z),
    pool_wf s -> orphan s p k ->
    max_order s - k <= Z.of_nat fuel ->
    exists s' p' k',
      attach_loop fuel s p k = Some (s', p', k') /\
      pool_wf s' /\ orphan s' p' k' /\ frame_of s s' /\
      (max_order s' <= k' \/ forall b, ~ buddy_avail s' p' k' b) /\
      (forall q, free_covered s q \/ in_group p k q ->
                 free_covered s' q \/ in_group p' k' q).
Proof.
  intros HPS. induction fuel as [| fuel IH]; intros s p k Hwf Horph Hfuel.
  - exists s, p, k. simpl. split; [reflexivity|].
    split; [assumption|]. split; [assumption|].
    split; [apply frame_of_refl|].
    split; [left; lia | tauto].
  - simpl. destruct (Z.leb_spec (k + 1) (max_order s)) as [Hle | Hgt].
    + destruct (__find_buddy_avail s p k) as [b|] eqn:Eb.
      * apply avail_some in Eb.
        destruct (coalesce_step_wf s p k b HPS Hwf Horph ltac:(lia) Eb)
          as (s1 & Hrem & Hwf2 & Horph2 & Hfr2 & Hcov2).
        rewrite Hrem. cbn [bind].
        destruct (IH (set_order s1 b HYP_NO_ORDER) (Z.min p b) (k + 1)
                     Hwf2 Horph2)
          as (s' & p' & k' & Hloop & Hwf' & Horph' & Hfr' & Hstop & Hcov').
        { destruct Hfr2 as (Hm & _). rewrite Hm. lia. }
        exists s', p', k'. split; [exact Hloop|].
        split; [exact Hwf'|]. split; [exact Horph'|].
        split; [exact (frame_of_trans _ _ _ Hfr2 Hfr')|].
        split; [exact Hstop|].
        intros q Hq. apply Hcov', Hcov2, Hq.
      * exists s, p, k. split; [reflexivity|].
        split; [assumption|]. split; [assumption|].
        split; [apply frame_of_refl|].
        split; [right; now apply avail_none | tauto].
    + exists s, p, k. split; [reflexivity|].
      split; [assumption|]. split; [assumption|].
      split; [apply frame_of_refl|].
      split; [left; lia | tauto].
Qed.

(** *** The insertion of the final head *)

Lemma attach_insert_view (s : state) (p k : Z) :
  let s' := set_node_bytes
              (set_free_area (set_order s p k)
                 (upd (free_area s) k (free_area s k ++ [p])))
              p true in
  (forall q, page_order s' q = if q =? p then k else page_order s q) /\
  (forall q, page_refcount s' q = page_refcount s q) /\
  (forall j, free_area s' j
             = if j =? k then free_area s k ++ [p] else free_area s j) /\
  (forall q, mem s' q
             = if q =? p then mkBody true (data_bytes (mem s p))
               else mem s q) /\
  max_order s' = max_order s /\
  range_start s' = range_start s /\
  range_end s' = range_end s /\
  free_pages s' = free_pages s.
Proof.
  intros s'. repeat split.
  - intros q. unfold s'.
    change (page_order (set_order s p k) q
            = if q =? p then k else page_order s q).
    now rewrite page_order_set_order.
  - intros q. unfold s'.
    change (page_refcount (set_order s p k) q = page_refcount s q).
    now rewrite page_refcount_set_order.
Qed.


Lemma attach_insert_wf (s : state) (p k : Z) :
  0 <= PAGE_SHIFT ->
  pool_wf s -> orphan s p k ->
  (max_order s <= k \/ forall b, ~ buddy_avail s p k b) ->
  exists s',
    attach_insert s p k = Some s' /\
    pool_wf s' /\ frame_of s s' /\
    on_free_area s' k p /\
    (forall q, free_covered s q \/ in_group p k q -> free_covered s' q).
Proof.
  intros HPS Hwf (Hk & Hal & Hfr & Hdis) Hstop.
  destruct (wf_max_order _ _ _ Hwf) as [Hmax Hfit].
  assert (Hpp : in_group p k p) by (apply in_group_head; lia).
  destruct (Hfr p Hpp) as (Hrp & Hop & Hcp & Hzp).
  assert (Hnl : forall k1, ~ on_free_area s k1 p).
  { intros k1 H1. destruct (wf_heads _ _ _ Hwf k1 p H1) as [Ho _].
    destruct H1 as [H1 _]. unfold HYP_NO_ORDER in Hop. lia. }
  set (s' := set_node_bytes
               (set_free_area (set_order s p k)
                  (upd (free_area s) k (free_area s k ++ [p])))
               p true).
  exists s'. split.
  { unfold attach_insert.
    rewrite page_add_to_list_ok
      by (change (max_order (set_order s p k)) with (max_order s); lia).
    reflexivity. }
  destruct (attach_insert_view s p k)
    as (Vo & Vr & Vfa & Vm & Vmax & Vs & Ve & Vfp).
  fold s' in Vo, Vr, Vfa, Vm, Vmax, Vs, Ve, Vfp.
  assert (Vin : forall q, in_range s' q <-> in_range s q)
    by (intros q; now apply in_range_frame).
  assert (Vord : forall q, q <> p -> page_order s' q = page_order s q).
  { intros q Hq. rewrite Vo. now apply Z.eqb_neq in Hq as ->. }
  assert (Von : forall k1 p1, on_free_area s' k1 p1 ->
                              on_free_area s k1 p1 \/ (k1 = k /\ p1 = p)).
  { intros k1 p1 [Hk1 Hin]. rewrite Vmax in Hk1. rewrite Vfa in Hin.
    destruct (Z.eqb_spec k1 k) as [-> | _].
    - apply in_app_or in Hin as [Hin | [<- | []]].
      + left. now split.
      + right. now split.
    - left. now split. }
  assert (Vsub : forall k1 p1, on_free_area s k1 p1 -> on_free_area s' k1 p1).
  { intros k1 p1 [Hk1 Hin]. split; [now rewrite Vmax|]. rewrite Vfa.
    destruct (Z.eqb_spec k1 k) as [-> | _]; [| assumption].
    apply in_or_app. now left. }
  assert (Vnew : on_free_area s' k p).
  { split; [rewrite Vmax; lia|]. rewrite Vfa, Z.eqb_refl.
    apply in_or_app. right. now left. }
  assert (Hnoav : forall b, k < max_order s -> ~ buddy_avail s p k b).
  { intros b Hlt. destruct Hstop as [? | Hno]; [lia | apply Hno]. }
  assert (Hbud : forall p1 k1, valid_pfn p1 -> 0 <= k1 <= max_order s ->
                   valid_pfn (buddy_pfn p1 k1) /\
                   buddy_addr p1 k1 = hyp_page_to_phys (buddy_pfn p1 k1) /\
                   hyp_phys_to_page (buddy_addr p1 k1) = buddy_pfn p1 k1).
  { intros p1 k1 Hv1 Hk1. apply buddy_addr_pfn; try assumption; lia. }
  split; [| split; [| split; [exact Vnew|]]].
  - constructor.
    + rewrite Vmax. tauto.
    + intros k1 p1 H1. apply Von in H1 as [H1 | [-> ->]].
      * exact (wf_valid _ _ _ Hwf k1 p1 H1).
      * apply Hrp.
    + intros k1 p1 H1. apply Von in H1 as [H1 | [-> ->]].
      * assert (p1 <> p) by (intros ->; exact (Hnl k1 H1)).
        rewrite Vord, Vr by assumption. exact (wf_heads _ _ _ Hwf k1 p1 H1).
      * rewrite Vo, Z.eqb_refl, Vr. tauto.
    + intros p1 Hr1 Hh1 Hc1 _.
      destruct (Z.eq_dec p1 p) as [-> | Hne].
      * rewrite Vo, Z.eqb_refl. apply Vnew.
      * unfold is_head in Hh1. rewrite Vord in Hh1 |- * by assumption.
        rewrite Vr in Hc1.
        assert (Hin : In p1 (free_area s (page_order s p1))).
        { apply (wf_listed _ _ _ Hwf p1 (proj1 (Vin p1) Hr1) Hh1 Hc1).
          tauto. }
        rewrite Vfa. destruct (_ =? k) eqn:E; [| assumption].
        apply Z.eqb_eq in E. rewrite E in Hin.
        apply in_or_app. now left.
    + intros k1 p1 H1 Hlt1 Hr1 Hbr1 Hin.
      rewrite Vmax in Hlt1.
      unfold addr_in_range in Hr1, Hbr1. rewrite Vs, Ve in Hr1, Hbr1.
      fold (addr_in_range s (hyp_page_to_phys p1)) in Hr1.
      fold (addr_in_range s (buddy_addr p1 k1)) in Hbr1.
      assert (Hv1 : valid_pfn p1) by (apply Von in H1 as [H1 | [_ ->]];
        [exact (wf_valid _ _ _ Hwf k1 p1 H1) | apply Hrp]).
      assert (Hk1 : 0 <= k1 <= max_order s)
        by (destruct H1 as [H1 _]; now rewrite Vmax in H1).
      destruct (Hbud p1 k1 Hv1 Hk1) as (Hvb & Hab & Hpb).
      rewrite Hpb in Hin.
      assert (Hin' : on_free_area s' k1 (buddy_pfn p1 k1)) by (split;
        [rewrite Vmax; lia | assumption]).
      apply Von in Hin' as [Hold | [-> Heq]];
        apply Von in H1 as [H1 | [Hk' Hp']].
      * apply (wf_buddies _ _ _ Hwf k1 p1 H1 Hlt1 Hr1 Hbr1).
        rewrite Hpb. apply Hold.
      * subst k1 p1.
        destruct (wf_heads _ _ _ Hwf k _ Hold) as [Hob Hcb].
        apply (Hnoav (buddy_pfn p k) Hlt1).
        repeat split; try assumption; try apply Hbr1. now rewrite Hpb.
      * (* the new head is the buddy of an old entry *)
        destruct (wf_heads _ _ _ Hwf k p1 H1) as [Ho1 Hc1].
        apply (Hnoav p1 Hlt1).
        assert (Hinv : buddy_pfn p k = p1)
          by (rewrite <- Heq; apply buddy_pfn_invol).
        destruct (Hbud p k (proj1 Hrp) Hk1) as (_ & Hab' & Hpb').
        rewrite Hinv in Hab', Hpb'.
        repeat split; try assumption.
        -- rewrite Hab'. apply Hr1.
        -- rewrite Hab'. apply Hr1.
        -- now rewrite Hpb'.
      * subst p1. now apply buddy_pfn_neq in Heq; [| lia].
    + intros p1 Hr1 Hh1. apply (proj1 (Vin p1)) in Hr1.
      destruct (Z.eq_dec p1 p) as [-> | Hne].
      * unfold group_ok. rewrite Vo, Z.eqb_refl, Vmax.
        split; [lia|]. split; [assumption|].
        intros q Hq. destruct (Hfr q) as (Hrq & Hoq & Hcq & _).
        { unfold in_group. lia. }
        split; [exact (proj2 (Vin q) Hrq)|].
        rewrite Vord, Vr by lia. tauto.
      * unfold is_head in Hh1. rewrite Vord in Hh1 by assumption.
        destruct (wf_groups _ _ _ Hwf p1 Hr1 Hh1) as (Ho1 & Ha1 & Ht1).
        unfold group_ok. rewrite Vord, Vmax by assumption.
        split; [assumption|]. split; [assumption|].
        intros q Hq. destruct (Ht1 q Hq) as (Hrq & Hoq & Hcq).
        split; [exact (proj2 (Vin q) Hrq)|].
        assert (q <> p).
        { intros ->. apply (Hdis p1 p Hr1 Hh1); [| exact Hpp].
          unfold in_group. lia. }
        rewrite Vord, Vr by assumption. tauto.
    + intros k1 p1 H1 Hnr.
      assert (Hnr' : ~ in_range s p1)
        by (intros H; apply Hnr; exact (proj2 (Vin p1) H)).
      apply Von in H1 as [H1 | [_ ->]]; [| contradiction].
      destruct (wf_external _ _ _ Hwf k1 p1 H1 Hnr') as [He1 He2].
      split; [assumption|]. intros q Hq.
      destruct (He2 q Hq) as [Hv Hn]. split; [assumption|].
      unfold addr_in_range in *. now rewrite Vs, Ve.
    + intros k1 p1 H1 q Hq. apply Von in H1 as [H1 | [-> ->]].
      * assert (Hqp : q <> p).
        { intros ->.
          destruct (wf_heads _ _ _ Hwf k1 p1 H1) as [Ho1 _].
          assert (Hk1 : 0 <= k1 <= 30) by (destruct H1; lia).
          destruct (in_range_dec s p1) as [Hr1 | Hr1].
          - apply (Hdis p1 p Hr1); [apply is_head_order; lia | | exact Hpp].
            now rewrite Ho1.
          - destruct (wf_external _ _ _ Hwf k1 p1 H1 Hr1) as [_ He2].
            destruct (He2 p Hq) as [_ Hn]. apply Hn, Hrp. }
        rewrite Vm. apply Z.eqb_neq in Hqp as ->.
        exact (wf_zero _ _ _ Hwf k1 p1 H1 q Hq).
      * destruct (Hfr q Hq) as (_ & _ & _ & Hzn & Hzd).
        rewrite Vm. destruct (Z.eqb_spec q p) as [-> | Hne]; simpl.
        -- split; [assumption | congruence].
        -- split; [assumption | intros _; assumption].
  - repeat split; try assumption.
    intros q Hq. apply Vord. intros ->. contradiction.
  - intros q [(k1 & p1 & H1 & Hq) | Hq].
    + exists k1, p1. split; [now apply Vsub | assumption].
    + exists k, p. split; assumption.
Qed.


(** *** Reference counts of held pages *)

Lemma set_refcount_held_wf (s : state) (p r : Z) :
  pool_wf s -> page_refcount s p <> 0 -> r <> 0 ->
  pool_wf (set_refcount s p r).
Proof.
  intros Hwf Hp Hr.
  assert (Vr : forall q, q <> p ->
                 page_refcount (set_refcount s p r) q = page_refcount s q).
  { intros q Hq. rewrite page_refcount_set_refcount.
    now apply Z.eqb_neq in Hq as ->. }
  assert (Vo : forall q, page_order (set_refcount s p r) q = page_order s q)
    by (intros q; apply page_order_set_refcount).
  constructor.
  - exact (wf_max_order _ _ _ Hwf).
  - exact (wf_valid _ _ _ Hwf).
  - intros k q H. destruct (wf_heads _ _ _ Hwf k q H) as [Ho Hc].
    rewrite Vo, Vr by congruence. tauto.
  - intros q Hrq Hhq Hcq _.
    rewrite page_refcount_set_refcount in Hcq.
    destruct (Z.eqb_spec q p) as [-> | Hne]; [contradiction|].
    rewrite Vo. apply (wf_listed _ _ _ Hwf q Hrq); [| assumption | tauto].
    unfold is_head in *. now rewrite Vo in Hhq.
  - exact (wf_buddies _ _ _ Hwf).
  - intros h Hrh Hhh. unfold is_head in Hhh. rewrite Vo in Hhh.
    destruct (wf_groups _ _ _ Hwf h Hrh Hhh) as (Ho & Ha & Ht).
    unfold group_ok. rewrite Vo. split; [exact Ho|]. split; [exact Ha|].
    intros q Hq. destruct (Ht q Hq) as (Hrq & Hoq & Hcq).
    rewrite Vo, Vr by congruence. tauto.
  - exact (wf_external _ _ _ Hwf).
  - exact (wf_zero _ _ _ Hwf).
Qed.

Lemma ref_dec_to_zero_wf (s : state) (p : Z) :
  pool_wf s -> page_refcount s p = 1 ->
  pool_wf_but (eq p) (set_refcount s p 0) /\
  forall k, ~ on_free_area (set_refcount s p 0) k p.
Proof.
  intros Hwf Hp.
  assert (Vo : forall q, page_order (set_refcount s p 0) q = page_order s q)
    by (intros q; apply page_order_set_refcount).
  assert (Hnl : forall k, ~ on_free_area s k p).
  { intros k H. destruct (wf_heads _ _ _ Hwf k p H) as [_ Hc]. lia. }
  split; [| exact Hnl].
  constructor.
  - exact (wf_max_order _ _ _ Hwf).
  - exact (wf_valid _ _ _ Hwf).
  - intros k q H. destruct (wf_heads _ _ _ Hwf k q H) as [Ho Hc].
    rewrite Vo, page_refcount_set_refcount.
    destruct (q =? p); tauto.
  - intros q Hrq Hhq Hcq Hne.
    rewrite page_refcount_set_refcount in Hcq.
    destruct (Z.eqb_spec q p) as [-> | _]; [now contradiction Hne|].
    rewrite Vo. apply (wf_listed _ _ _ Hwf q Hrq); [| assumption | tauto].
    unfold is_head in *. now rewrite Vo in Hhq.
  - exact (wf_buddies _ _ _ Hwf).
  - intros h Hrh Hhh. unfold is_head in Hhh. rewrite Vo in Hhh.
    destruct (wf_groups _ _ _ Hwf h Hrh Hhh) as (Ho & Ha & Ht).
    unfold group_ok. rewrite Vo. split; [exact Ho|]. split; [exact Ha|].
    intros q Hq. destruct (Ht q Hq) as (Hrq & Hoq & Hcq).
    rewrite Vo, page_refcount_set_refcount.
    destruct (q =? p); tauto.
  - exact (wf_external _ _ _ Hwf).
  - exact (wf_zero _ _ _ Hwf).
Qed.

(** *** Attach of an in-range head *)

Lemma memset_len (k : Z) :
  0 <= PAGE_SHIFT -> 0 <= k -> PAGE_SHIFT + k < 64 ->
  Z.shiftr (shl64 PAGE_SIZE k) PAGE_SHIFT = 2 ^ k.
Proof.
  intros HPS Hk Hfit. unfold shl64, PAGE_SIZE, u64.
  rewrite (Z.mod_small k 64) by lia.
  rewrite Z.shiftl_shiftl, Z.shiftl_1_l by lia.
  rewrite Z.mod_small
    by (split; [apply Z.lt_le_incl, pow2_pos; lia
               | apply Z.pow_lt_mono_r; lia]).
  rewrite Z.shiftr_div_pow2 by lia.
  rewrite Z.pow_add_r by lia.
  rewrite Z.mul_comm. apply Z.div_mul.
  pose proof (pow2_pos PAGE_SHIFT HPS). lia.
Qed.

Lemma attach_start_wf (s : state) (p : Z) :
  0 <= PAGE_SHIFT ->
  pool_wf_but (eq p) s ->
  in_range s p -> is_head s p -> page_refcount s p = 0 ->
  (forall k, ~ on_free_area s k p) ->
  let s0 := set_order
              (memset_pages PAGE_SHIFT s p (shl64 PAGE_SIZE (page_order s p)))
              p HYP_NO_ORDER in
  pool_wf s0 /\ orphan s0 p (page_order s p) /\ frame_of s s0 /\
  (forall q, free_covered s q -> free_covered s0 q).
Proof.
  intros HPS Hwf Hrp Hhp Hcp Hnl s0.
  destruct (wf_max_order _ _ _ Hwf) as [Hmax Hfit].
  destruct (wf_groups _ _ _ Hwf p Hrp Hhp) as (Hop & Hap & Htp).
  set (k0 := page_order s p) in *.
  assert (Vo : forall q, page_order s0 q
                         = if q =? p then HYP_NO_ORDER else page_order s q).
  { intros q. unfold s0. rewrite page_order_set_order. reflexivity. }
  assert (Vr : forall q, page_refcount s0 q = page_refcount s q).
  { intros q. unfold s0. rewrite page_refcount_set_order. reflexivity. }
  assert (Vm : forall q, mem s0 q = if (p <=? q) && (q <? p + 2 ^ k0)
                                    then zero_body else mem s q).
  { intros q. unfold s0. cbn [mem set_order set_vmemmap memset_pages set_mem].
    now rewrite memset_len by lia. }
  assert (Vin : forall q, in_range s0 q <-> in_range s q)
    by (intros q; now apply in_range_frame).
  assert (Vord : forall q, q <> p -> page_order s0 q = page_order s q).
  { intros q Hq. rewrite Vo. now apply Z.eqb_neq in Hq as ->. }
  assert (Von : forall k1 p1, on_free_area s0 k1 p1 <-> on_free_area s k1 p1)
    by (intros k1 p1; reflexivity).
  assert (Vzero : forall q, data_bytes (mem s q) = false ->
                            data_bytes (mem s0 q) = false).
  { intros q Hq. rewrite Vm. now destruct (_ && _). }
  assert (Vnode : forall q, node_bytes (mem s q) = false ->
                            node_bytes (mem s0 q) = false).
  { intros q Hq. rewrite Vm. now destruct (_ && _). }
  split; [| split; [| split]].
  - constructor.
    + exact (wf_max_order _ _ _ Hwf).
    + exact (wf_valid _ _ _ Hwf).
    + intros k1 p1 H1. destruct (wf_heads _ _ _ Hwf k1 p1 H1) as [Ho Hc].
      assert (p1 <> p) by (intros ->; exact (Hnl k1 H1)).
      rewrite Vord, Vr by assumption. tauto.
    + intros p1 Hr1 Hh1 Hc1 _. unfold is_head in Hh1. rewrite Vo in Hh1.
      destruct (Z.eqb_spec p1 p) as [-> | Hne]; [congruence|].
      rewrite Vord by assumption. rewrite Vr in Hc1.
      apply (wf_listed _ _ _ Hwf p1 Hr1 Hh1 Hc1). congruence.
    + exact (wf_buddies _ _ _ Hwf).
    + intros h Hrh Hhh. unfold is_head in Hhh. rewrite Vo in Hhh.
      destruct (Z.eqb_spec h p) as [-> | Hne]; [congruence|].
      destruct (wf_groups _ _ _ Hwf h Hrh Hhh) as (Ho & Ha & Ht).
      unfold group_ok. rewrite Vord by assumption.
      split; [exact Ho|]. split; [exact Ha|].
      intros q Hq. destruct (Ht q Hq) as (Hrq & Hoq & Hcq).
      rewrite Vo, Vr. destruct (q =? p); tauto.
    + exact (wf_external _ _ _ Hwf).
    + intros k1 p1 H1 q Hq.
      destruct (wf_zero _ _ _ Hwf k1 p1 H1 q Hq) as [Hd Hn].
      split; [now apply Vzero | intros Hne; now apply Vnode, Hn].
  - split; [exact Hop|]. split; [exact Hap|]. split.
    + intros q Hq.
      assert (Hz : page_zero s0 q).
      { unfold page_zero. rewrite Vm. unfold in_group in Hq.
        destruct (Z.leb_spec p q); [| lia].
        destruct (Z.ltb_spec q (p + 2 ^ k0)); [| lia]. now split. }
      destruct (Z.eq_dec q p) as [-> | Hne].
      * rewrite Vo, Z.eqb_refl, Vr. tauto.
      * destruct (Htp q) as (Hrq & Hoq & Hcq).
        { unfold in_group in Hq. lia. }
        rewrite Vord, Vr by assumption. tauto.
    + intros h q Hrh Hhh Hqh Hqp. unfold is_head in Hhh. rewrite Vo in Hhh.
      destruct (Z.eqb_spec h p) as [-> | Hne]; [congruence|].
      rewrite Vord in Hqh by assumption.
      apply Hne.
      exact (heads_disjoint _ s h p q Hwf Hrh Hhh Hrp Hhp Hqh Hqp).
  - do 4 (split; [reflexivity|]). split; [exact Vr|].
    intros q Hq. apply Vord. congruence.
  - intros q (k1 & p1 & H1 & Hq). exists k1, p1. now split.
Qed.

Lemma attach_in_range_wf (s : state) (p : Z) :
  0 <= PAGE_SHIFT ->
  pool_wf_but (eq p) s ->
  in_range s p -> is_head s p -> page_refcount s p = 0 ->
  (forall k, ~ on_free_area s k p) ->
  exists s',
    __hyp_attach_page s p = Some s' /\
    pool_wf s' /\ frame_of s s' /\
    (forall q, free_covered s q \/ in_group p (page_order s p) q ->
               free_covered s' q).
Proof.
  intros HPS Hwf Hrp Hhp Hcp Hnl.
  destruct (attach_start_wf s p HPS Hwf Hrp Hhp Hcp Hnl)
    as (Hwf0 & Horph0 & Hfr0 & Hcov0).
  unfold __hyp_attach_page.
  change (range_start (memset_pages PAGE_SHIFT s p _)) with (range_start s).
  change (range_end (memset_pages PAGE_SHIFT s p _)) with (range_end s).
  destruct Hrp as [Hvp [Hlo Hhi]].
  destruct (Z.ltb_spec (hyp_page_to_phys p) (range_start s)) as [? | _];
    [lia|].
  destruct (Z.leb_spec (range_end s) (hyp_page_to_phys p)) as [? | _];
    [lia|].
  cbn [orb].
  match type of Hwf0 with pool_wf ?x => set (s0 := x) in * end.
  destruct (attach_loop_wf HPS
              (Z.to_nat (max_order s0 - page_order s p)) s0 p
              (page_order s p) Hwf0 Horph0 ltac:(lia))
    as (s1 & p1 & k1 & Hloop & Hwf1 & Horph1 & Hfr1 & Hstop & Hcov1).
  rewrite Hloop. cbn [bind].
  destruct (attach_insert_wf s1 p1 k1 HPS Hwf1 Horph1 Hstop)
    as (s' & Hins & Hwf' & Hfr' & _ & Hcov').
  exists s'. split; [exact Hins|]. split; [exact Hwf'|]. split.
  - exact (frame_of_trans _ _ _ Hfr0 (frame_of_trans _ _ _ Hfr1 Hfr')).
  - intros q Hq. apply Hcov', Hcov1.
    destruct Hq as [Hq | Hq]; [left; now apply Hcov0 | now right].
Qed.


(** *** Attach of an external group *)

Lemma attach_external_wf (s : state) (p : Z) :
  0 <= PAGE_SHIFT ->
  pool_wf_but (eq p) s ->
  valid_pfn p -> ~ in_range s p ->
  0 <= page_order s p <= max_order s ->
  page_refcount s p = 0 ->
  external_ok s (page_order s p) p ->
  ~ free_covered s p ->
  exists s',
    __hyp_attach_page s p = Some s' /\
    pool_wf s' /\ frame_of s s' /\
    (forall q, free_covered s q \/ in_group p (page_order s p) q ->
               free_covered s' q).
Proof.
  intros HPS Hwf Hvp Hnr Hop Hcp Hext Hnc.
  destruct (wf_max_order _ _ _ Hwf) as [Hmax Hfit].
  set (k := page_order s p) in *.
  assert (Hout : ~ addr_in_range s (hyp_page_to_phys p))
    by (intros H; apply Hnr; now split).
  set (s0 := memset_pages PAGE_SHIFT s p (shl64 PAGE_SIZE k)).
  set (s' := set_node_bytes
               (set_free_area (set_order s0 p k)
                  (upd (free_area s) k (free_area s k ++ [p])))
               p true).
  exists s'. split.
  { unfold __hyp_attach_page. fold k. fold s0.
    change (range_start s0) with (range_start s).
    change (range_end s0) with (range_end s).
    unfold addr_in_range in Hout.
    destruct (Z.ltb_spec (hyp_page_to_phys p) (range_start s));
      destruct (Z.leb_spec (range_end s) (hyp_page_to_phys p));
      cbn [orb]; try lia;
      unfold attach_insert;
      (rewrite page_add_to_list_ok by exact Hop);
      reflexivity. }
  assert (Vo : forall q, page_order s' q = page_order s q).
  { intros q. unfold s'.
    change (page_order (set_order s0 p k) q = page_order s0 q).
    rewrite page_order_set_order.
    destruct (Z.eqb_spec q p) as [-> | _]; reflexivity. }
  assert (Vr : forall q, page_refcount s' q = page_refcount s q).
  { intros q. unfold s'.
    change (page_refcount (set_order s0 p k) q = page_refcount s0 q).
    now rewrite page_refcount_set_order. }
  assert (Vfa : forall j, free_area s' j
                          = if j =? k then free_area s k ++ [p]
                            else free_area s j).
  { intros j. unfold s'. cbn. unfold upd. reflexivity. }
  assert (Vm : forall q, q <> p ->
                 mem s' q = if (p <=? q) && (q <? p + 2 ^ k)
                            then zero_body else mem s q).
  { intros q Hq. unfold s'. cbn. unfold upd.
    apply Z.eqb_neq in Hq as ->. now rewrite memset_len by lia. }
  assert (Vmp : data_bytes (mem s' p) = false).
  { unfold s'. cbn. unfold upd. rewrite Z.eqb_refl. cbn.
    rewrite memset_len by lia.
    pose proof (pow2_pos k ltac:(lia)).
    destruct (Z.leb_spec p p); [| lia].
    destruct (Z.ltb_spec p (p + 2 ^ k)); [reflexivity | lia]. }
  assert (Vin : forall q, in_range s' q <-> in_range s q)
    by (intros q; now apply in_range_frame).
  assert (Hnl : forall k1, ~ on_free_area s k1 p).
  { intros k1 H1. apply Hnc. exists k1, p. split; [assumption|].
    apply in_group_head. destruct H1; lia. }
  assert (Von : forall k1 p1, on_free_area s' k1 p1 ->
                              on_free_area s k1 p1 \/ (k1 = k /\ p1 = p)).
  { intros k1 p1 [Hk1 Hin]. change (max_order s') with (max_order s) in Hk1.
    rewrite Vfa in Hin.
    destruct (Z.eqb_spec k1 k) as [-> | _].
    - apply in_app_or in Hin as [Hin | [<- | []]].
      + left. now split.
      + right. now split.
    - left. now split. }
  assert (Vsub : forall k1 p1, on_free_area s k1 p1 -> on_free_area s' k1 p1).
  { intros k1 p1 [Hk1 Hin]. split; [exact Hk1|]. rewrite Vfa.
    destruct (Z.eqb_spec k1 k) as [-> | _]; [| assumption].
    apply in_or_app. now left. }
  assert (Vnew : on_free_area s' k p).
  { split; [exact Hop|]. rewrite Vfa, Z.eqb_refl.
    apply in_or_app. right. now left. }
  split; [| split].
  - constructor.
    + exact (wf_max_order _ _ _ Hwf).
    + intros k1 p1 H1. apply Von in H1 as [H1 | [-> ->]].
      * exact (wf_valid _ _ _ Hwf k1 p1 H1).
      * exact Hvp.
    + intros k1 p1 H1. rewrite Vo, Vr.
      apply Von in H1 as [H1 | [-> ->]].
      * exact (wf_heads _ _ _ Hwf k1 p1 H1).
      * tauto.
    + intros p1 Hr1 Hh1 Hc1 _. apply (proj1 (Vin p1)) in Hr1.
      unfold is_head in Hh1. rewrite Vo in Hh1 |- *. rewrite Vr in Hc1.
      assert (Hin : In p1 (free_area s (page_order s p1))).
      { apply (wf_listed _ _ _ Hwf p1 Hr1 Hh1 Hc1). intros <-. tauto. }
      rewrite Vfa. destruct (_ =? k) eqn:E; [| assumption].
      apply Z.eqb_eq in E. rewrite E in Hin. apply in_or_app. now left.
    + intros k1 p1 H1 Hlt1 Hr1 Hbr1 Hin.
      change (max_order s') with (max_order s) in Hlt1.
      change (addr_in_range s (hyp_page_to_phys p1)) in Hr1.
      change (addr_in_range s (buddy_addr p1 k1)) in Hbr1.
      apply Von in H1 as [H1 | [_ ->]]; [| contradiction].
      assert (Hv1 := wf_valid _ _ _ Hwf k1 p1 H1).
      destruct (buddy_addr_pfn p1 k1 HPS Hv1) as (Hvb & Hab & Hpb);
        [destruct H1; lia | destruct H1; lia |].
      assert (Hin' : on_free_area s' k1 (hyp_phys_to_page (buddy_addr p1 k1)))
        by (split; [destruct H1 as [H1 _]; exact H1 | exact Hin]).
      apply Von in Hin' as [[_ Hold] | [_ Heq]].
      * exact (wf_buddies _ _ _ Hwf k1 p1 H1 Hlt1 Hr1 Hbr1 Hold).
      * apply Hnr. rewrite <- Heq, Hpb. split; [exact Hvb|].
        now rewrite <- Hab.
    + intros h Hrh Hhh. apply (proj1 (Vin h)) in Hrh.
      unfold is_head in Hhh. rewrite Vo in Hhh.
      destruct (wf_groups _ _ _ Hwf h Hrh Hhh) as (Ho & Ha & Ht).
      unfold group_ok. rewrite Vo.
      split; [exact Ho|]. split; [exact Ha|].
      intros q Hq. destruct (Ht q Hq) as (Hrq & Hoq & Hcq).
      rewrite Vo, Vr. split; [exact (proj2 (Vin q) Hrq) | tauto].
    + intros k1 p1 H1 Hn1.
      assert (Hn1' : ~ in_range s p1)
        by (intros H; apply Hn1; exact (proj2 (Vin p1) H)).
      apply Von in H1 as [H1 | [-> ->]].
      * exact (wf_external _ _ _ Hwf k1 p1 H1 Hn1').
      * exact Hext.
    + intros k1 p1 H1 q Hq. apply Von in H1 as [H1 | [-> ->]].
      * assert (Hqp : q <> p).
        { intros ->. apply Hnc. now exists k1, p1. }
        destruct (wf_zero _ _ _ Hwf k1 p1 H1 q Hq) as [Hd Hn].
        rewrite Vm by assumption.
        destruct (_ && _); [split; reflexivity | split; assumption].
      * destruct (Z.eq_dec q p) as [-> | Hne].
        -- split; [exact Vmp | congruence].
        -- rewrite Vm by assumption. unfold in_group in Hq.
           destruct (Z.leb_spec p q); [| lia].
           destruct (Z.ltb_spec q (p + 2 ^ k)); [| lia].
           split; reflexivity.
  - do 4 (split; [reflexivity|]). split; [exact Vr|]. intros q _. apply Vo.
  - intros q [(k1 & p1 & H1 & Hq) | Hq].
    + exists k1, p1. split; [now apply Vsub | assumption].
    + exists k, p. now split.
Qed.


(** *** Put *)

Local Abbreviation may_put := (may_put PAGE_SHIFT).

Lemma pool_wf_set_free_pages (s : state) (n : Z) :
  pool_wf s -> pool_wf (set_free_pages s n).
Proof. intros [H1 H2 H3 H4 H5 H6 H7 H8]. constructor; assumption. Qed.

Lemma free_covered_lists (s s' : state) (q : Z) :
  max_order s' = max_order s ->
  (forall k, free_area s' k = free_area s k) ->
  free_covered s q -> free_covered s' q.
Proof.
  intros Hm Hfa (k & p & [Hk Hin] & Hq). exists k, p.
  split; [| assumption]. split; [now rewrite Hm | now rewrite Hfa].
Qed.

Lemma put_page_wf (s : state) (p : Z) :
  0 <= PAGE_SHIFT ->
  pool_wf s -> may_put s p ->
  exists s',
    __hyp_put_page s p = Some s' /\ pool_wf s' /\ put_post s p s'.
Proof.
  intros HPS Hwf (Hvp & Href & Hcase).
  unfold __hyp_put_page, hyp_page_ref_dec_and_test.
  destruct (Z.leb_spec (page_refcount s p) 0) as [? | _]; [lia|].
  cbn [bind]. rewrite page_refcount_set_refcount, Z.eqb_refl.
  destruct (Z.eqb_spec (page_refcount s p - 1) 0) as [Hz | Hnz].
  - (* the last reference *)
    assert (Hr1 : page_refcount s p = 1) by lia.
    rewrite Hz.
    set (s1 := set_refcount s p 0).
    destruct (ref_dec_to_zero_wf s p Hwf Hr1) as [Hwf1 Hnl1].
    fold s1 in Hwf1, Hnl1.
    assert (Vo : forall q, page_order s1 q = page_order s q)
      by (intros q; apply page_order_set_refcount).
    assert (Vr : forall q, page_refcount s1 q
                           = if q =? p then 0 else page_refcount s q)
      by (intros q; apply page_refcount_set_refcount).
    assert (Hc1 : page_refcount s1 p = 0) by (now rewrite Vr, Z.eqb_refl).
    assert (Hatt : exists s2,
               __hyp_attach_page s1 p = Some s2 /\ pool_wf s2 /\
               frame_of s1 s2 /\
               (forall q, free_covered s1 q \/ in_group p (page_order s1 p) q
                          -> free_covered s2 q)).
    { destruct Hcase as [[Hrp Hhp] | (Hnr & Hop & Hext & Hnc)].
      - apply attach_in_range_wf; try assumption.
        unfold is_head. now rewrite Vo.
      - apply attach_external_wf; try assumption.
        + now rewrite Vo.
        + now rewrite Vo. }
    destruct Hatt as (s2 & Hatt & Hwf2 & (Hm & Hs & He & _ & Hr & Ho) & Hcov).
    rewrite Hatt. cbn [bind]. eexists. split; [reflexivity|].
    split; [now apply pool_wf_set_free_pages|].
    split; [exact Hm|]. split; [exact Hs|]. split; [exact He|]. split.
    { intros q.
      change (page_refcount s2 q
              = if q =? p then page_refcount s p - 1 else page_refcount s q).
      rewrite Hr, Vr, Hz. reflexivity. }
    split.
    { intros q Hne Hq.
      change (page_order s2 q = page_order s q).
      rewrite Ho, Vo; [reflexivity|].
      rewrite Vr. now apply Z.eqb_neq in Hne as ->. }
    intros _ q Hq.
    assert (Hq2 : free_covered s2 q).
    { apply Hcov. rewrite Vo. destruct Hq as [Hq | Hq]; [left | now right].
      revert Hq. now apply free_covered_lists. }
    revert Hq2. now apply free_covered_lists.
  - (* other holders remain *)
    apply Z.eqb_neq in Hnz as Hnz'.
    eexists. split; [reflexivity|].
    split; [apply set_refcount_held_wf; [assumption | lia | assumption]|].
    do 3 (split; [reflexivity|]). split.
    { intros q. apply page_refcount_set_refcount. }
    split.
    { intros q _ _. apply page_order_set_refcount. }
    intros Hone. lia.
Qed.

Lemma hyp_put_page_wf (s : state) (p : Z) :
  0 <= PAGE_SHIFT <= 64 ->
  pool_wf s -> may_put s p ->
  exists s',
    hyp_put_page s (hyp_page_to_virt p) = Some s' /\
    pool_wf s' /\ put_post s p s'.
Proof.
  intros HPS Hwf Hput.
  destruct (put_page_wf s p ltac:(lia) Hwf Hput) as (s' & Hp & Hwf' & Hpost).
  exists s'. split; [| now split].
  unfold hyp_put_page.
  destruct Hput as (Hvp & _ & Hcase).
  rewrite virt_to_page_to_virt by assumption.
  assert (Hord : page_order s p <= max_order s).
  { destruct Hcase as [[Hrp Hhp] | (_ & Hop & _)]; [| lia].
    destruct (wf_groups _ _ _ Hwf p Hrp Hhp) as (Ho & _). lia. }
  destruct (Z.ltb_spec (max_order s) (page_order s p)); [lia | exact Hp].
Qed.


(** *** One round of splitting *)

Local Abbreviation extracting := (extracting PAGE_SHIFT).

Lemma split_step_view (s : state) (p b : Z) :
  p <> b ->
  0 <= page_order s p - 1 <= max_order s ->
  let k := page_order s p - 1 in
  let s1 := set_order s p (page_order s p - 1) in
  let s2 := set_order s1 b (page_order s1 p) in
  exists s3,
    page_add_to_list s2 b (page_order s2 b) = Some s3 /\
    (forall q, page_order s3 q
               = if q =? b then k else if q =? p then k else page_order s q) /\
    (forall q, page_refcount s3 q = page_refcount s q) /\
    (forall j, free_area s3 j
               = if j =? k then free_area s k ++ [b] else free_area s j) /\
    (forall q, mem s3 q
               = if q =? b then mkBody true (data_bytes (mem s b))
                 else mem s q) /\
    max_order s3 = max_order s /\
    range_start s3 = range_start s /\
    range_end s3 = range_end s /\
    free_pages s3 = free_pages s.
Proof.
  intros Hne Hk k s1 s2.
  assert (H1 : page_order s1 p = k)
    by (unfold s1; now rewrite page_order_set_order, Z.eqb_refl).
  assert (H2 : page_order s2 b = k)
    by (unfold s2; now rewrite page_order_set_order, Z.eqb_refl).
  rewrite H2. rewrite page_add_to_list_ok by exact Hk.
  eexists. split; [reflexivity|]. repeat split.
  - intros q.
    change (page_order s2 q
            = if q =? b then k else if q =? p then k else page_order s q).
    unfold s2. rewrite page_order_set_order, H1.
    unfold s1. now rewrite page_order_set_order.
  - intros q. change (page_refcount s2 q = page_refcount s q).
    unfold s2, s1. now rewrite !page_refcount_set_order.
Qed.


Lemma split_step_wf (s : state) (p : Z) :
  0 <= PAGE_SHIFT ->
  extracting s p -> in_range s p ->
  0 < page_order s p ->
  let k := page_order s p - 1 in
  let b := buddy_pfn p k in
  let s1 := set_order s p (page_order s p - 1) in
  let s2 := set_order s1 b (page_order s1 p) in
  __find_buddy_nocheck s p k = Some b /\
  exists s3,
    page_add_to_list s2 b (page_order s2 b) = Some s3 /\
    extracting s3 p /\ in_range s3 p /\
    page_order s3 p = k /\ frame_of s s3.
Proof.
  intros HPS (Hwf & Hvp & Hcp & Hop & Hnl & _ & Hzp) Hrp Hpos k b s1 s2.
  destruct (wf_max_order _ _ _ Hwf) as [Hmax Hfit].
  assert (Hhp : is_head s p) by (apply is_head_order; lia).
  destruct (wf_groups _ _ _ Hwf p Hrp Hhp) as (_ & Hap & Htp).
  assert (Hk : 0 <= k <= max_order s) by (unfold k; lia).
  assert (Hkk : page_order s p = k + 1) by (unfold k; lia).
  assert (Hp0 : 0 <= p) by (destruct Hvp; assumption).
  rewrite Hkk in Hap, Htp, Hzp.
  assert (Hb : b = p + 2 ^ k) by (apply buddy_pfn_up; [lia | lia | exact Hap]).
  pose proof (pow2_pos k ltac:(lia)) as Hpk.
  pose proof (pow2_succ k ltac:(lia)) as Hsk.
  assert (Hapk : aligned p k) by (apply (aligned_le p k (k + 1)); [lia | exact Hap]).
  destruct (buddy_group p k ltac:(lia) Hp0 Hapk) as (_ & Hab & _ & _).
  fold b in Hab.
  destruct (Htp b ltac:(lia)) as (Hrb & Hob & Hcb).
  destruct (buddy_addr_pfn p k HPS Hvp ltac:(lia) ltac:(lia))
    as (Hvb & Haddr & Hpage).
  fold b in Hvb, Haddr, Hpage.
  assert (Hpb : p <> b) by lia.
  split.
  { apply nocheck_some. split; [| now rewrite Hpage].
    rewrite Haddr. apply Hrb. }
  destruct (split_step_view s p b Hpb ltac:(fold k; lia))
    as (s3 & Hadd & Vo & Vr & Vfa & Vm & Vmax & Vs & Ve & Vfp).
  fold k in Vo, Vfa. fold s1 s2 in Hadd.
  exists s3. split; [exact Hadd|].
  assert (Vin : forall q, in_range s3 q <-> in_range s q)
    by (intros q; now apply in_range_frame).
  assert (Vord : forall q, q <> p -> q <> b -> page_order s3 q = page_order s q).
  { intros q H1 H2. rewrite Vo.
    apply Z.eqb_neq in H1 as ->. now apply Z.eqb_neq in H2 as ->. }
  assert (Vop : page_order s3 p = k).
  { rewrite Vo, Z.eqb_refl. now destruct (p =? b). }
  assert (Vob : page_order s3 b = k) by now rewrite Vo, Z.eqb_refl.
  assert (Hnlb : forall k1, ~ on_free_area s k1 b).
  { intros k1 H1. destruct (wf_heads _ _ _ Hwf k1 b H1) as [Ho _].
    destruct H1 as [H1 _]. unfold HYP_NO_ORDER in Hob. lia. }
  assert (Von : forall k1 p1, on_free_area s3 k1 p1 ->
                              on_free_area s k1 p1 \/ (k1 = k /\ p1 = b)).
  { intros k1 p1 [Hk1 Hin]. rewrite Vmax in Hk1. rewrite Vfa in Hin.
    destruct (Z.eqb_spec k1 k) as [-> | _].
    - apply in_app_or in Hin as [Hin | [<- | []]].
      + left. now split.
      + right. now split.
    - left. now split. }
  assert (Vsub : forall k1 p1, on_free_area s k1 p1 -> on_free_area s3 k1 p1).
  { intros k1 p1 [Hk1 Hin]. split; [now rewrite Vmax|]. rewrite Vfa.
    destruct (Z.eqb_spec k1 k) as [-> | _]; [| assumption].
    apply in_or_app. now left. }
  assert (Vnew : on_free_area s3 k b).
  { split; [rewrite Vmax; lia|]. rewrite Vfa, Z.eqb_refl.
    apply in_or_app. right. now left. }
  assert (Hold : forall k1 p1, on_free_area s k1 p1 -> p1 <> p /\ p1 <> b).
  { intros k1 p1 H1. split; intros ->; [exact (Hnl k1 H1) | exact (Hnlb k1 H1)]. }
  (* no other head owns a frame of the group of [p] *)
  assert (Hown : forall h q, in_range s h -> is_head s h -> h <> p ->
                   in_group h (page_order s h) q -> ~ in_group p (k + 1) q).
  { intros h q Hrh Hhh Hne Hqh Hq. apply Hne.
    apply (heads_disjoint _ s h p q Hwf Hrh Hhh Hrp Hhp Hqh).
    now rewrite Hkk. }
  assert (Hgp : in_group p (k + 1) p) by (apply in_group_head; lia).
  assert (Hgb : in_group p (k + 1) b) by (unfold in_group; lia).
  split; [| split; [exact (proj2 (Vin p) Hrp) | split; [exact Vop|]]].
  - split; [| split; [exact Hvp | split; [now rewrite Vr | split;
      [rewrite Vop, Vmax; lia | split; [| split]]]]].
    + constructor.
      * rewrite Vmax. tauto.
      * intros k1 p1 H1. apply Von in H1 as [H1 | [-> ->]].
        -- exact (wf_valid _ _ _ Hwf k1 p1 H1).
        -- exact Hvb.
      * intros k1 p1 H1. apply Von in H1 as [H1 | [-> ->]].
        -- destruct (Hold k1 p1 H1) as [N1 N2].
           rewrite Vord, Vr by assumption.
           exact (wf_heads _ _ _ Hwf k1 p1 H1).
        -- rewrite Vob, Vr. tauto.
      * intros p1 Hr1 Hh1 Hc1 Hne.
        destruct (Z.eq_dec p1 b) as [-> | Hnb].
        -- rewrite Vob. apply Vnew.
        -- assert (Hnp : p1 <> p) by congruence.
           unfold is_head in Hh1. rewrite Vord in Hh1 |- * by assumption.
           rewrite Vr in Hc1.
           assert (Hin : In p1 (free_area s (page_order s p1)))
             by exact (wf_listed _ _ _ Hwf p1 (proj1 (Vin p1) Hr1)
                                 Hh1 Hc1 Hne).
           rewrite Vfa. destruct (_ =? k) eqn:E; [| assumption].
           apply Z.eqb_eq in E. rewrite E in Hin.
           apply in_or_app. now left.
      * intros k1 p1 H1 Hlt1 Hr1 Hbr1 Hin.
        rewrite Vmax in Hlt1.
        unfold addr_in_range in Hr1, Hbr1. rewrite Vs, Ve in Hr1, Hbr1.
        fold (addr_in_range s (hyp_page_to_phys p1)) in Hr1.
        fold (addr_in_range s (buddy_addr p1 k1)) in Hbr1.
        assert (Hk1 : 0 <= k1 <= max_order s)
          by (destruct H1 as [H1 _]; now rewrite Vmax in H1).
        assert (Hv1 : valid_pfn p1).
        { apply Von in H1 as [H1 | [_ ->]];
            [exact (wf_valid _ _ _ Hwf k1 p1 H1) | exact Hvb]. }
        destruct (buddy_addr_pfn p1 k1 HPS Hv1 ltac:(lia) ltac:(lia))
          as (Hvb1 & Hab1 & Hpb1).
        rewrite Hpb1 in Hin.
        assert (Hin' : on_free_area s3 k1 (buddy_pfn p1 k1))
          by (split; [rewrite Vmax; lia | assumption]).
        apply Von in Hin' as [Hin' | [-> Heq]];
          apply Von in H1 as [H1 | [Hk' Hp']].
        -- apply (wf_buddies _ _ _ Hwf k1 p1 H1 Hlt1 Hr1 Hbr1).
           rewrite Hpb1. apply Hin'.
        -- subst k1 p1. unfold b in Hin'.
           rewrite buddy_pfn_invol in Hin'. exact (Hnl k Hin').
        -- assert (p1 = p).
           { rewrite <- (buddy_pfn_invol p1 k), Heq. unfold b.
             apply buddy_pfn_invol. }
           subst p1. exact (Hnl k H1).
        -- subst p1. now apply buddy_pfn_neq in Heq; [| lia].
      * intros h Hrh Hhh. apply (proj1 (Vin h)) in Hrh.
        unfold group_ok. rewrite Vmax.
        destruct (Z.eq_dec h p) as [-> | Hnp]; [| destruct (Z.eq_dec h b)
                                                   as [-> | Hnb]].
        -- rewrite Vop. split; [lia|]. split; [exact Hapk|].
           intros q Hq. destruct (Htp q ltac:(lia)) as (Hrq & Hoq & Hcq).
           rewrite Vord, Vr by lia.
           split; [exact (proj2 (Vin q) Hrq) | tauto].
        -- rewrite Vob. split; [lia|]. split; [exact Hab|].
           intros q Hq. destruct (Htp q ltac:(lia)) as (Hrq & Hoq & Hcq).
           rewrite Vord, Vr by lia.
           split; [exact (proj2 (Vin q) Hrq) | tauto].
        -- unfold is_head in Hhh. rewrite Vord in Hhh |- * by assumption.
           destruct (wf_groups _ _ _ Hwf h Hrh Hhh) as (Ho & Ha & Ht).
           split; [exact Ho|]. split; [exact Ha|].
           intros q Hq. destruct (Ht q Hq) as (Hrq & Hoq & Hcq).
           assert (Hqg : in_group h (page_order s h) q)
             by (unfold in_group; lia).
           assert (q <> p) by (intros ->; exact (Hown h p Hrh Hhh Hnp Hqg Hgp)).
           assert (q <> b) by (intros ->; exact (Hown h b Hrh Hhh Hnp Hqg Hgb)).
           rewrite Vord, Vr by assumption.
           split; [exact (proj2 (Vin q) Hrq) | tauto].
      * intros k1 p1 H1 Hn1.
        assert (Hn1' : ~ in_range s p1)
          by (intros H; apply Hn1; exact (proj2 (Vin p1) H)).
        apply Von in H1 as [H1 | [_ ->]]; [| contradiction].
        destruct (wf_external _ _ _ Hwf k1 p1 H1 Hn1') as [He1 He2].
        split; [assumption|]. intros q Hq.
        destruct (He2 q Hq) as [Hv Hn]. split; [assumption|].
        unfold addr_in_range in *. now rewrite Vs, Ve.
      * intros k1 p1 H1 q Hq. apply Von in H1 as [H1 | [-> ->]].
        -- assert (Hqb : q <> b).
           { intros ->.
             destruct (wf_heads _ _ _ Hwf k1 p1 H1) as [Ho1 _].
             assert (Hk1 : 0 <= k1 <= 30) by (destruct H1; lia).
             destruct (Hold k1 p1 H1) as [N1 _].
             destruct (in_range_dec s p1) as [Hr1 | Hr1].
             - apply (Hown p1 b Hr1); try assumption.
               + apply is_head_order. lia.
               + now rewrite Ho1.
             - destruct (wf_external _ _ _ Hwf k1 p1 H1 Hr1) as [_ He2].
               destruct (He2 b Hq) as [_ Hn]. apply Hn, Hrb. }
           rewrite Vm. apply Z.eqb_neq in Hqb as ->.
           exact (wf_zero _ _ _ Hwf k1 p1 H1 q Hq).
        -- destruct (Hzp q) as [Hzn Hzd].
           { unfold in_group in *. lia. }
           rewrite Vm. destruct (Z.eqb_spec q b) as [-> | Hne]; simpl.
           ++ split; [assumption | congruence].
           ++ split; [assumption | intros _; assumption].
    + intros k1 H1. apply Von in H1 as [H1 | [_ Heq]];
        [exact (Hnl k1 H1) | congruence].
    + left. exact (proj2 (Vin p) Hrp).
    + rewrite Vop. intros q Hq. unfold page_zero. rewrite Vm.
      assert (q <> b) by (unfold in_group in Hq; lia).
      apply Z.eqb_neq in H as ->.
      apply Hzp. unfold in_group in *. lia.
  - do 4 (split; [assumption|]). split; [exact Vr|].
    intros q Hq. apply Vord; congruence.
Qed.


(** *** The split loop *)

Lemma external_nocheck_none (s : state) (p k : Z) :
  0 <= PAGE_SHIFT ->
  valid_pfn p -> external_ok s k p ->
  0 < k -> PAGE_SHIFT + k < 64 ->
  __find_buddy_nocheck s p (k - 1) = None.
Proof.
  intros HPS Hvp [Ha Hout] Hk Hfit.
  assert (Hp0 : 0 <= p) by (destruct Hvp; assumption).
  pose proof (pow2_pos (k - 1) ltac:(lia)) as Hpk.
  pose proof (pow2_succ (k - 1) ltac:(lia)) as Hsk.
  replace (k - 1 + 1) with k in Hsk by lia.
  assert (Hb : buddy_pfn p (k - 1) = p + 2 ^ (k - 1)).
  { apply buddy_pfn_up; [lia | lia |].
    now replace (k - 1 + 1) with k by lia. }
  destruct (buddy_addr_pfn p (k - 1) HPS Hvp ltac:(lia) ltac:(lia))
    as (_ & Haddr & _).
  apply nocheck_none. rewrite Haddr, Hb.
  apply (Hout (p + 2 ^ (k - 1))). unfold in_group. lia.
Qed.

Lemma extract_loop_wf :
  0 <= PAGE_SHIFT ->
  forall (fuel : nat) (s : state) (p want : Z),
    0 <= want ->
    extracting s p ->
    exists s',
      extract_loop fuel s p want = Some s' /\
      extracting s' p /\ frame_of s s' /\
      page_order s' p <= page_order s p /\
      (want <= page_order s p -> want <= page_order s' p).
Proof.
  intros HPS. induction fuel as [| fuel IH]; intros s p want Hw Hex.
  - exists s. simpl. split; [reflexivity|]. split; [assumption|].
    split; [apply frame_of_refl | lia].
  - simpl. destruct (Z.ltb_spec want (page_order s p)) as [Hlt | Hge].
    + destruct (in_range_dec s p) as [Hrp | Hnr].
      * destruct (split_step_wf s p HPS Hex Hrp ltac:(lia))
          as (Hno & s3 & Hadd & Hex3 & Hr3 & Ho3 & Hfr3).
        rewrite Hno, Hadd. cbn [bind].
        destruct (IH s3 p want Hw Hex3)
          as (s' & Hloop & Hex' & Hfr' & Hle & Hge).
        exists s'. split; [exact Hloop|]. split; [exact Hex'|].
        split; [exact (frame_of_trans _ _ _ Hfr3 Hfr')|].
        split; [lia|]. intros _. apply Hge. lia.
      * pose proof Hex as Hex0.
        destruct Hex as (Hwf & Hvp & Hcp & Hop & Hnl & Hcase & Hzp).
        destruct Hcase as [Hrp | Hext]; [contradiction|].
        destruct (wf_max_order _ _ _ Hwf) as [Hmax Hfit].
        rewrite (external_nocheck_none s p (page_order s p) HPS Hvp Hext)
          by lia.
        exists s. split; [reflexivity|]. split; [exact Hex0|].
        split; [apply frame_of_refl | lia].
    + exists s. split; [reflexivity|]. split; [assumption|].
      split; [apply frame_of_refl | lia].
Qed.

(** *** Unlinking a free head *)

Lemma unlink_free_head_wf (s : state) (k p : Z) :
  pool_wf s -> on_free_area s k p ->
  exists s0,
    page_remove_from_list s p = Some s0 /\
    extracting s0 p /\ frame_of s s0 /\
    page_order s0 p = k /\
    (forall q, vmemmap s0 q = vmemmap s q) /\
    (forall j, free_area s0 j = list_del p (free_area s j)).
Proof.
  intros Hwf Hon.
  assert (Honl : on_free_list s p = true)
    by (apply on_free_list_iff; now exists k).
  unfold page_remove_from_list. rewrite Honl.
  eexists. split; [reflexivity|].
  match goal with |- extracting ?x p /\ _ => set (s0 := x) end.
  destruct (wf_heads _ _ _ Hwf k p Hon) as [Hop Hcp].
  assert (Vin : forall q, in_range s0 q <-> in_range s q)
    by (intros q; now apply in_range_frame).
  assert (Von : forall k1 p1, on_free_area s0 k1 p1 ->
                              on_free_area s k1 p1 /\ p1 <> p).
  { intros k1 p1 [Hk1 Hin].
    change (In p1 (list_del p (free_area s k1))) in Hin.
    apply In_list_del in Hin as [Hin Hne].
    split; [split; [exact Hk1 | exact Hin] | exact Hne]. }
  assert (Vm : forall q, mem s0 q
                         = if q =? p then mkBody false (data_bytes (mem s p))
                           else mem s q) by reflexivity.
  split; [| split; [repeat split | split; [exact Hop | split; reflexivity]]].
  split; [| split; [| split; [| split; [| split; [| split]]]]].
  - constructor.
    + exact (wf_max_order _ _ _ Hwf).
    + intros k1 p1 H1. apply Von in H1 as [H1 _].
      exact (wf_valid _ _ _ Hwf k1 p1 H1).
    + intros k1 p1 H1. apply Von in H1 as [H1 _].
      exact (wf_heads _ _ _ Hwf k1 p1 H1).
    + intros p1 Hr1 Hh1 Hc1 Hne.
      change (In p1 (list_del p (free_area s (page_order s p1)))).
      apply In_list_del. split; [| congruence].
      apply (wf_listed _ _ _ Hwf p1 Hr1 Hh1 Hc1). tauto.
    + intros k1 p1 H1 Hlt1 Hr1 Hbr1 Hin. apply Von in H1 as [H1 _].
      change (In (hyp_phys_to_page (buddy_addr p1 k1))
                 (list_del p (free_area s k1))) in Hin.
      apply In_list_del in Hin as [Hin _].
      exact (wf_buddies _ _ _ Hwf k1 p1 H1 Hlt1 Hr1 Hbr1 Hin).
    + exact (wf_groups _ _ _ Hwf).
    + intros k1 p1 H1 Hn1. apply Von in H1 as [H1 _].
      exact (wf_external _ _ _ Hwf k1 p1 H1 Hn1).
    + intros k1 p1 H1 q Hq. apply Von in H1 as [H1 _].
      destruct (wf_zero _ _ _ Hwf k1 p1 H1 q Hq) as [Hd Hn].
      rewrite Vm. destruct (Z.eqb_spec q p) as [-> | _]; simpl;
        [split; [assumption | reflexivity] | split; assumption].
  - exact (wf_valid _ _ _ Hwf k p Hon).
  - exact Hcp.
  - change (0 <= page_order s p <= max_order s). destruct Hon. lia.
  - intros k1 H1. apply Von in H1 as [_ H1]. congruence.
  - destruct (in_range_dec s p) as [Hr | Hr]; [now left | right].
    change (external_ok s (page_order s p) p). rewrite Hop.
    exact (wf_external _ _ _ Hwf k p Hon Hr).
  - intros q Hq.
    change (page_order s0 p) with (page_order s p) in Hq. rewrite Hop in Hq.
    destruct (wf_zero _ _ _ Hwf k p Hon q Hq) as [Hd Hn].
    unfold page_zero. rewrite Vm.
    destruct (Z.eqb_spec q p) as [-> | Hne]; simpl;
      [split; [reflexivity | assumption] | split; [now apply Hn | assumption]].
Qed.


(** *** Alloc *)

Local Abbreviation alloc_post := (alloc_post PAGE_SHIFT).

Lemma alloc_scan_stops (s : state) :
  max_order s < 255 ->
  forall (fuel : nat) (i : Z),
    0 <= i ->
    max_order s + 1 - i <= Z.of_nat fuel ->
    i <= alloc_scan fuel s i /\
    (alloc_scan fuel s i <= max_order s ->
     free_area s (alloc_scan fuel s i) <> []).
Proof.
  intros Hmax. induction fuel as [| fuel IH]; intros i Hi Hfuel; simpl.
  - split; [lia | intros; lia].
  - destruct (Z.leb_spec i (max_order s)) as [Hle | Hgt]; simpl.
    + destruct (free_area s i) eqn:E; simpl.
      * rewrite u8_small by lia.
        destruct (IH (i + 1) ltac:(lia) ltac:(lia)) as [H1 H2].
        split; [lia | exact H2].
      * split; [lia|]. intros _. rewrite E. discriminate.
    + split; [lia | intros; lia].
Qed.

Lemma extracted_refcounted_wf (s : state) (p : Z) :
  extracting s p -> pool_wf (hyp_set_page_refcounted s p).
Proof.
  intros (Hwf & Hvp & Hcp & Hop & Hnl & Hcase & Hzp).
  unfold hyp_set_page_refcounted.
  assert (Vo : forall q, page_order (set_refcount s p 1) q = page_order s q)
    by (intros q; apply page_order_set_refcount).
  assert (Vr : forall q, q <> p ->
                 page_refcount (set_refcount s p 1) q = page_refcount s q).
  { intros q Hq. rewrite page_refcount_set_refcount.
    now apply Z.eqb_neq in Hq as ->. }
  assert (Hhp : is_head s p)
    by (apply is_head_order; pose proof (wf_max_order _ _ _ Hwf); lia).
  constructor.
  - exact (wf_max_order _ _ _ Hwf).
  - exact (wf_valid _ _ _ Hwf).
  - intros k q H. destruct (wf_heads _ _ _ Hwf k q H) as [Ho Hc].
    assert (q <> p) by (intros ->; exact (Hnl k H)).
    rewrite Vo, Vr by assumption. tauto.
  - intros q Hrq Hhq Hcq _.
    rewrite page_refcount_set_refcount in Hcq.
    destruct (Z.eqb_spec q p) as [-> | Hne]; [discriminate|].
    rewrite Vo. apply (wf_listed _ _ _ Hwf q Hrq); [| assumption | congruence].
    unfold is_head in *. now rewrite Vo in Hhq.
  - exact (wf_buddies _ _ _ Hwf).
  - intros h Hrh Hhh. unfold is_head in Hhh. rewrite Vo in Hhh.
    destruct (wf_groups _ _ _ Hwf h Hrh Hhh) as (Ho & Ha & Ht).
    unfold group_ok. rewrite Vo. split; [exact Ho|]. split; [exact Ha|].
    intros q Hq. destruct (Ht q Hq) as (Hrq & Hoq & Hcq).
    assert (q <> p) by (intros ->; contradiction).
    rewrite Vo, Vr by assumption. tauto.
  - exact (wf_external _ _ _ Hwf).
  - exact (wf_zero _ _ _ Hwf).
Qed.

Lemma alloc_pages_wf (s : state) (want : Z) :
  0 <= PAGE_SHIFT ->
  pool_wf s -> 0 <= want ->
  exists r s',
    hyp_alloc_pages s want = Some (r, s') /\
    pool_wf s' /\ alloc_post s want r s'.
Proof.
  intros HPS Hwf Hw.
  destruct (wf_max_order _ _ _ Hwf) as [Hmax Hfit].
  unfold hyp_alloc_pages.
  destruct (alloc_scan_stops s ltac:(lia)
              (Z.to_nat (max_order s + 1 - want)) want Hw ltac:(lia))
    as [Hlo Hne].
  set (i := alloc_scan (Z.to_nat (max_order s + 1 - want)) s want) in *.
  destruct (Z.ltb_spec (max_order s) i) as [Hgt | Hle].
  - exists None, s. split; [reflexivity|]. split; [assumption | reflexivity].
  - specialize (Hne Hle).
    destruct (free_area s i) as [| p l] eqn:Efa; [congruence|].
    assert (Hon : on_free_area s i p).
    { split; [lia|]. rewrite Efa. now left. }
    destruct (unlink_free_head_wf s i p Hwf Hon)
      as (s0 & Hrem & Hex0 & Hfr0 & Ho0 & Hvm0 & _).
    destruct (extract_loop_wf HPS (Z.to_nat (page_order s0 p - want))
                s0 p want Hw Hex0)
      as (s1 & Hloop & Hex1 & Hfr1 & Hle1 & Hge1).
    unfold __hyp_extract_page. rewrite Hrem. cbn [bind].
    rewrite Hloop. cbn [bind].
    eexists. eexists. split; [reflexivity|].
    split.
    { apply pool_wf_set_free_pages. now apply extracted_refcounted_wf. }
    destruct (wf_heads _ _ _ Hwf i p Hon) as [Hop Hcp].
    pose proof (frame_of_trans _ _ _ Hfr0 Hfr1)
      as (Hm & Hs & He & _ & Hr & Ho).
    destruct Hex1 as (_ & Hvp & _ & _ & _ & _ & Hz1).
    exists p.
    assert (Vo : forall q, page_order (hyp_set_page_refcounted s1 p) q
                           = page_order s1 q)
      by (intros q; apply page_order_set_refcount).
    split; [reflexivity|]. split; [exact Hvp|].
    split; [rewrite Hop; exact Hon|].
    split.
    { unfold page_refcount, hyp_set_page_refcounted, set_refcount; simpl.
      now rewrite upd_same. }
    split.
    { change (want <= page_order (hyp_set_page_refcounted s1 p) p
              <= page_order s p).
      rewrite Vo. rewrite Hop. rewrite Ho0 in Hle1, Hge1. lia. }
    split; [exact Hm|]. split; [exact Hs|]. split; [exact He|].
    split.
    { intros q Hq.
      change (page_refcount (set_refcount s1 p 1) q = page_refcount s q).
      rewrite page_refcount_set_refcount.
      apply Z.eqb_neq in Hq as ->. apply Hr. }
    split.
    { intros q Hq.
      change (page_order (hyp_set_page_refcounted s1 p) q = page_order s q).
      rewrite Vo. now apply Ho. }
    intros q Hq.
    change (page_order (set_free_pages (hyp_set_page_refcounted s1 p) _) p)
      with (page_order (hyp_set_page_refcounted s1 p) p) in Hq.
    rewrite Vo in Hq. exact (Hz1 q Hq).
Qed.


(** *** Get *)

Lemma hyp_get_page_wf (s : state) (p : Z) :
  0 <= PAGE_SHIFT <= 64 ->
  pool_wf s -> valid_pfn p -> 1 <= page_refcount s p ->
  pool_wf (hyp_get_page s (hyp_page_to_virt p)).
Proof.
  intros HPS Hwf Hvp Href. unfold hyp_get_page, hyp_page_ref_inc.
  rewrite virt_to_page_to_virt by assumption.
  apply set_refcount_held_wf; [assumption | lia | lia].
Qed.

(** *** Split *)

Lemma split_fold_view (l : list Z) :
  forall s0 : state,
    let s' := fold_left
                (fun s tail => hyp_set_page_refcounted (set_order s tail 0) tail)
                l s0 in
    (forall q, In q l -> page_order s' q = 0 /\ page_refcount s' q = 1) /\
    (forall q, ~ In q l -> vmemmap s' q = vmemmap s0 q) /\
    free_area s' = free_area s0 /\
    max_order s' = max_order s0 /\
    range_start s' = range_start s0 /\
    range_end s' = range_end s0 /\
    free_pages s' = free_pages s0 /\
    mem s' = mem s0.
Proof.
  induction l as [| a l IH]; intros s0; cbn [fold_left].
  - split; [intros q [] | repeat split; reflexivity].
  - set (s1 := hyp_set_page_refcounted (set_order s0 a 0) a).
    destruct (IH s1) as (Hin & Hout & Hfa & Hm & Hs & He & Hfp & Hmem).
    split; [| split; [| repeat split; assumption]].
    + intros q Hq.
      destruct (in_dec Z.eq_dec q l) as [Hl | Hl]; [now apply Hin|].
      destruct Hq as [<- | Hq]; [| contradiction].
      unfold page_order, page_refcount. rewrite (Hout a Hl).
      unfold s1, hyp_set_page_refcounted, set_refcount, set_order; simpl.
      rewrite upd_same. simpl. unfold page_order; simpl.
      rewrite upd_same. simpl. split; reflexivity.
    + intros q Hq. rewrite Hout by (intros H; apply Hq; now right).
      assert (q <> a) by (intros ->; apply Hq; now left).
      unfold s1, hyp_set_page_refcounted, set_refcount, set_order; simpl.
      now rewrite !upd_other by assumption.
Qed.

Lemma hyp_split_page_view (s : state) (p : Z) :
  0 <= page_order s p <= 30 ->
  let s' := hyp_split_page s p in
  let k := page_order s p in
  (forall q, in_group p k q -> page_order s' q = 0) /\
  (forall q, p < q < p + 2 ^ k -> page_refcount s' q = 1) /\
  page_refcount s' p = page_refcount s p /\
  (forall q, ~ in_group p k q -> vmemmap s' q = vmemmap s q) /\
  free_area s' = free_area s /\
  max_order s' = max_order s /\
  range_start s' = range_start s /\
  range_end s' = range_end s /\
  free_pages s' = free_pages s /\
  mem s' = mem s.
Proof.
  intros Hk s' k. unfold s', hyp_split_page. fold k.
  rewrite int_shl1_small by exact Hk.
  pose proof (pow2_pos k ltac:(lia)) as Hpos.
  assert (Hp30 : 2 ^ k <= 2 ^ 30) by (apply Z.pow_le_mono_r; lia).
  change (2 ^ 30) with 1073741824 in Hp30.
  unfold u32. rewrite Z.mod_small by (change (2 ^ 32) with 4294967296; lia).
  set (l := zrange (p + 1) (Z.to_nat (2 ^ k) - 1)).
  assert (Hl : forall q, In q l <-> p < q < p + 2 ^ k).
  { intros q. unfold l. rewrite In_zrange. lia. }
  destruct (split_fold_view l (set_order s p 0))
    as (Hin & Hout & Hfa & Hm & Hs & He & Hfp & Hmem).
  assert (Hnp : ~ In p l) by (rewrite Hl; lia).
  split; [| split; [| split; [| split; [| repeat split; assumption]]]].
  - intros q Hq. destruct (Z.eq_dec q p) as [-> | Hne].
    + unfold page_order. rewrite (Hout p Hnp).
      unfold set_order; simpl. now rewrite upd_same.
    + apply Hin, Hl. unfold in_group in Hq. lia.
  - intros q Hq. apply Hin, Hl, Hq.
  - unfold page_refcount. rewrite (Hout p Hnp).
    unfold set_order; simpl. now rewrite upd_same.
  - intros q Hq.
    assert (q <> p) by (intros ->; apply Hq, in_group_head; lia).
    rewrite Hout by (rewrite Hl; unfold in_group in Hq; lia).
    unfold set_order; simpl. now rewrite upd_other.
Qed.

Lemma split_wf_gen (s : state) (p : Z) :
  pool_wf s ->
  0 <= page_order s p <= 30 ->
  1 <= page_refcount s p ->
  (forall q k1, in_group p (page_order s p) q -> ~ on_free_area s k1 q) ->
  (forall h q, in_range s h -> is_head s h ->
               ~ in_group p (page_order s p) h ->
               in_group h (page_order s h) q ->
               ~ in_group p (page_order s p) q) ->
  pool_wf (hyp_split_page s p).
Proof.
  intros Hwf Hk Href Hnl Hdis.
  destruct (hyp_split_page_view s p Hk)
    as (Vo & Vr & Vrp & Vout & Vfa & Vm & Vs & Ve & Vfp & Vmem).
  set (s' := hyp_split_page s p) in *. set (k := page_order s p) in *.
  destruct (wf_max_order _ _ _ Hwf) as [Hmax Hfit].
  assert (Vin : forall q, in_range s' q <-> in_range s q)
    by (intros q; now apply in_range_frame).
  assert (Von : forall k1 p1, on_free_area s' k1 p1 <-> on_free_area s k1 p1).
  { intros k1 p1. unfold on_free_area. now rewrite Vm, Vfa. }
  assert (Vout_o : forall q, ~ in_group p k q ->
                             page_order s' q = page_order s q).
  { intros q Hq. unfold page_order. now rewrite Vout. }
  assert (Vout_r : forall q, ~ in_group p k q ->
                             page_refcount s' q = page_refcount s q).
  { intros q Hq. unfold page_refcount. now rewrite Vout. }
  assert (Vref : forall q, in_group p k q -> 1 <= page_refcount s' q).
  { intros q Hq. destruct (Z.eq_dec q p) as [-> | Hne].
    - now rewrite Vrp.
    - rewrite Vr; [lia|]. unfold in_group in Hq. lia. }
  assert (Hdec : forall q, in_group p k q \/ ~ in_group p k q)
    by (intros q; unfold in_group; lia).
  constructor.
  - now rewrite Vm.
  - intros k1 p1 H1. apply Von in H1. exact (wf_valid _ _ _ Hwf k1 p1 H1).
  - intros k1 p1 H1. apply Von in H1.
    assert (Hng : ~ in_group p k p1) by (intros H; exact (Hnl p1 k1 H H1)).
    rewrite Vout_o, Vout_r by assumption.
    exact (wf_heads _ _ _ Hwf k1 p1 H1).
  - intros p1 Hr1 Hh1 Hc1 _.
    destruct (Hdec p1) as [Hg | Hg].
    + pose proof (Vref p1 Hg). lia.
    + unfold is_head in Hh1. rewrite Vout_o in Hh1 |- * by assumption.
      rewrite Vout_r in Hc1 by assumption. rewrite Vfa.
      apply (wf_listed _ _ _ Hwf p1 (proj1 (Vin p1) Hr1) Hh1 Hc1). tauto.
  - intros k1 p1 H1 Hlt1 Hr1 Hbr1. apply Von in H1.
    rewrite Vfa. rewrite Vm in Hlt1.
    unfold addr_in_range in Hr1, Hbr1. rewrite Vs, Ve in Hr1, Hbr1.
    exact (wf_buddies _ _ _ Hwf k1 p1 H1 Hlt1 Hr1 Hbr1).
  - intros h Hrh Hhh. apply (proj1 (Vin h)) in Hrh.
    unfold group_ok. rewrite Vm.
    destruct (Hdec h) as [Hg | Hg].
    + rewrite (Vo h Hg). split; [lia|]. split; [apply aligned_0|].
      intros q Hq. simpl in Hq. lia.
    + unfold is_head in Hhh. rewrite Vout_o in Hhh |- * by assumption.
      destruct (wf_groups _ _ _ Hwf h Hrh Hhh) as (Ho & Ha & Ht).
      split; [exact Ho|]. split; [exact Ha|].
      intros q Hq. destruct (Ht q Hq) as (Hrq & Hoq & Hcq).
      assert (Hnq : ~ in_group p k q).
      { apply (Hdis h q Hrh Hhh Hg). unfold in_group. lia. }
      rewrite Vout_o, Vout_r by assumption.
      split; [exact (proj2 (Vin q) Hrq) | tauto].
  - intros k1 p1 H1 Hn1. apply Von in H1.
    assert (Hn1' : ~ in_range s p1)
      by (intros H; apply Hn1; exact (proj2 (Vin p1) H)).
    destruct (wf_external _ _ _ Hwf k1 p1 H1 Hn1') as [He1 He2].
    split; [assumption|]. intros q Hq.
    destruct (He2 q Hq) as [Hv Hn]. split; [assumption|].
    unfold addr_in_range in *. now rewrite Vs, Ve.
  - intros k1 p1 H1 q Hq. apply Von in H1. rewrite Vmem.
    exact (wf_zero _ _ _ Hwf k1 p1 H1 q Hq).
Qed.

Lemma hyp_split_page_wf (s : state) (p : Z) :
  pool_wf s -> in_range s p -> is_head s p -> 1 <= page_refcount s p ->
  pool_wf (hyp_split_page s p).
Proof.
  intros Hwf Hrp Hhp Href.
  destruct (wf_max_order _ _ _ Hwf) as [Hmax Hfit].
  destruct (wf_groups _ _ _ Hwf p Hrp Hhp) as (Ho & Ha & Ht).
  apply split_wf_gen; try assumption; [lia | |].
  - intros q k1 Hq H1.
    destruct (wf_heads _ _ _ Hwf k1 q H1) as [Hoq Hcq].
    destruct (Z.eq_dec q p) as [-> | Hne]; [lia|].
    destruct (Ht q) as (_ & Hno & _); [unfold in_group in Hq; lia|].
    destruct H1 as [H1 _]. unfold HYP_NO_ORDER in Hno. lia.
  - intros h q Hrh Hhh Hnh Hqh Hqp.
    apply Hnh.
    rewrite (heads_disjoint _ s h p q Hwf Hrh Hhh Hrp Hhp Hqh Hqp).
    apply in_group_head. lia.
Qed.


(** *** A run of puts *)

Lemma fold_left_map_arg {A B C : Type} (f : A -> C -> A) (g : B -> C)
      (l : list B) (a : A) :
  fold_left (fun x i => f x (g i)) l a = fold_left f (map g l) a.
Proof. revert a. induction l as [| i l IH]; intros a; simpl; auto. Qed.

Lemma zrange_shift (p lo : Z) (n : nat) :
  map (fun i => p + i) (zrange lo n) = zrange (p + lo) n.
Proof.
  unfold zrange. rewrite map_map. apply map_ext. intros i. lia.
Qed.

Lemma NoDup_zrange (lo : Z) (n : nat) : NoDup (zrange lo n).
Proof.
  unfold zrange. apply Injective_map_NoDup.
  - intros i j H. lia.
  - apply seq_NoDup.
Qed.

Lemma put_fold_none (l : list Z) :
  fold_left (fun r q => s <- r ;; __hyp_put_page s q) l None = None.
Proof. induction l as [| q l IH]; simpl; auto. Qed.

Lemma put_fold_wf :
  0 <= PAGE_SHIFT ->
  forall (l : list Z) (s : state),
    pool_wf s -> NoDup l ->
    (forall q, In q l ->
               in_range s q /\ is_head s q /\ page_refcount s q = 1) ->
    exists s',
      fold_left (fun r q => s <- r ;; __hyp_put_page s q) l (Some s)
      = Some s' /\
      pool_wf s' /\
      max_order s' = max_order s /\
      range_start s' = range_start s /\
      range_end s' = range_end s /\
      (forall q, In q l -> page_refcount s' q = 0) /\
      (forall q, ~ In q l -> page_refcount s' q = page_refcount s q) /\
      (forall q, ~ In q l -> page_refcount s q <> 0 ->
                 page_order s' q = page_order s q) /\
      (forall q, free_covered s q \/ In q l -> free_covered s' q).
Proof.
  intros HPS. induction l as [| a l IH]; intros s Hwf Hnd Hl.
  - exists s. simpl. split; [reflexivity|]. split; [assumption|].
    do 3 (split; [reflexivity|]).
    split; [intros q []|]. split; [reflexivity|]. split; [reflexivity|].
    intros q [H | []]. exact H.
  - inversion Hnd as [| ? ? Hnotin Hnd']; subst.
    destruct (Hl a (or_introl eq_refl)) as (Hra & Hha & Hca).
    assert (Hput : may_put s a).
    { split; [apply Hra|]. split; [lia|]. left. now split. }
    destruct (put_page_wf s a HPS Hwf Hput)
      as (s1 & Hp1 & Hwf1 & Hm1 & Hs1 & He1 & Hr1 & Ho1 & Hcov1).
    specialize (Hcov1 Hca).
    assert (Hl1 : forall q, In q l ->
                    in_range s1 q /\ is_head s1 q /\ page_refcount s1 q = 1).
    { intros q Hq. destruct (Hl q (or_intror Hq)) as (Hrq & Hhq & Hcq).
      assert (Hne : q <> a) by (intros ->; contradiction).
      split; [apply (in_range_frame s s1); assumption|]. split.
      - unfold is_head. rewrite Ho1; [assumption | assumption | lia].
      - rewrite Hr1. now apply Z.eqb_neq in Hne as ->. }
    destruct (IH s1 Hwf1 Hnd' Hl1)
      as (s' & Hfold & Hwf' & Hm' & Hs' & He' & Hin' & Hout' & Hord' & Hcov').
    exists s'. cbn [fold_left bind]. rewrite Hp1.
    split; [exact Hfold|]. split; [exact Hwf'|].
    split; [congruence|]. split; [congruence|]. split; [congruence|].
    split.
    { intros q [<- | Hq]; [| now apply Hin'].
      rewrite Hout' by assumption. rewrite Hr1, Z.eqb_refl. lia. }
    split.
    { intros q Hq.
      rewrite Hout' by (intros H; apply Hq; now right).
      rewrite Hr1.
      destruct (Z.eqb_spec q a) as [-> | _]; [| reflexivity].
      exfalso. apply Hq. now left. }
    split.
    { intros q Hq Hc.
      assert (Hne : q <> a) by (intros ->; apply Hq; now left).
      rewrite Hord'.
      - now apply Ho1.
      - intros H; apply Hq; now right.
      - rewrite Hr1. now apply Z.eqb_neq in Hne as ->. }
    intros q [Hq | [<- | Hq]].
    + apply Hcov'. left. apply Hcov1. now left.
    + apply Hcov'. left. apply Hcov1. right.
      apply in_group_head.
      destruct (wf_groups _ _ _ Hwf a Hra Hha) as (Ho & _). lia.
    + apply Hcov'. now right.
Qed.


(** *** Initialisation *)

Lemma shl32_small (n : Z) :
  0 <= PAGE_SHIFT -> 0 <= n -> n * 2 ^ PAGE_SHIFT < 2 ^ 32 ->
  shl32 n PAGE_SHIFT = n * 2 ^ PAGE_SHIFT.
Proof.
  intros HPS Hn Hlt. unfold shl32, u32.
  destruct (Z.eq_dec n 0) as [-> | Hne].
  - now rewrite Z.shiftl_0_l.
  - assert (Hps : PAGE_SHIFT < 32).
    { apply (Z.pow_lt_mono_r_iff 2); [lia | lia |].
      pose proof (pow2_pos PAGE_SHIFT HPS). nia. }
    rewrite (Z.mod_small PAGE_SHIFT 32) by lia.
    rewrite Z.shiftl_mul_pow2 by lia.
    apply Z.mod_small. pose proof (pow2_pos PAGE_SHIFT HPS). nia.
Qed.

Lemma refcounted_fold_view (l : list Z) :
  forall s0 : state,
    let s' := fold_left hyp_set_page_refcounted l s0 in
    (forall q, In q l -> page_refcount s' q = 1) /\
    (forall q, ~ In q l -> page_refcount s' q = page_refcount s0 q) /\
    (forall q, page_order s' q = page_order s0 q) /\
    free_area s' = free_area s0 /\
    max_order s' = max_order s0 /\
    range_start s' = range_start s0 /\
    range_end s' = range_end s0 /\
    free_pages s' = free_pages s0 /\
    mem s' = mem s0.
Proof.
  induction l as [| a l IH]; intros s0; cbn [fold_left].
  - split; [intros q [] | repeat split; reflexivity].
  - set (s1 := hyp_set_page_refcounted s0 a).
    destruct (IH s1) as (Hin & Hout & Ho & Hfa & Hm & Hs & He & Hfp & Hmem).
    split; [| split; [| split; [| repeat split; assumption]]].
    + intros q Hq.
      destruct (in_dec Z.eq_dec q l) as [Hl | Hl]; [now apply Hin|].
      destruct Hq as [<- | Hq]; [| contradiction].
      rewrite (Hout a Hl). unfold s1, hyp_set_page_refcounted.
      now rewrite page_refcount_set_refcount, Z.eqb_refl.
    + intros q Hq. rewrite Hout by (intros H; apply Hq; now right).
      assert (Hne : q <> a) by (intros ->; apply Hq; now left).
      unfold s1, hyp_set_page_refcounted.
      rewrite page_refcount_set_refcount.
      now apply Z.eqb_neq in Hne as ->.
    + intros q. rewrite Ho. unfold s1, hyp_set_page_refcounted.
      apply page_order_set_refcount.
Qed.

Lemma in_range_interval (s : state) (pfn nr q : Z) :
  0 <= PAGE_SHIFT <= 64 ->
  range_start s = pfn * 2 ^ PAGE_SHIFT ->
  range_end s = (pfn + nr) * 2 ^ PAGE_SHIFT ->
  (in_range s q <-> valid_pfn q /\ pfn <= q < pfn + nr).
Proof.
  intros HPS Hs He. unfold in_range, addr_in_range.
  pose proof (pow2_pos PAGE_SHIFT ltac:(lia)) as Hpos.
  split.
  - intros [Hv H]. rewrite phys_of_valid, Hs, He in H by assumption.
    split; [assumption | nia].
  - intros [Hv H]. split; [assumption|].
    rewrite phys_of_valid, Hs, He by assumption. nia.
Qed.

Lemma hyp_pool_init_wf (s : state) (pfn nr_pages reserved_pages : Z) :
  0 <= PAGE_SHIFT ->
  0 <= MAX_ORDER <= 30 ->
  PAGE_SHIFT + MAX_ORDER < 64 ->
  0 <= pfn ->
  0 <= reserved_pages <= nr_pages ->
  nr_pages * 2 ^ PAGE_SHIFT < 2 ^ 32 ->
  pfn + nr_pages < 2 ^ (64 - PAGE_SHIFT) ->
  (forall q, pfn <= q < pfn + nr_pages -> page_order s q = 0) ->
  exists s',
    hyp_pool_init s pfn nr_pages reserved_pages = Some s' /\
    pool_wf s' /\
    range_start s' = pfn * 2 ^ PAGE_SHIFT /\
    range_end s' = (pfn + nr_pages) * 2 ^ PAGE_SHIFT /\
    (forall q, pfn + reserved_pages <= q < pfn + nr_pages ->
               free_covered s' q /\ page_refcount s' q = 0) /\
    (forall q, pfn <= q < pfn + reserved_pages ->
               page_refcount s' q = 1 /\ page_order s' q = 0).
Proof.
  intros HPS HMO Hfit Hpfn Hres Hnr32 Hnr64 Hzero.
  assert (HPS' : 0 <= PAGE_SHIFT <= 64) by lia.
  pose proof (pow2_pos PAGE_SHIFT HPS) as Hpos.
  assert (Hvpfn : valid_pfn pfn) by (unfold valid_pfn; lia).
  assert (Hphys : hyp_pfn_to_phys PAGE_SHIFT pfn = pfn * 2 ^ PAGE_SHIFT)
    by exact (phys_of_valid HPS' pfn Hvpfn).
  assert (Hpage : hyp_phys_to_page (hyp_pfn_to_phys PAGE_SHIFT pfn) = pfn)
    by exact (virt_to_page_to_virt HPS' pfn Hvpfn).
  unfold hyp_pool_init, __hyp_pool_init.
  rewrite Hpage, Hphys, shl32_small by lia.
  set (mo := Z.min MAX_ORDER (get_order PAGE_SHIFT (nr_pages * 2 ^ PAGE_SHIFT))).
  assert (Hmo : 0 <= mo <= MAX_ORDER).
  { unfold mo, get_order.
    pose proof (Z.log2_up_nonneg
                  ((nr_pages * 2 ^ PAGE_SHIFT + PAGE_SIZE - 1) / PAGE_SIZE)).
    lia. }
  assert (Hend : u64 (pfn * 2 ^ PAGE_SHIFT + nr_pages * 2 ^ PAGE_SHIFT)
                 = (pfn + nr_pages) * 2 ^ PAGE_SHIFT).
  { unfold u64. rewrite <- Z.mul_add_distr_r. apply Z.mod_small.
    split; [nia|].
    replace (2 ^ 64) with (2 ^ (64 - PAGE_SHIFT) * 2 ^ PAGE_SHIFT)
      by (rewrite <- Z.pow_add_r by lia; f_equal; lia).
    apply Z.mul_lt_mono_pos_r; lia. }
  rewrite Hend. cbn [vmemmap free_area free_pages mem].
  match goal with
  | |- context [fold_left _ (zrange 0 (Z.to_nat nr_pages)) ?x] =>
      set (sb := x)
  end.
  rewrite (fold_left_map_arg hyp_set_page_refcounted (fun i => pfn + i)).
  rewrite (fold_left_map_arg (fun r q => s <- r ;; __hyp_put_page s q)
                             (fun i => pfn + i)).
  rewrite !zrange_shift. rewrite Z.add_0_r.
  destruct (refcounted_fold_view (zrange pfn (Z.to_nat nr_pages)) sb)
    as (Cin & Cout & Co & Cfa & Cm & Cs & Ce & Cfp & Cmem).
  set (sc := fold_left hyp_set_page_refcounted
                       (zrange pfn (Z.to_nat nr_pages)) sb) in *.
  assert (Hrange : forall q, in_range sc q <->
                             valid_pfn q /\ pfn <= q < pfn + nr_pages).
  { intros q. apply in_range_interval; [lia | |].
    - rewrite Cs. reflexivity.
    - rewrite Ce. reflexivity. }
  assert (Hnofree : forall k q, ~ on_free_area sc k q).
  { intros k q [Hk Hin]. rewrite Cm in Hk. rewrite Cfa in Hin.
    cbn in Hk, Hin.
    destruct (Z.leb_spec 0 k); [| lia].
    destruct (Z.leb_spec k mo); [| lia]. exact Hin. }
  assert (Hwfc : pool_wf sc).
  { constructor.
    - rewrite Cm. cbn. lia.
    - intros k q H. destruct (Hnofree k q H).
    - intros k q H. destruct (Hnofree k q H).
    - intros q Hrq _ Hcq _. apply Hrange in Hrq as [_ Hrq].
      rewrite Cin in Hcq by (apply In_zrange; lia). discriminate.
    - intros k q H. destruct (Hnofree k q H).
    - intros h Hrh _. apply Hrange in Hrh as [_ Hrh].
      unfold group_ok. rewrite Co.
      change (page_order sb h) with (page_order s h).
      rewrite (Hzero h Hrh), Cm. cbn.
      split; [lia|]. split; [apply aligned_0|]. intros q Hq. lia.
    - intros k q H. destruct (Hnofree k q H).
    - intros k q H. destruct (Hnofree k q H). }
  destruct (put_fold_wf HPS
              (zrange (pfn + reserved_pages)
                      (Z.to_nat (nr_pages - reserved_pages)))
              sc Hwfc (NoDup_zrange _ _))
    as (s' & Hfold & Hwf' & Hm' & Hs' & He' & Hin' & Hout' & Hord' & Hcov').
  { intros q Hq. apply In_zrange in Hq.
    split; [apply Hrange; split; [unfold valid_pfn |]; lia|]. split.
    - unfold is_head. rewrite Co.
      change (page_order sb q) with (page_order s q).
      rewrite Hzero by lia. unfold HYP_NO_ORDER. lia.
    - apply Cin, In_zrange. lia. }
  exists s'. split; [exact Hfold|]. split; [exact Hwf'|].
  split; [rewrite Hs', Cs; reflexivity|].
  split; [rewrite He', Ce; reflexivity|].
  split.
  - intros q Hq.
    assert (In q (zrange (pfn + reserved_pages)
                         (Z.to_nat (nr_pages - reserved_pages))))
      by (apply In_zrange; lia).
    split; [apply Hcov'; now right | now apply Hin'].
  - intros q Hq.
    assert (Hn : ~ In q (zrange (pfn + reserved_pages)
                                (Z.to_nat (nr_pages - reserved_pages))))
      by (rewrite In_zrange; lia).
    assert (Hc : page_refcount sc q = 1) by (apply Cin, In_zrange; lia).
    split.
    + now rewrite Hout'.
    + rewrite Hord' by (assumption || lia). rewrite Co.
      change (page_order sb q) with (page_order s q). apply Hzero. lia.
Qed.


(** ** Reachable states *)

Local Abbreviation reachable := (reachable PAGE_SHIFT MAX_ORDER).
Local Abbreviation init_ok := (init_ok PAGE_SHIFT).

Lemma free_coveredb_spec (s : state) (q : Z) :
  free_coveredb s q = true <-> free_covered s q.
Proof.
  unfold free_coveredb, free_covered, on_free_area, in_group.
  rewrite existsb_exists. split.
  - intros (k & Hk & H). apply In_zrange in Hk.
    apply existsb_exists in H as (p & Hp & Hq).
    exists k, p. split; [split; [lia | assumption] | lia].
  - intros (k & p & [Hk Hp] & Hq). exists k. split; [apply In_zrange; lia|].
    apply existsb_exists. exists p. split; [assumption | lia].
Qed.

Lemma hyp_pool_init_empty_wf (s : state) (nr_pages : Z) :
  0 <= MAX_ORDER <= 30 ->
  PAGE_SHIFT + MAX_ORDER < 64 ->
  exists s',
    hyp_pool_init_empty s nr_pages = Some s' /\ pool_wf s' /\
    range_start s' = 2 ^ 64 - 1 /\ range_end s' = 0.
Proof.
  intros HMO Hfit. unfold hyp_pool_init_empty, __hyp_pool_init.
  set (mo := Z.min MAX_ORDER (get_order PAGE_SHIFT (shl32 nr_pages PAGE_SHIFT))).
  assert (Hmo : 0 <= mo <= MAX_ORDER).
  { unfold mo, get_order.
    pose proof (Z.log2_up_nonneg
                  ((shl32 nr_pages PAGE_SHIFT + PAGE_SIZE - 1) / PAGE_SIZE)).
    lia. }
  eexists. split; [reflexivity|].
  split; [| split; reflexivity].
  assert (Hnofree : forall k q, ~ on_free_area
    (mkState (vmemmap s)
       (fun i => if (0 <=? i) && (i <=? mo) then [] else free_area s i)
       (free_pages s) (u64 (-1)) 0 mo (mem s)) k q).
  { intros k q [Hk Hin]. cbn in Hk, Hin.
    destruct (Z.leb_spec 0 k); [| lia].
    destruct (Z.leb_spec k mo); [| lia]. exact Hin. }
  assert (Hnorange : forall q, ~ in_range
    (mkState (vmemmap s)
       (fun i => if (0 <=? i) && (i <=? mo) then [] else free_area s i)
       (free_pages s) (u64 (-1)) 0 mo (mem s)) q).
  { intros q [_ [H1 H2]]. cbn in H1, H2.
    change (u64 (-1)) with 18446744073709551615 in H1. lia. }
  constructor.
  - cbn. lia.
  - intros k q H. destruct (Hnofree k q H).
  - intros k q H. destruct (Hnofree k q H).
  - intros q H. destruct (Hnorange q H).
  - intros k q H. destruct (Hnofree k q H).
  - intros q H. destruct (Hnorange q H).
  - intros k q H. destruct (Hnofree k q H).
  - intros k q H. destruct (Hnofree k q H).
Qed.

Lemma write_wf (s : state) (q : Z) (body : page_body) :
  pool_wf s -> ~ free_covered s q ->
  pool_wf (set_mem s (upd (mem s) q body)).
Proof.
  intros [H1 H2 H3 H4 H5 H6 H7 H8] Hq. constructor; try assumption.
  intros k p Hon x Hx. cbn. unfold upd.
  destruct (Z.eqb_spec x q) as [-> | _].
  - exfalso. apply Hq. now exists k, p.
  - exact (H8 k p Hon x Hx).
Qed.

Lemma reachable_wf :
  0 <= PAGE_SHIFT ->
  0 <= MAX_ORDER <= 30 ->
  PAGE_SHIFT + MAX_ORDER < 64 ->
  forall s, reachable s -> pool_wf s.
Proof.
  intros HPS HMO Hfit s Hreach.
  induction Hreach as
      [s pfn nr rs s' (H1 & H2 & H3 & H4 & H5) Hinit
      | s nr s' Hinit
      | s want r s' _ IH Hw Hal
      | s p s' _ IH Hput Hp
      | s p _ IH Hv Hr
      | s p _ IH Hrp Hhp Hr
      | s q body _ IH Hq].
  - destruct (hyp_pool_init_wf s pfn nr rs HPS HMO Hfit H1 H2 H3 H4 H5)
      as (s2 & Hi & Hwf & _).
    congruence.
  - destruct (hyp_pool_init_empty_wf s nr HMO Hfit) as (s2 & Hi & Hwf & _).
    congruence.
  - destruct (alloc_pages_wf s want HPS IH Hw) as (r2 & s2 & Ha & Hwf & _).
    congruence.
  - destruct (hyp_put_page_wf s p ltac:(lia) IH Hput) as (s2 & Hp2 & Hwf & _).
    congruence.
  - apply hyp_get_page_wf; (assumption || lia).
  - now apply hyp_split_page_wf.
  - apply write_wf; [assumption|].
    intros H. apply free_coveredb_spec in H. congruence.
Qed.


(** ** The claims on the invariants and on zeroing *)




(** ** The claim on the attach *)

Lemma attach_page_run (s : state) (p : Z) (r : state) :
  0 <= PAGE_SHIFT ->
  addr_in_range s (hyp_page_to_phys p) ->
  0 <= page_order s p -> PAGE_SHIFT + page_order s p < 64 ->
  __hyp_attach_page s p = Some r ->
  exists s0 s1 p1 k1 s2,
    attach_started s p s0 /\
    coalesce_run s0 p (page_order s p) s1 p1 k1 /\
    order_set s1 p1 k1 s2 /\
    linked_at_tail s2 p1 k1 r.
Proof.
  intros HPS [Hlo Hhi] Hk Hfit Hrun.
  unfold __hyp_attach_page in Hrun.
  change (range_start (memset_pages PAGE_SHIFT s p _)) with (range_start s)
    in Hrun.
  change (range_end (memset_pages PAGE_SHIFT s p _)) with (range_end s)
    in Hrun.
  destruct (Z.ltb_spec (hyp_page_to_phys p) (range_start s)) as [? | _];
    [lia|].
  destruct (Z.leb_spec (range_end s) (hyp_page_to_phys p)) as [? | _];
    [lia|].
  cbn [orb] in Hrun.
  set (s0 := set_order
               (memset_pages PAGE_SHIFT s p (shl64 PAGE_SIZE (page_order s p)))
               p HYP_NO_ORDER) in *.
  destruct (attach_loop _ s0 p (page_order s p))
    as [[[s1 p1] k1]|] eqn:Eloop; [| discriminate].
  simpl in Hrun. unfold attach_insert in Hrun.
  exists s0, s1, p1, k1, (set_order s1 p1 k1).
  split; [| split; [| split]].
  - assert (Vm : forall q, mem s0 q
                           = if (p <=? q) && (q <? p + 2 ^ page_order s p)
                             then zero_body else mem s q).
    { intros q. unfold s0.
      cbn [mem set_order set_vmemmap memset_pages set_mem].
      now rewrite memset_len by lia. }
    split; [| split; [| split; [| split; [| split]]]].
    + intros q Hq. rewrite Vm.
      destruct (Z.leb_spec p q); [| lia].
      destruct (Z.ltb_spec q (p + 2 ^ page_order s p)); [reflexivity | lia].
    + intros q Hq. rewrite Vm.
      destruct (Z.leb_spec p q); [| reflexivity].
      destruct (Z.ltb_spec q (p + 2 ^ page_order s p)); [lia | reflexivity].
    + unfold s0. cbn. now rewrite upd_same.
    + intros q Hq. unfold s0. cbn. now rewrite upd_other.
    + reflexivity.
    + repeat split.
  - eapply attach_loop_coalesce_run; [| exact Eloop].
    change (max_order s0) with (max_order s). lia.
  - apply set_order_order_set.
  - now apply page_add_linked.
Qed.

(** C4: an in-range head [p] held by one reference is released into the
    pool of a state the pool reaches.  The attach succeeds, and it is the
    coalescing loop of the specification: the bodies of the group are
    cleared and [p] is marked [HYP_NO_ORDER]; then, while
    [order < max_order], the buddy is taken only if it is in range, has
    order [order] and no reference; it leaves its free list (every list is
    as before without it), is marked [HYP_NO_ORDER], the lower of the two
    pages becomes the head and [order] is incremented; the final head gets
    that order and goes to the tail of [free_area[order]].  [hyp_put_page]
    returns the state so reached, with its counter advanced. *)
Theorem attach_page_coalesces (s : state) (p : Z) :
  0 <= PAGE_SHIFT <= 64 ->
  0 <= MAX_ORDER <= 30 ->
  PAGE_SHIFT + MAX_ORDER < 64 ->
  reachable s ->
  in_range s p -> is_head s p -> page_refcount s p = 1 ->
  exists s0 s1 p1 k1 s2 r,
    __hyp_attach_page (set_refcount s p 0) p = Some r /\
    attach_started (set_refcount s p 0) p s0 /\
    coalesce_run s0 p (page_order s p) s1 p1 k1 /\
    order_set s1 p1 k1 s2 /\
    linked_at_tail s2 p1 k1 r /\
    hyp_put_page s (hyp_page_to_virt p)
    = Some (set_free_pages r
              (u64 (free_pages r + int_shl1 (page_order r p)))).
Proof.
  intros HPS HMO Hfit Hreach Hrp Hhp Hcp.
  pose proof (reachable_wf ltac:(lia) HMO Hfit s Hreach) as Hwf.
  destruct (wf_max_order _ _ _ Hwf) as [Hmax Hfit'].
  destruct (wf_groups _ _ _ Hwf p Hrp Hhp) as (Hk & _ & _).
  set (sd := set_refcount s p 0).
  assert (Vo : forall q, page_order sd q = page_order s q)
    by (intros q; apply page_order_set_refcount).
  destruct (ref_dec_to_zero_wf s p Hwf Hcp) as [Hwfd Hnl].
  fold sd in Hwfd, Hnl.
  destruct (attach_in_range_wf sd p ltac:(lia) Hwfd) as (r & Hatt & _).
  { apply (in_range_frame s sd); [reflexivity | reflexivity | exact Hrp]. }
  { unfold is_head. now rewrite Vo. }
  { unfold sd. now rewrite page_refcount_set_refcount, Z.eqb_refl. }
  { exact Hnl. }
  destruct (attach_page_run sd p r ltac:(lia)) as
      (s0 & s1 & p1 & k1 & s2 & Hst & Hrun & Hset & Hlink).
  { apply Hrp. }
  { rewrite Vo. lia. }
  { rewrite Vo. lia. }
  { exact Hatt. }
  rewrite Vo in Hrun.
  exists s0, s1, p1, k1, s2, r.
  do 5 (split; [assumption|]).
  unfold hyp_put_page.
  rewrite virt_to_page_to_virt by (assumption || apply Hrp).
  destruct (Z.ltb_spec (max_order s) (page_order s p)) as [? | _]; [lia|].
  unfold __hyp_put_page, hyp_page_ref_dec_and_test.
  rewrite Hcp. cbn [Z.leb Z.compare bind]. change (1 - 1) with 0.
  fold sd.
  assert (Ez : (page_refcount sd p =? 0) = true).
  { unfold sd. rewrite page_refcount_set_refcount, Z.eqb_refl. reflexivity. }
  rewrite Ez, Hatt. reflexivity.
Qed.


(** ** Split, then put of every page *)

(** The head whose group covers an in-range frame is itself in range, and
    aligned on its order. *)
Lemma cover_head_in_range (s : state) (i h q : Z) :
  pool_wf s ->
  in_range s q -> on_free_area s i h -> in_group h i q ->
  in_range s h /\ aligned h i /\ page_order s h = i.
Proof.
  intros Hwf Hrq Hon Hq.
  destruct (wf_max_order _ _ _ Hwf) as [Hmax _].
  destruct (wf_heads _ _ _ Hwf i h Hon) as [Ho _].
  assert (Hi : 0 <= i <= max_order s) by apply Hon.
  assert (Hrh : in_range s h).
  { destruct (in_range_dec s h) as [H | H]; [exact H | exfalso].
    destruct (wf_external _ _ _ Hwf i h Hon H) as [_ He].
    destruct (He q Hq) as [_ Hn]. apply Hn, Hrq. }
  split; [exact Hrh|]. split; [| exact Ho].
  assert (Hh : is_head s h) by (apply is_head_order; lia).
  destruct (wf_groups _ _ _ Hwf h Hrh Hh) as (_ & Ha & _).
  now rewrite Ho in Ha.
Qed.

(** Two aligned groups of the same order that share a frame are the same
    group. *)
Lemma aligned_group_head (a h j x : Z) :
  0 <= j -> aligned a j -> aligned h j ->
  in_group a j x -> in_group h j x -> h = a.
Proof.
  intros Hj Ha Hh Hxa Hxh.
  destruct (groups_nested a j h j x ltac:(lia) Ha Hh Hxa Hxh) as [H1 _].
  destruct (groups_nested h j a j x ltac:(lia) Hh Ha Hxh Hxa) as [H2 _].
  lia.
Qed.

(** In a well-formed pool an aligned block of in-range frames that are all
    free lies in one free group: two free halves would be free buddies. *)
Lemma covered_block_has_one_head (s : state) :
  0 <= PAGE_SHIFT ->
  pool_wf s ->
  forall j, 0 <= j ->
  forall a, j <= max_order s -> aligned a j ->
    (forall q, in_group a j q -> in_range s q /\ free_covered s q) ->
    exists h i,
      j <= i /\ on_free_area s i h /\ in_range s h /\ aligned h i /\
      forall q, in_group a j q -> in_group h i q.
Proof.
  intros HPS Hwf.
  destruct (wf_max_order _ _ _ Hwf) as [Hmax Hfit].
  intros j Hj. pattern j. apply natlike_ind; [| | exact Hj]; clear j Hj.
  - intros a _ _ Hall.
    destruct (Hall a (in_group_head a 0 ltac:(lia)))
      as (Hra & i & h & Hon & Hq).
    destruct (cover_head_in_range s i h a Hwf Hra Hon Hq) as (Hrh & Hah & _).
    exists h, i. split; [apply Hon|]. do 3 (split; [assumption|]).
    intros q Hq'. unfold in_group in Hq'. simpl in Hq'.
    replace q with a by lia. exact Hq.
  - intros j Hj IH a Hle Ha Hall.
    replace (Z.succ j) with (j + 1) in * by lia.
    pose proof (pow2_pos j Hj) as Hpos.
    pose proof (pow2_succ j Hj) as Hsucc.
    assert (Ha0 : 0 <= a).
    { destruct (Hall a (in_group_head a (j + 1) ltac:(lia))) as [[Hv _] _].
      apply Hv. }
    assert (Haj : aligned a j) by (apply (aligned_le a j (j + 1)); [lia|exact Ha]).
    assert (Hbj : aligned (a + 2 ^ j) j).
    { apply aligned_mult in Haj as [n Hn]; [| lia].
      apply aligned_mult; [lia|]. exists (n + 1). lia. }
    destruct (IH a ltac:(lia) Haj) as (h1 & i1 & Hi1 & Hon1 & Hr1 & Hal1 & Hc1).
    { intros q Hq. apply Hall. unfold in_group in *. lia. }
    destruct (IH (a + 2 ^ j) ltac:(lia) Hbj)
      as (h2 & i2 & Hi2 & Hon2 & Hr2 & Hal2 & Hc2).
    { intros q Hq. apply Hall. unfold in_group in *. lia. }
    assert (Hin1 : in_group h1 i1 a)
      by (apply Hc1, in_group_head; lia).
    assert (Hin2 : in_group h2 i2 (a + 2 ^ j))
      by (apply Hc2, in_group_head; lia).
    destruct (Z.le_gt_cases (j + 1) i1) as [Hbig1 | Hsmall1].
    { exists h1, i1. split; [lia|]. do 3 (split; [assumption|]).
      destruct (groups_nested a (j + 1) h1 i1 a ltac:(lia) Ha Hal1
                              (in_group_head a (j + 1) ltac:(lia)) Hin1)
        as [H1 H2].
      intros q Hq. unfold in_group in *. lia. }
    destruct (Z.le_gt_cases (j + 1) i2) as [Hbig2 | Hsmall2].
    { exists h2, i2. split; [lia|]. do 3 (split; [assumption|]).
      assert (Hmid : in_group a (j + 1) (a + 2 ^ j))
        by (unfold in_group; lia).
      destruct (groups_nested a (j + 1) h2 i2 (a + 2 ^ j) ltac:(lia) Ha Hal2
                              Hmid Hin2) as [H1 H2].
      intros q Hq. unfold in_group in *. lia. }
    exfalso.
    assert (i1 = j) by lia. assert (i2 = j) by lia. subst i1 i2.
    assert (Eh1 : h1 = a).
    { apply (aligned_group_head a h1 j a); try assumption.
      apply in_group_head; lia. }
    assert (Eh2 : h2 = a + 2 ^ j).
    { apply (aligned_group_head (a + 2 ^ j) h2 j (a + 2 ^ j));
        try assumption.
      apply in_group_head; lia. }
    subst h1 h2.
    destruct Hr1 as [Hva Hra]. destruct Hr2 as [Hvb Hrb].
    destruct (buddy_addr_pfn a j HPS Hva Hj ltac:(lia))
      as (_ & Haddr & Hpage).
    rewrite (buddy_pfn_up a j Hj Ha0 Ha) in Haddr, Hpage.
    apply (wf_buddies _ _ _ Hwf j a Hon1 ltac:(lia) Hra).
    + rewrite Haddr. exact Hrb.
    + rewrite Hpage. apply Hon2.
Qed.

(** [put_pages] on in-range heads held by a single reference each. *)
Lemma put_pages_wf :
  0 <= PAGE_SHIFT <= 64 ->
  forall (l : list Z) (s : state),
    pool_wf s -> NoDup l ->
    (forall q, In q l ->
               in_range s q /\ is_head s q /\ page_refcount s q = 1) ->
    exists s',
      put_pages PAGE_SHIFT s l = Some s' /\
      pool_wf s' /\
      max_order s' = max_order s /\
      range_start s' = range_start s /\
      range_end s' = range_end s /\
      (forall q, In q l -> page_refcount s' q = 0) /\
      (forall q, ~ In q l -> page_refcount s' q = page_refcount s q) /\
      (forall q, ~ In q l -> page_refcount s q <> 0 ->
                 page_order s' q = page_order s q) /\
      (forall q, free_covered s q \/ In q l -> free_covered s' q).
Proof.
  intros HPS. induction l as [| a l IH]; intros s Hwf Hnd Hl.
  - exists s. rewrite put_pages_nil. split; [reflexivity|].
    split; [assumption|]. do 3 (split; [reflexivity|]).
    split; [intros q []|]. split; [reflexivity|]. split; [reflexivity|].
    intros q [H | []]. exact H.
  - inversion Hnd as [| ? ? Hnotin Hnd']; subst.
    destruct (Hl a (or_introl eq_refl)) as (Hra & Hha & Hca).
    assert (Hput : may_put s a).
    { split; [apply Hra|]. split; [lia|]. left. now split. }
    destruct (hyp_put_page_wf s a HPS Hwf Hput)
      as (s1 & Hp1 & Hwf1 & Hm1 & Hs1 & He1 & Hr1 & Ho1 & Hcov1).
    specialize (Hcov1 Hca).
    assert (Hl1 : forall q, In q l ->
                    in_range s1 q /\ is_head s1 q /\ page_refcount s1 q = 1).
    { intros q Hq. destruct (Hl q (or_intror Hq)) as (Hrq & Hhq & Hcq).
      assert (Hne : q <> a) by (intros ->; contradiction).
      split; [apply (in_range_frame s s1); assumption|]. split.
      - unfold is_head. rewrite Ho1; [assumption | assumption | lia].
      - rewrite Hr1. now apply Z.eqb_neq in Hne as ->. }
    destruct (IH s1 Hwf1 Hnd' Hl1)
      as (s' & Hfold & Hwf' & Hm' & Hs' & He' & Hin' & Hout' & Hord' & Hcov').
    exists s'. rewrite put_pages_cons, Hp1. cbn [bind].
    split; [exact Hfold|]. split; [exact Hwf'|].
    split; [congruence|]. split; [congruence|]. split; [congruence|].
    split.
    { intros q [<- | Hq]; [| now apply Hin'].
      rewrite Hout' by assumption. rewrite Hr1, Z.eqb_refl. lia. }
    split.
    { intros q Hq.
      rewrite Hout' by (intros H; apply Hq; now right).
      rewrite Hr1.
      destruct (Z.eqb_spec q a) as [-> | _]; [| reflexivity].
      exfalso. apply Hq. now left. }
    split.
    { intros q Hq Hc.
      assert (Hne : q <> a) by (intros ->; apply Hq; now left).
      rewrite Hord'.
      - now apply Ho1.
      - intros H; apply Hq; now right.
      - rewrite Hr1. now apply Z.eqb_neq in Hne as ->. }
    intros q [Hq | [<- | Hq]].
    + apply Hcov'. left. apply Hcov1. now left.
    + apply Hcov'. left. apply Hcov1. right.
      apply in_group_head.
      destruct (wf_groups _ _ _ Hwf a Hra Hha) as (Ho & _). lia.
    + apply Hcov'. now right.
Qed.

(** A list without repetition that holds the frames of a group has as many
    entries as the group has frames. *)
Lemma group_list_length (p k : Z) (l : list Z) :
  0 <= k -> NoDup l -> (forall q, In q l <-> in_group p k q) ->
  Z.of_nat (length l) = 2 ^ k.
Proof.
  intros Hk Hnd Hl. pose proof (pow2_pos k Hk) as Hpos.
  set (r := zrange p (Z.to_nat (2 ^ k))).
  assert (Hr : forall q, In q r <-> in_group p k q).
  { intros q. unfold r, in_group. rewrite In_zrange. lia. }
  assert (Hlen : length r = Z.to_nat (2 ^ k))
    by (unfold r, zrange; now rewrite length_map, length_seq).
  assert (H1 : (length l <= length r)%nat).
  { apply NoDup_incl_length; [exact Hnd|]. intros q Hq. now apply Hr, Hl. }
  assert (H2 : (length r <= length l)%nat).
  { apply NoDup_incl_length; [apply NoDup_zrange|].
    intros q Hq. now apply Hl, Hr. }
  lia.
Qed.


(** X17: an in-range head [p] of order [k] held by one reference is
    split, and then every frame of its group is put, in any order.  The
    split makes each of the [2 ^ k] frames an order-0 head with one
    reference and leaves the free area and every other entry alone.  The
    puts all succeed and leave a well-formed pool in which the frames of
    the group carry no reference and lie together in one free group of
    order [j >= k], the only head among them being the head of that group;
    the reference counts of the other frames are as before the split. *)
Theorem split_then_put_rebuilds_group (s : state) (p : Z) (l : list Z) :
  0 <= PAGE_SHIFT <= 64 ->
  pool_wf s ->
  in_range s p -> is_head s p -> page_refcount s p = 1 ->
  NoDup l -> (forall q, In q l <-> in_group p (page_order s p) q) ->
  let k := page_order s p in
  let s1 := hyp_split_page s p in
  Z.of_nat (length l) = 2 ^ k /\
  (forall q, In q l -> page_order s1 q = 0 /\ page_refcount s1 q = 1) /\
  (forall q, ~ In q l -> vmemmap s1 q = vmemmap s q) /\
  free_area s1 = free_area s /\
  pool_wf s1 /\
  exists s2,
    put_pages PAGE_SHIFT s1 l = Some s2 /\
    pool_wf s2 /\
    (forall q, In q l -> page_refcount s2 q = 0) /\
    (forall q, ~ In q l -> page_refcount s2 q = page_refcount s q) /\
    exists h j,
      k <= j /\ on_free_area s2 j h /\ page_order s2 h = j /\
      aligned h j /\ (j = k -> h = p) /\
      (forall q, In q l -> in_group h j q) /\
      (forall q, In q l -> q <> h -> page_order s2 q = HYP_NO_ORDER).
Proof.
  intros HPS Hwf Hrp Hhp Hcp Hnd Hl k s1.
  destruct (wf_max_order _ _ _ Hwf) as [Hmax Hfit].
  destruct (wf_groups _ _ _ Hwf p Hrp Hhp) as (Hk & Hap & Htails).
  fold k in Hk, Hap, Htails, Hl.
  assert (Hk30 : 0 <= page_order s p <= 30) by (fold k; lia).
  destruct (hyp_split_page_view s p Hk30)
    as (Vo & Vr & Vrp & Vout & Vfa & Vm & Vs & Ve & Vfp & Vmem).
  fold s1 in Vo, Vr, Vrp, Vout, Vfa, Vm, Vs, Ve, Vfp, Vmem.
  fold k in Vo, Vr, Vout.
  assert (Hwf1 : pool_wf s1)
    by (apply hyp_split_page_wf; [assumption .. | lia]).
  assert (Hp0 : 0 <= p) by (destruct Hrp as [[H _] _]; exact H).
  assert (Hin1 : forall q, In q l ->
                   in_range s1 q /\ is_head s1 q /\ page_refcount s1 q = 1).
  { intros q Hq. apply Hl in Hq.
    assert (Hrq : in_range s q).
    { destruct (Z.eq_dec q p) as [-> | Hne]; [exact Hrp|].
      apply Htails. unfold in_group in Hq. lia. }
    split; [apply (in_range_frame s s1); assumption|]. split.
    - apply is_head_order. rewrite (Vo q Hq). lia.
    - destruct (Z.eq_dec q p) as [-> | Hne]; [congruence|].
      apply Vr. unfold in_group in Hq. lia. }
  split; [now apply (group_list_length p k l)|].
  split.
  { intros q Hq. split; [apply Vo, Hl, Hq | apply Hin1, Hq]. }
  split.
  { intros q Hq. apply Vout. intros H. apply Hq, Hl, H. }
  split; [exact Vfa|]. split; [exact Hwf1|].
  destruct (put_pages_wf HPS l s1 Hwf1 Hnd Hin1)
    as (s2 & Hput & Hwf2 & Hm2 & Hs2 & He2 & Hz2 & Hout2 & _ & Hcov2).
  exists s2. split; [exact Hput|]. split; [exact Hwf2|].
  split; [exact Hz2|].
  split.
  { intros q Hq. rewrite Hout2 by exact Hq.
    unfold page_refcount. rewrite Vout; [reflexivity|].
    intros H. apply Hq, Hl, H. }
  assert (Hall : forall q, in_group p k q ->
                           in_range s2 q /\ free_covered s2 q).
  { intros q Hq. apply Hl in Hq. split.
    - apply (in_range_frame s1 s2); [assumption | assumption|].
      apply Hin1, Hq.
    - apply Hcov2. now right. }
  destruct (covered_block_has_one_head s2 ltac:(lia) Hwf2 k ltac:(lia) p
                                       ltac:(lia) Hap Hall)
    as (h & j & Hj & Hon & Hrh & Hah & Hcov).
  destruct (wf_max_order _ _ _ Hwf2) as [Hmax2 _].
  destruct (wf_heads _ _ _ Hwf2 j h Hon) as [Hoh _].
  assert (Hjr : 0 <= j <= max_order s2) by apply Hon.
  exists h, j. split; [exact Hj|]. split; [exact Hon|].
  split; [exact Hoh|]. split; [exact Hah|]. split.
  { intros ->.
    apply (aligned_group_head p h k p); try assumption; try lia.
    - apply in_group_head; lia.
    - apply Hcov, in_group_head; lia. }
  split.
  { intros q Hq. apply Hcov, Hl, Hq. }
  intros q Hq Hne.
  assert (Hhh : is_head s2 h) by (apply is_head_order; lia).
  destruct (wf_groups _ _ _ Hwf2 h Hrh Hhh) as (_ & _ & Ht).
  rewrite Hoh in Ht.
  assert (Hg : in_group h j q) by (apply Hcov, Hl, Hq).
  apply Ht. unfold in_group in Hg. lia.
Qed.


(** ** Further properties of the operations *)

(** *** Buddy lookup *)

(** X1: the unchecked buddy lookup is symmetric.  For a page [p] of the
    range and an order [k] whose group size fits the address space, a buddy
    [b] found by [__find_buddy_nocheck] is the frame [p xor 2^k], it is not
    [p], it is in the range, and the lookup from [b] at the same order finds
    [p] again; when [p] is aligned on [2^k] the two are [2^k] frames apart
    and the lower one is aligned on [2^(k+1)]. *)
Theorem find_buddy_nocheck_symmetric (s : state) (p k b : Z) :
  0 <= PAGE_SHIFT ->
  valid_pfn p -> 0 <= k -> PAGE_SHIFT + k < 64 ->
  addr_in_range s (hyp_page_to_phys p) ->
  __find_buddy_nocheck s p k = Some b ->
  b = buddy_pfn p k /\ b <> p /\ valid_pfn b /\
  addr_in_range s (hyp_page_to_phys b) /\
  __find_buddy_nocheck s b k = Some p /\
  (aligned p k ->
   (b = p + 2 ^ k /\ aligned p (k + 1)) \/
   (b = p - 2 ^ k /\ aligned b (k + 1))).
Proof.
  intros HPS Hvp Hk Hfit Hrp Hb.
  apply nocheck_some in Hb as [Hin ->].
  destruct (buddy_addr_pfn p k HPS Hvp Hk Hfit) as (Hvb & Haddr & Hpage).
  rewrite Hpage. split; [reflexivity|].
  split; [apply buddy_pfn_neq; exact Hk|]. split; [exact Hvb|].
  split; [rewrite <- Haddr; exact Hin|]. split.
  - destruct (buddy_addr_pfn (buddy_pfn p k) k HPS Hvb Hk Hfit)
      as (_ & Haddr' & Hpage').
    rewrite buddy_pfn_invol in Haddr', Hpage'.
    apply nocheck_some. split; [rewrite Haddr'; exact Hrp | now rewrite Hpage'].
  - intros Ha. assert (Hp0 : 0 <= p) by (destruct Hvp; assumption).
    destruct (buddy_pfn_cases p k Hk Hp0 Ha) as [[E A] | [E A]];
      [left | right]; (split; [exact E | try exact A]).
    rewrite E. exact A.
Qed.


(** *** Free-list primitives *)

Lemma list_del_absent (p : Z) (l : list Z) :
  ~ In p l -> list_del p l = l.
Proof.
  intros H. unfold list_del. induction l as [| a l IH]; [reflexivity|].
  simpl. destruct (Z.eqb_spec a p) as [-> | Hne]; simpl.
  - exfalso. apply H. now left.
  - f_equal. apply IH. intros Hin. apply H. now right.
Qed.

Lemma list_del_tail (p : Z) (l : list Z) :
  ~ In p l -> list_del p (l ++ [p]) = l.
Proof.
  intros H. unfold list_del. rewrite filter_app. simpl.
  rewrite Z.eqb_refl. simpl. rewrite app_nil_r.
  now apply list_del_absent.
Qed.

(** X3: linking a page that is on no list at the tail of [free_area[k]] and
    unlinking it again gives back every free list as it was; the vmemmap,
    the counter and the other page bodies are untouched, and the list node
    in the body of the page is cleared. *)
Theorem page_add_then_remove (s : state) (p k : Z) :
  0 <= k <= max_order s ->
  (forall j, ~ In p (free_area s j)) ->
  exists s1 s2,
    page_add_to_list s p k = Some s1 /\
    free_area s1 k = free_area s k ++ [p] /\
    page_remove_from_list s1 p = Some s2 /\
    (forall j, free_area s2 j = free_area s j) /\
    vmemmap s2 = vmemmap s /\
    free_pages s2 = free_pages s /\
    max_order s2 = max_order s /\
    (forall q, q <> p -> mem s2 q = mem s q) /\
    mem s2 p = mkBody false (data_bytes (mem s p)).
Proof.
  intros Hk Hno.
  rewrite page_add_to_list_ok by exact Hk.
  eexists. eexists. split; [reflexivity|].
  split; [cbn; now rewrite upd_same|].
  assert (Hon : on_free_list
                  (set_node_bytes
                     (set_free_area s (upd (free_area s) k (free_area s k ++ [p])))
                     p true) p = true).
  { apply on_free_list_iff. exists k. split; [exact Hk|].
    cbn. rewrite upd_same. apply in_or_app. right. now left. }
  unfold page_remove_from_list. rewrite Hon.
  split; [reflexivity|]. split.
  { intros j. cbn. unfold upd.
    destruct (Z.eqb_spec j k) as [-> | _].
    - apply list_del_tail, Hno.
    - apply list_del_absent, Hno. }
  do 3 (split; [reflexivity|]). split.
  - intros q Hq. cbn. unfold upd.
    now apply Z.eqb_neq in Hq as ->.
  - cbn. unfold upd. rewrite !Z.eqb_refl. reflexivity.
Qed.

(** *** Reference counts *)

(** X4: [hyp_put_page] on a page that has other holders only drops one
    reference: nothing is attached, and the free lists, the counter, the
    orders and the page bodies are as before. *)
Theorem put_of_shared_page_only_decrements (s : state) (p : Z) :
  0 <= PAGE_SHIFT <= 64 ->
  valid_pfn p ->
  page_order s p <= max_order s ->
  2 <= page_refcount s p ->
  hyp_put_page s (hyp_page_to_virt p)
  = Some (set_refcount s p (page_refcount s p - 1)).
Proof.
  intros HPS Hvp Ho Hc. unfold hyp_put_page.
  rewrite virt_to_page_to_virt by assumption.
  destruct (Z.ltb_spec (max_order s) (page_order s p)) as [? | _]; [lia|].
  unfold __hyp_put_page, hyp_page_ref_dec_and_test.
  destruct (Z.leb_spec (page_refcount s p) 0) as [? | _]; [lia|].
  cbn [bind]. rewrite page_refcount_set_refcount, Z.eqb_refl.
  destruct (Z.eqb_spec (page_refcount s p - 1) 0) as [? | _]; [lia|].
  reflexivity.
Qed.

(** X5: [hyp_get_page] followed by [hyp_put_page] on a page that is held
    gives back the state before the two calls, entry by entry. *)
Theorem get_then_put_restores (s : state) (p : Z) :
  0 <= PAGE_SHIFT <= 64 ->
  valid_pfn p ->
  page_order s p <= max_order s ->
  1 <= page_refcount s p ->
  exists s',
    hyp_put_page (hyp_get_page s (hyp_page_to_virt p)) (hyp_page_to_virt p)
    = Some s' /\
    (forall q, vmemmap s' q = vmemmap s q) /\
    free_area s' = free_area s /\
    free_pages s' = free_pages s /\
    range_start s' = range_start s /\
    range_end s' = range_end s /\
    max_order s' = max_order s /\
    mem s' = mem s.
Proof.
  intros HPS Hvp Ho Hc.
  unfold hyp_get_page, hyp_page_ref_inc.
  rewrite virt_to_page_to_virt by assumption.
  set (s1 := set_refcount s p (page_refcount s p + 1)).
  assert (Ho1 : page_order s1 p = page_order s p)
    by apply page_order_set_refcount.
  assert (Hc1 : page_refcount s1 p = page_refcount s p + 1)
    by (unfold s1; now rewrite page_refcount_set_refcount, Z.eqb_refl).
  unfold hyp_put_page. rewrite virt_to_page_to_virt by assumption.
  rewrite Ho1. change (max_order s1) with (max_order s).
  destruct (Z.ltb_spec (max_order s) (page_order s p)) as [? | _]; [lia|].
  unfold __hyp_put_page, hyp_page_ref_dec_and_test. rewrite Hc1.
  destruct (Z.leb_spec (page_refcount s p + 1) 0) as [? | _]; [lia|].
  cbn [bind]. rewrite page_refcount_set_refcount, Z.eqb_refl.
  destruct (Z.eqb_spec (page_refcount s p + 1 - 1) 0) as [? | _]; [lia|].
  eexists. split; [reflexivity|].
  split; [| repeat split].
  intros q. cbn. unfold upd.
  destruct (Z.eqb_spec q p) as [-> | _]; [| reflexivity].
  rewrite Ho1. unfold page_refcount, page_order.
  destruct (vmemmap s p) as [r o]. cbn. f_equal. lia.
Qed.


(** *** Misuse of [hyp_put_page] *)

(** A frame of the range that lies in a free group has no reference; it is
    the listed head of the group or carries no order. *)
Lemma free_frame_unreferenced (s : state) (q : Z) :
  pool_wf s -> in_range s q -> free_covered s q ->
  page_refcount s q = 0 /\
  (page_order s q = HYP_NO_ORDER \/
   on_free_area s (page_order s q) q).
Proof.
  intros Hwf Hrq (k & h & Hon & Hq).
  destruct (wf_max_order _ _ _ Hwf) as [Hmax _].
  destruct (cover_head_in_range s k h q Hwf Hrq Hon Hq) as (Hrh & _ & Ho).
  destruct (wf_heads _ _ _ Hwf k h Hon) as [_ Hc].
  destruct (Z.eq_dec q h) as [-> | Hne].
  - split; [exact Hc|]. right. now rewrite Ho.
  - assert (Hk : 0 <= k <= max_order s) by apply Hon.
    assert (Hh : is_head s h) by (apply is_head_order; lia).
    destruct (wf_groups _ _ _ Hwf h Hrh Hh) as (_ & _ & Ht).
    rewrite Ho in Ht. destruct (Ht q) as (_ & Hoq & Hcq).
    { unfold in_group in Hq. lia. }
    split; [exact Hcq | now left].
Qed.

(** X6: in a state the pool reaches, [hyp_put_page] on a frame of a group
    of the range other than its head is a fatal stop: such a frame carries
    [HYP_NO_ORDER], which is above [max_order]. *)
Theorem put_of_tail_page_stops (s : state) (h q : Z) :
  0 <= PAGE_SHIFT ->
  0 <= MAX_ORDER <= 30 ->
  PAGE_SHIFT + MAX_ORDER < 64 ->
  reachable s ->
  in_range s h -> is_head s h ->
  h < q < h + 2 ^ page_order s h ->
  hyp_put_page s (hyp_page_to_virt q) = None.
Proof.
  intros HPS HMO Hfit Hreach Hrh Hhh Hq.
  pose proof (reachable_wf HPS HMO Hfit s Hreach) as Hwf.
  destruct (wf_max_order _ _ _ Hwf) as [Hmax _].
  destruct (wf_groups _ _ _ Hwf h Hrh Hhh) as (_ & _ & Ht).
  destruct (Ht q Hq) as ([Hvq _] & Hoq & _).
  unfold hyp_put_page.
  rewrite virt_to_page_to_virt by (assumption || lia).
  rewrite Hoq. unfold HYP_NO_ORDER.
  destruct (Z.ltb_spec (max_order s) 255) as [_ | ?]; [reflexivity | lia].
Qed.

(** X7: in a state the pool reaches, [hyp_put_page] on a page that is free
    is a fatal stop, never a second insertion: an entry of a free list has
    no reference to drop, and every other frame of a free group of the
    range carries [HYP_NO_ORDER]. *)
Theorem put_of_free_page_stops (s : state) :
  0 <= PAGE_SHIFT ->
  0 <= MAX_ORDER <= 30 ->
  PAGE_SHIFT + MAX_ORDER < 64 ->
  reachable s ->
  (forall k p, on_free_area s k p ->
               hyp_put_page s (hyp_page_to_virt p) = None) /\
  (forall q, in_range s q -> free_covered s q ->
             hyp_put_page s (hyp_page_to_virt q) = None).
Proof.
  intros HPS HMO Hfit Hreach.
  pose proof (reachable_wf HPS HMO Hfit s Hreach) as Hwf.
  destruct (wf_max_order _ _ _ Hwf) as [Hmax _].
  assert (Hhead : forall k p, on_free_area s k p ->
                    hyp_put_page s (hyp_page_to_virt p) = None).
  { intros k p Hon.
    destruct (wf_heads _ _ _ Hwf k p Hon) as [Ho Hc].
    pose proof (wf_valid _ _ _ Hwf k p Hon) as Hvp.
    unfold hyp_put_page.
    rewrite virt_to_page_to_virt by (assumption || lia).
    destruct (Z.ltb_spec (max_order s) (page_order s p)); [reflexivity|].
    unfold __hyp_put_page, hyp_page_ref_dec_and_test. rewrite Hc.
    reflexivity. }
  split; [exact Hhead|].
  intros q Hrq Hq.
  destruct (free_frame_unreferenced s q Hwf Hrq Hq) as [_ [Ho | Hon]].
  - unfold hyp_put_page.
    rewrite virt_to_page_to_virt by (apply Hrq || lia).
    rewrite Ho. unfold HYP_NO_ORDER.
    destruct (Z.ltb_spec (max_order s) 255) as [_ | ?]; [reflexivity | lia].
  - exact (Hhead _ q Hon).
Qed.

(** *** The groups of the range *)

(** X8: in every state the pool reaches, a head of the range has an order
    of at most [max_order], is aligned on the size of its group, and the
    other frames of the group are in the range, carry [HYP_NO_ORDER] and
    have no reference; the groups of two heads of the range share no
    frame; a head of the range without a reference is linked on the free
    list of its order; and a frame of the range that lies in a free group
    has no reference. *)
Theorem reachable_groups_are_well_formed (s : state) :
  0 <= PAGE_SHIFT ->
  0 <= MAX_ORDER <= 30 ->
  PAGE_SHIFT + MAX_ORDER < 64 ->
  reachable s ->
  (forall h, in_range s h -> is_head s h ->
     0 <= page_order s h <= max_order s /\
     aligned h (page_order s h) /\
     forall q, h < q < h + 2 ^ page_order s h ->
               in_range s q /\ page_order s q = HYP_NO_ORDER /\
               page_refcount s q = 0) /\
  (forall h1 h2 q,
     in_range s h1 -> is_head s h1 -> in_range s h2 -> is_head s h2 ->
     in_group h1 (page_order s h1) q -> in_group h2 (page_order s h2) q ->
     h1 = h2) /\
  (forall p, in_range s p -> is_head s p -> page_refcount s p = 0 ->
             In p (free_area s (page_order s p))) /\
  (forall q, in_range s q -> free_covered s q -> page_refcount s q = 0).
Proof.
  intros HPS HMO Hfit Hreach.
  pose proof (reachable_wf HPS HMO Hfit s Hreach) as Hwf.
  split; [exact (wf_groups _ _ _ Hwf)|]. split.
  { intros h1 h2 q. apply (heads_disjoint _ s h1 h2 q Hwf). }
  split.
  { intros p Hr Hh Hc. apply (wf_listed _ _ _ Hwf p Hr Hh Hc). tauto. }
  intros q Hr Hq. apply (free_frame_unreferenced s q Hwf Hr Hq).
Qed.


(** *** What an allocation takes and what it leaves *)

Lemma split_step_cover (s : state) (p : Z) :
  0 <= PAGE_SHIFT ->
  extracting s p -> in_range s p ->
  0 < page_order s p ->
  let k := page_order s p - 1 in
  let b := buddy_pfn p k in
  let s1 := set_order s p (page_order s p - 1) in
  let s2 := set_order s1 b (page_order s1 p) in
  forall s3,
    page_add_to_list s2 b (page_order s2 b) = Some s3 ->
    forall q, free_covered s q \/ in_group p (page_order s p) q ->
              free_covered s3 q \/ in_group p k q.
Proof.
  intros HPS (Hwf & Hvp & Hcp & Hop & Hnl & _ & Hzp) Hrp Hpos k b s1 s2
         s3 Hadd q Hq.
  destruct (wf_max_order _ _ _ Hwf) as [Hmax Hfit].
  assert (Hhp : is_head s p) by (apply is_head_order; lia).
  destruct (wf_groups _ _ _ Hwf p Hrp Hhp) as (_ & Hap & _).
  assert (Hk : 0 <= k <= max_order s) by (unfold k; lia).
  assert (Hkk : page_order s p = k + 1) by (unfold k; lia).
  assert (Hp0 : 0 <= p) by (destruct Hvp; assumption).
  rewrite Hkk in Hap, Hq.
  assert (Hb : b = p + 2 ^ k) by (apply buddy_pfn_up; [lia | lia | exact Hap]).
  pose proof (pow2_pos k ltac:(lia)) as Hpk.
  pose proof (pow2_succ k ltac:(lia)) as Hsk.
  assert (Hpb : p <> b) by lia.
  destruct (split_step_view s p b Hpb ltac:(fold k; lia))
    as (s3' & Hadd' & _ & _ & Vfa & _ & Vmax & _).
  fold k in Vfa. fold s1 s2 in Hadd'.
  rewrite Hadd in Hadd'. injection Hadd' as <-.
  destruct Hq as [(k1 & p1 & [Hk1 Hin] & Hg) | Hg].
  - left. exists k1, p1. split; [| exact Hg].
    split; [now rewrite Vmax|]. rewrite Vfa.
    destruct (Z.eqb_spec k1 k) as [-> | _]; [| exact Hin].
    apply in_or_app. now left.
  - destruct (Z.lt_ge_cases q b) as [Hlt | Hge].
    + right. unfold in_group in *. lia.
    + left. exists k, b. split.
      * split; [rewrite Vmax; lia|]. rewrite Vfa, Z.eqb_refl.
        apply in_or_app. right. now left.
      * unfold in_group in *. lia.
Qed.

Lemma extract_loop_cover :
  0 <= PAGE_SHIFT ->
  forall (fuel : nat) (s : state) (p want : Z) (s' : state),
    0 <= want ->
    extracting s p ->
    extract_loop fuel s p want = Some s' ->
    (forall q, free_covered s q \/ in_group p (page_order s p) q ->
               free_covered s' q \/ in_group p (page_order s' p) q) /\
    (in_range s p -> want <= page_order s p ->
     page_order s p - want <= Z.of_nat fuel ->
     page_order s' p = want).
Proof.
  intros HPS. induction fuel as [| fuel IH]; intros s p want s' Hw Hex Hrun.
  - simpl in Hrun. injection Hrun as <-. split; [tauto | lia].
  - simpl in Hrun.
    destruct (Z.ltb_spec want (page_order s p)) as [Hlt | Hge].
    + destruct (in_range_dec s p) as [Hrp | Hnr].
      * destruct (split_step_wf s p HPS Hex Hrp ltac:(lia))
          as (Hno & s3 & Hadd & Hex3 & Hr3 & Ho3 & _).
        rewrite Hno, Hadd in Hrun. cbn [bind] in Hrun.
        destruct (IH s3 p want s' Hw Hex3 Hrun) as [Hcov Hord].
        split.
        -- intros q Hq. apply Hcov. rewrite Ho3.
           exact (split_step_cover s p HPS Hex Hrp ltac:(lia) s3 Hadd q Hq).
        -- intros _ _ Hfuel. apply Hord; [exact Hr3 | lia | lia].
      * destruct Hex as (Hwf & Hvp & Hcp & Hop & Hnl & Hcase & Hzp).
        destruct Hcase as [Hrp | Hext]; [contradiction|].
        destruct (wf_max_order _ _ _ Hwf) as [Hmax Hfit].
        rewrite (external_nocheck_none s p (page_order s p) HPS Hvp Hext)
          in Hrun by lia.
        injection Hrun as <-. split; [tauto | intros; contradiction].
    + injection Hrun as <-. split; [tauto | lia].
Qed.

(** What a successful allocation leaves of the free frames: each of them is
    still free or belongs to the block handed out; a block of the range has
    exactly the order asked for. *)
Lemma alloc_cover (s : state) (want v : Z) (s' : state) :
  0 <= PAGE_SHIFT <= 64 ->
  pool_wf s -> 0 <= want ->
  hyp_alloc_pages s want = Some (Some v, s') ->
  let p := hyp_virt_to_page v in
  v = hyp_page_to_virt p /\ valid_pfn p /\
  (forall q, free_covered s q ->
             free_covered s' q \/ in_group p (page_order s' p) q) /\
  (in_range s p -> page_order s' p = want) /\
  free_pages s' = u64 (free_pages s - int_shl1 (page_order s' p)).
Proof.
  intros HPS Hwf Hw Hal.
  destruct (wf_max_order _ _ _ Hwf) as [Hmax Hfit].
  unfold hyp_alloc_pages in Hal.
  destruct (alloc_scan_stops s ltac:(lia)
              (Z.to_nat (max_order s + 1 - want)) want Hw ltac:(lia))
    as [Hlo Hne].
  set (i := alloc_scan (Z.to_nat (max_order s + 1 - want)) s want) in *.
  destruct (Z.ltb_spec (max_order s) i) as [Hgt | Hle]; [discriminate|].
  specialize (Hne Hle).
  destruct (free_area s i) as [| p l] eqn:Efa; [congruence|].
  assert (Hon : on_free_area s i p).
  { split; [lia|]. rewrite Efa. now left. }
  destruct (unlink_free_head_wf s i p Hwf Hon)
    as (s0 & Hrem & Hex0 & Hfr0 & Ho0 & Hvm0 & Hfa0).
  destruct (extract_loop_wf ltac:(lia) (Z.to_nat (page_order s0 p - want))
              s0 p want Hw Hex0)
    as (s1 & Hloop & Hex1 & Hfr1 & Hle1 & Hge1).
  destruct (extract_loop_cover ltac:(lia) _ s0 p want s1 Hw Hex0 Hloop)
    as [Hcov Hord].
  unfold __hyp_extract_page in Hal. rewrite Hrem in Hal. cbn [bind] in Hal.
  rewrite Hloop in Hal. cbn [bind] in Hal.
  injection Hal as Hv Hs'.
  destruct Hex1 as (_ & Hvp & _).
  assert (Hp : hyp_virt_to_page v = p).
  { rewrite <- Hv. apply virt_to_page_to_virt; assumption. }
  cbv zeta. rewrite Hp.
  assert (Vo : page_order s' p = page_order s1 p).
  { rewrite <- Hs'. apply page_order_set_refcount. }
  destruct (wf_heads _ _ _ Hwf i p Hon) as [Hop Hcp].
  destruct Hfr1 as (_ & _ & _ & Hfp1 & _).
  destruct Hfr0 as (Hm0 & Hs0 & He0 & Hfp0 & _).
  split; [now symmetry|]. split; [exact Hvp|].
  split; [| split].
  - intros q (k1 & p1 & Hon1 & Hg).
    assert (Hq0 : free_covered s0 q \/ in_group p (page_order s0 p) q).
    { destruct (Z.eq_dec p1 p) as [-> | Hne1].
      - right. destruct (wf_heads _ _ _ Hwf k1 p Hon1) as [Hk1 _].
        rewrite Ho0. replace i with k1 by congruence. exact Hg.
      - left. exists k1, p1. split; [| exact Hg].
        destruct Hon1 as [Hk1 Hin]. split; [now rewrite Hm0|].
        rewrite Hfa0. apply In_list_del. now split. }
    destruct (Hcov q Hq0) as [Hc | Hc].
    + left. revert Hc. rewrite <- Hs'. now apply free_covered_lists.
    + right. now rewrite Vo.
  - intros Hrp. rewrite Vo. apply Hord.
    + apply (in_range_frame s s0); assumption.
    + rewrite Ho0. lia.
    + lia.
  - rewrite Vo, <- Hs'. cbn [free_pages set_free_pages].
    change (free_pages (hyp_set_page_refcounted s1 p)) with (free_pages s1).
    unfold hyp_set_page_refcounted.
    rewrite page_order_set_refcount. now rewrite Hfp1, Hfp0.
Qed.


(** X9: in a state the pool reaches, a successful [hyp_alloc_pages] that
    hands out a page [p] of the range hands out exactly the order asked
    for: [p] is aligned on [2^want], it was a free head without a
    reference and now has one, [free_pages] goes down by [2^want] (in
    64-bit arithmetic), and the [2^want] frames of the block are in
    the range, were free before the call and are in no free group after
    it, the frames behind the head carrying neither an order nor a
    reference.  The block shares no frame with a group that was held
    before the call. *)
Theorem alloc_returns_exact_block (s : state) (want v : Z) (s' : state) :
  0 <= PAGE_SHIFT <= 64 ->
  0 <= MAX_ORDER <= 30 ->
  PAGE_SHIFT + MAX_ORDER < 64 ->
  reachable s -> 0 <= want ->
  hyp_alloc_pages s want = Some (Some v, s') ->
  let p := hyp_virt_to_page v in
  in_range s p ->
  v = hyp_page_to_virt p /\
  want <= max_order s /\
  page_order s' p = want /\ aligned p want /\
  page_refcount s p = 0 /\ page_refcount s' p = 1 /\
  free_pages s' = u64 (free_pages s - 2 ^ want) /\
  (forall q, in_group p want q ->
     in_range s q /\ free_covered s q /\ ~ free_covered s' q /\
     (q <> p -> page_order s' q = HYP_NO_ORDER /\ page_refcount s' q = 0)) /\
  (forall h q, in_range s h -> is_head s h -> 1 <= page_refcount s h ->
               in_group h (page_order s h) q -> ~ in_group p want q).
Proof.
  intros HPS HMO Hfit Hreach Hw Hal p Hrp.
  pose proof (reachable_wf ltac:(lia) HMO Hfit s Hreach) as Hwf.
  destruct (wf_max_order _ _ _ Hwf) as [Hmax _].
  destruct (alloc_cover s want v s' HPS Hwf Hw Hal)
    as (Hv & Hvp & _ & Hord & Hfp).
  fold p in Hv, Hvp, Hord, Hfp. specialize (Hord Hrp).
  destruct (alloc_pages_wf s want ltac:(lia) Hwf Hw)
    as (r2 & s2 & Hal2 & Hwf' & Hpost).
  rewrite Hal in Hal2. injection Hal2 as <- <-.
  destruct Hpost as (p' & Hv' & Hvp' & Hon & Hc' & Hle & Hm & Hs & He
                     & Hr & Ho & _).
  assert (Ep : p' = p).
  { rewrite <- (virt_to_page_to_virt HPS p' Hvp'), <- Hv'. reflexivity. }
  subst p'.
  destruct (wf_heads _ _ _ Hwf _ p Hon) as [_ Hc].
  assert (Hk : 0 <= page_order s p <= max_order s) by apply Hon.
  assert (Vin : forall q, in_range s' q <-> in_range s q)
    by (intros q; now apply in_range_frame).
  assert (Hrp' : in_range s' p) by now apply Vin.
  assert (Hhp' : is_head s' p) by (apply is_head_order; lia).
  destruct (wf_groups _ _ _ Hwf' p Hrp' Hhp') as (_ & Ha & Ht).
  rewrite Hord in Ha, Ht.
  pose proof (pow2_pos want Hw) as Hpos.
  assert (Hpow : 2 ^ want <= 2 ^ page_order s p)
    by (apply Z.pow_le_mono_r; lia).
  split; [exact Hv|]. split; [lia|]. split; [exact Hord|].
  split; [exact Ha|]. split; [exact Hc|]. split; [exact Hc'|].
  split; [rewrite Hfp, Hord, int_shl1_small by lia; reflexivity|]. split.
  - intros q Hq.
    assert (Hrq' : in_range s' q).
    { destruct (Z.eq_dec q p) as [-> | Hne]; [exact Hrp'|].
      apply Ht. unfold in_group in Hq. lia. }
    split; [now apply Vin|]. split.
    { exists (page_order s p), p. split; [exact Hon|].
      unfold in_group in *. lia. }
    split.
    { intros (k & h & Honh & Hg).
      destruct (cover_head_in_range s' k h q Hwf' Hrq' Honh Hg)
        as (Hrh & _ & Hoh).
      destruct (wf_heads _ _ _ Hwf' k h Honh) as [_ Hch].
      assert (Hkh : 0 <= k <= max_order s') by apply Honh.
      assert (Hhh : is_head s' h) by (apply is_head_order; lia).
      assert (E : h = p).
      { apply (heads_disjoint _ s' h p q Hwf' Hrh Hhh Hrp' Hhp').
        - now rewrite Hoh.
        - now rewrite Hord. }
      subst h. lia. }
    intros Hne. destruct (Ht q) as (_ & H1 & H2);
      [unfold in_group in Hq; lia | now split].
  - intros h q Hrh Hhh Hch Hgh Hgp.
    assert (Hne : h <> p) by (intros ->; lia).
    assert (Hoh : page_order s' h = page_order s h) by (apply Ho; lia).
    assert (E : h = p).
    { apply (heads_disjoint _ s' h p q Hwf').
      - now apply Vin.
      - unfold is_head. now rewrite Hoh.
      - exact Hrp'.
      - exact Hhp'.
      - now rewrite Hoh.
      - now rewrite Hord. }
    contradiction.
Qed.

(** X12: in a state the pool reaches, when [hyp_alloc_pages] hands out a
    page of the range and the page is put back at once, the put succeeds,
    every frame that was in a free group before the allocation is in a free
    group again, and every reference count is as before. *)
Theorem alloc_then_put_keeps_free_frames
        (s : state) (want v : Z) (s' : state) :
  0 <= PAGE_SHIFT <= 64 ->
  0 <= MAX_ORDER <= 30 ->
  PAGE_SHIFT + MAX_ORDER < 64 ->
  reachable s -> 0 <= want ->
  hyp_alloc_pages s want = Some (Some v, s') ->
  in_range s (hyp_virt_to_page v) ->
  exists s'',
    hyp_put_page s' v = Some s'' /\
    reachable s'' /\
    (forall q, free_covered s q -> free_covered s'' q) /\
    (forall q, page_refcount s'' q = page_refcount s q).
Proof.
  intros HPS HMO Hfit Hreach Hw Hal Hrp.
  pose proof (reachable_wf ltac:(lia) HMO Hfit s Hreach) as Hwf.
  destruct (wf_max_order _ _ _ Hwf) as [Hmax _].
  destruct (alloc_cover s want v s' HPS Hwf Hw Hal)
    as (Hv & Hvp & Hcov & _ & _).
  set (p := hyp_virt_to_page v) in *.
  destruct (alloc_pages_wf s want ltac:(lia) Hwf Hw)
    as (r2 & s2 & Hal2 & Hwf' & Hpost).
  rewrite Hal in Hal2. injection Hal2 as <- <-.
  destruct Hpost as (p' & Hv' & Hvp' & Hon & Hc' & Hle & Hm & Hs & He
                     & Hr & Ho & _).
  assert (Ep : p' = p).
  { rewrite <- (virt_to_page_to_virt HPS p' Hvp'), <- Hv'. reflexivity. }
  subst p'.
  destruct (wf_heads _ _ _ Hwf _ p Hon) as [_ Hc].
  assert (Hk : 0 <= page_order s p <= max_order s) by apply Hon.
  assert (Hreach' : reachable s')
    by exact (reach_alloc _ _ s want (Some v) s' Hreach Hw Hal).
  assert (Hput : may_put s' p).
  { split; [exact Hvp|]. split; [lia|]. left. split.
    - apply (in_range_frame s s'); assumption.
    - apply is_head_order. lia. }
  destruct (hyp_put_page_wf s' p HPS Hwf' Hput)
    as (s'' & Hp & _ & _ & _ & _ & Hr'' & _ & Hcov'').
  exists s''. rewrite Hv. split; [exact Hp|]. split.
  { exact (reach_put _ _ s' p s'' Hreach' Hput Hp). }
  split.
  - intros q Hq. apply (Hcov'' Hc'). exact (Hcov q Hq).
  - intros q. rewrite Hr''.
    destruct (Z.eqb_spec q p) as [-> | Hne]; [lia | now apply Hr].
Qed.


(** *** Initialisation *)

Lemma attach_loop_params :
  forall (fuel : nat) (s : state) (p k : Z) (s' : state) (p' k' : Z),
    attach_loop fuel s p k = Some (s', p', k') ->
    max_order s' = max_order s /\
    range_start s' = range_start s /\ range_end s' = range_end s.
Proof.
  induction fuel as [| fuel IH]; intros s p k s' p' k' H; simpl in H.
  - injection H as <- _ _. repeat split.
  - destruct (k + 1 <=? max_order s).
    + destruct (__find_buddy_avail s p k) as [b|].
      * destruct (page_remove_from_list s b) as [s1|] eqn:E;
          [| discriminate].
        cbn [bind] in H.
        apply page_remove_from_list_inv in E as [_ ->].
        apply IH in H as (H1 & H2 & H3). cbn in H1, H2, H3. now repeat split.
      * injection H as <- _ _. repeat split.
    + injection H as <- _ _. repeat split.
Qed.

Lemma attach_insert_params (s : state) (p k : Z) (s' : state) :
  attach_insert s p k = Some s' ->
  max_order s' = max_order s /\
  range_start s' = range_start s /\ range_end s' = range_end s.
Proof.
  unfold attach_insert. intros H.
  apply page_add_to_list_inv in H as [_ ->]. repeat split.
Qed.

Lemma attach_page_params (s : state) (p : Z) (s' : state) :
  __hyp_attach_page s p = Some s' ->
  max_order s' = max_order s /\
  range_start s' = range_start s /\ range_end s' = range_end s.
Proof.
  unfold __hyp_attach_page. cbv zeta.
  match goal with |- (if ?c then _ else _) = _ -> _ => destruct c end.
  - intros H. apply attach_insert_params in H. exact H.
  - match goal with
    | |- bind ?x _ = _ -> _ => destruct x as [[[s1 p1] k1]|] eqn:EL
    end; [| discriminate].
    cbn [bind]. intros H.
    apply attach_insert_params in H as (H1 & H2 & H3).
    apply attach_loop_params in EL as (L1 & L2 & L3).
    cbn in L1, L2, L3. rewrite H1, H2, H3. now repeat split.
Qed.

Lemma put_page_params (s : state) (p : Z) (s' : state) :
  __hyp_put_page s p = Some s' ->
  max_order s' = max_order s /\
  range_start s' = range_start s /\ range_end s' = range_end s.
Proof.
  unfold __hyp_put_page, hyp_page_ref_dec_and_test.
  destruct (page_refcount s p <=? 0); [discriminate|]. cbn [bind].
  set (s0 := set_refcount s p (page_refcount s p - 1)).
  destruct (page_refcount s0 p =? 0).
  - destruct (__hyp_attach_page s0 p) as [s1|] eqn:E; [| discriminate].
    cbn [bind]. intros H. injection H as <-.
    apply attach_page_params in E. exact E.
  - intros H. injection H as <-. repeat split.
Qed.

Lemma put_fold_params {A : Type} (g : A -> Z) (l : list A) :
  forall s s' : state,
    fold_left (fun r i => s <- r ;; __hyp_put_page s (g i)) l (Some s)
    = Some s' ->
    max_order s' = max_order s /\
    range_start s' = range_start s /\ range_end s' = range_end s.
Proof.
  induction l as [| a l IH]; intros s s' H; simpl in H.
  - injection H as <-. repeat split.
  - destruct (__hyp_put_page s (g a)) as [s1|] eqn:E.
    + apply IH in H as (H1 & H2 & H3).
      apply put_page_params in E as (E1 & E2 & E3).
      rewrite H1, H2, H3. now repeat split.
    + exfalso. revert H. clear. induction l as [| b l IH]; simpl.
      * discriminate.
      * exact IH.
Qed.

Lemma refcounted_fold_params {A : Type} (g : A -> Z) (l : list A) :
  forall s0 : state,
    max_order (fold_left (fun s i => hyp_set_page_refcounted s (g i)) l s0)
    = max_order s0.
Proof.
  induction l as [| a l IH]; intros s0; simpl; [reflexivity|].
  now rewrite IH.
Qed.

(** X10: [hyp_pool_init] over a range that fits the address space, on
    vmemmap entries of order 0, succeeds.  The pool it leaves has
    [max_order] the lesser of [MAX_ORDER] and the order of [nr_pages] pages,
    its range is the [nr_pages] frames from [pfn], the reserved frames are
    held with one reference and are in no free group, and every other
    frame of the range is in a free group and has no reference. *)
Theorem pool_init_frees_unreserved_pages
        (s : state) (pfn nr_pages reserved_pages : Z) :
  0 <= PAGE_SHIFT ->
  0 <= MAX_ORDER <= 30 ->
  PAGE_SHIFT + MAX_ORDER < 64 ->
  init_ok s pfn nr_pages reserved_pages ->
  exists s',
    hyp_pool_init s pfn nr_pages reserved_pages = Some s' /\
    reachable s' /\
    max_order s'
    = Z.min MAX_ORDER (get_order PAGE_SHIFT (shl32 nr_pages PAGE_SHIFT)) /\
    range_start s' = pfn * 2 ^ PAGE_SHIFT /\
    range_end s' = (pfn + nr_pages) * 2 ^ PAGE_SHIFT /\
    forall q, pfn <= q < pfn + nr_pages ->
      in_range s' q /\
      (free_covered s' q <-> pfn + reserved_pages <= q) /\
      page_refcount s' q = (if q <? pfn + reserved_pages then 1 else 0).
Proof.
  intros HPS HMO Hfit Hok.
  pose proof Hok as (H1 & H2 & H3 & H4 & H5).
  destruct (hyp_pool_init_wf s pfn nr_pages reserved_pages
                             HPS HMO Hfit H1 H2 H3 H4 H5)
    as (s' & Hinit & Hwf & Hs & He & Hfree & Hres).
  exists s'. split; [exact Hinit|]. split.
  { exact (reach_init _ _ s pfn nr_pages reserved_pages s' Hok Hinit). }
  split.
  { pose proof Hinit as Hi. unfold hyp_pool_init, __hyp_pool_init in Hi.
    apply put_fold_params in Hi as (Hm & _ & _).
    rewrite Hm, refcounted_fold_params. reflexivity. }
  split; [exact Hs|]. split; [exact He|].
  intros q Hq.
  assert (Hrq : in_range s' q).
  { apply (in_range_interval s' pfn nr_pages q); [lia | assumption ..|].
    split; [unfold valid_pfn; lia | exact Hq]. }
  split; [exact Hrq|].
  destruct (Z.ltb_spec q (pfn + reserved_pages)) as [Hlt | Hge].
  - destruct (Hres q ltac:(lia)) as [Hc _]. split; [| exact Hc].
    split; [| lia].
    intros Hcov.
    destruct (free_frame_unreferenced s' q Hwf Hrq Hcov) as [Hz _]. lia.
  - destruct (Hfree q ltac:(lia)) as [Hcov Hc]. split; [| exact Hc].
    split; [lia | intros _; exact Hcov].
Qed.

(** X11: [hyp_pool_init_empty] leaves the vmemmap, the page bodies and the
    [free_pages] counter as they were, empties [free_area[0..max_order]]
    and sets a range that holds no address; on the pool it leaves,
    [hyp_alloc_pages] of any order returns NULL and changes nothing. *)
Theorem empty_pool_allocates_nothing (s : state) (nr_pages : Z) :
  0 <= MAX_ORDER <= 30 ->
  exists s',
    hyp_pool_init_empty s nr_pages = Some s' /\
    vmemmap s' = vmemmap s /\ mem s' = mem s /\
    free_pages s' = free_pages s /\
    0 <= max_order s' <= MAX_ORDER /\
    (forall a, ~ addr_in_range s' a) /\
    (forall k, 0 <= k <= max_order s' -> free_area s' k = []) /\
    (forall k, ~ 0 <= k <= max_order s' -> free_area s' k = free_area s k) /\
    (forall want, 0 <= want ->
                  hyp_alloc_pages s' want = Some (None, s')).
Proof.
  intros HMO. unfold hyp_pool_init_empty, __hyp_pool_init.
  set (mo := Z.min MAX_ORDER (get_order PAGE_SHIFT (shl32 nr_pages PAGE_SHIFT))).
  assert (Hmo : 0 <= mo <= MAX_ORDER).
  { unfold mo, get_order.
    pose proof (Z.log2_up_nonneg
                  ((shl32 nr_pages PAGE_SHIFT + PAGE_SIZE - 1) / PAGE_SIZE)).
    lia. }
  eexists. split; [reflexivity|]. cbn.
  do 3 (split; [reflexivity|]). split; [exact Hmo|].
  assert (Hempty : forall k, 0 <= k <= mo ->
            (if (0 <=? k) && (k <=? mo) then [] else free_area s k) = []).
  { intros k Hk.
    destruct (Z.leb_spec 0 k); [| lia].
    destruct (Z.leb_spec k mo); [| lia]. reflexivity. }
  split.
  { intros a [Ha1 Ha2]. cbn in Ha1, Ha2.
    change (u64 (-1)) with 18446744073709551615 in Ha1. lia. }
  split; [exact Hempty|]. split.
  { intros k Hk.
    destruct (Z.leb_spec 0 k); [| reflexivity].
    destruct (Z.leb_spec k mo); [lia | reflexivity]. }
  intros want Hw. apply alloc_null; [exact Hw | cbn; lia |].
  intros i Hi. cbn in Hi |- *. apply Hempty. lia.
Qed.


(** X13: in a state the pool reaches, [hyp_put_page] of the last reference
    on a head of the range succeeds and frees its whole group: the frames
    of the group end in one free group of at least the order of the head,
    with zeroed bodies but for the list node of the head of that free
    group, the only frame among them that still carries an order.  Frames
    that were free stay free, and no other reference count changes. *)
Theorem put_of_last_reference_frees_group (s : state) (p : Z) :
  0 <= PAGE_SHIFT <= 64 ->
  0 <= MAX_ORDER <= 30 ->
  PAGE_SHIFT + MAX_ORDER < 64 ->
  reachable s ->
  in_range s p -> is_head s p -> page_refcount s p = 1 ->
  exists s',
    hyp_put_page s (hyp_page_to_virt p) = Some s' /\
    reachable s' /\
    page_refcount s' p = 0 /\
    (forall q, q <> p -> page_refcount s' q = page_refcount s q) /\
    (forall q, free_covered s q -> free_covered s' q) /\
    exists h j,
      page_order s p <= j /\ on_free_area s' j h /\ aligned h j /\
      forall q, in_group p (page_order s p) q ->
        in_group h j q /\
        data_bytes (mem s' q) = false /\
        (q <> h -> node_bytes (mem s' q) = false /\
                   page_order s' q = HYP_NO_ORDER).
Proof.
  intros HPS HMO Hfit Hreach Hrp Hhp Hcp.
  pose proof (reachable_wf ltac:(lia) HMO Hfit s Hreach) as Hwf.
  destruct (wf_groups _ _ _ Hwf p Hrp Hhp) as (Hk & Hap & Htails).
  assert (Hput : may_put s p).
  { split; [apply Hrp|]. split; [lia|]. left. now split. }
  destruct (hyp_put_page_wf s p HPS Hwf Hput)
    as (s' & Hp & Hwf' & Hm & Hs & He & Hr & _ & Hcov).
  specialize (Hcov Hcp).
  exists s'. split; [exact Hp|]. split.
  { exact (reach_put _ _ s p s' Hreach Hput Hp). }
  split; [rewrite Hr, Z.eqb_refl; lia|]. split.
  { intros q Hne. rewrite Hr. now apply Z.eqb_neq in Hne as ->. }
  split.
  { intros q Hq. apply Hcov. now left. }
  assert (Hall : forall q, in_group p (page_order s p) q ->
                           in_range s' q /\ free_covered s' q).
  { intros q Hq. split.
    - apply (in_range_frame s s'); [assumption | assumption|].
      destruct (Z.eq_dec q p) as [-> | Hne]; [exact Hrp|].
      apply Htails. unfold in_group in Hq. lia.
    - apply Hcov. now right. }
  destruct (covered_block_has_one_head s' ltac:(lia) Hwf'
              (page_order s p) ltac:(lia) p ltac:(lia) Hap Hall)
    as (h & j & Hj & Hon & Hrh & Hah & Hin).
  destruct (wf_max_order _ _ _ Hwf') as [Hmax' _].
  destruct (wf_heads _ _ _ Hwf' j h Hon) as [Hoh _].
  assert (Hjr : 0 <= j <= max_order s') by apply Hon.
  assert (Hhh : is_head s' h) by (apply is_head_order; lia).
  destruct (wf_groups _ _ _ Hwf' h Hrh Hhh) as (_ & _ & Ht).
  rewrite Hoh in Ht.
  exists h, j. split; [exact Hj|]. split; [exact Hon|].
  split; [exact Hah|].
  intros q Hq. pose proof (Hin q Hq) as Hg.
  destruct (wf_zero _ _ _ Hwf' j h Hon q Hg) as [Hd Hn].
  split; [exact Hg|]. split; [exact Hd|].
  intros Hne. split; [now apply Hn|].
  apply Ht. unfold in_group in Hg. lia.
Qed.

(** X14: in a state the pool reaches, when [hyp_alloc_pages] takes a page
    [p] of the range from a free group of a higher order than asked for,
    the rest of that group goes back to the free lists as one group per
    order: for each order [j] from [want] up to the order the group had,
    the frame [p + 2^j] is a head of order [j] linked on [free_area[j]]. *)
Theorem alloc_gives_back_upper_halves
        (s : state) (want v : Z) (s' : state) :
  0 <= PAGE_SHIFT <= 64 ->
  0 <= MAX_ORDER <= 30 ->
  PAGE_SHIFT + MAX_ORDER < 64 ->
  reachable s -> 0 <= want ->
  hyp_alloc_pages s want = Some (Some v, s') ->
  let p := hyp_virt_to_page v in
  in_range s p ->
  forall j, want <= j < page_order s p ->
    In (p + 2 ^ j) (free_area s' j) /\
    page_order s' (p + 2 ^ j) = j /\
    page_refcount s' (p + 2 ^ j) = 0.
Proof.
  intros HPS HMO Hfit Hreach Hw Hal p Hrp j Hj.
  pose proof (reachable_wf ltac:(lia) HMO Hfit s Hreach) as Hwf.
  destruct (wf_max_order _ _ _ Hwf) as [Hmax _].
  destruct (alloc_cover s want v s' HPS Hwf Hw Hal)
    as (Hv & Hvp & Hcov & Hord & _).
  fold p in Hv, Hvp, Hcov, Hord. specialize (Hord Hrp).
  destruct (alloc_pages_wf s want ltac:(lia) Hwf Hw)
    as (r2 & s2 & Hal2 & Hwf' & Hpost).
  rewrite Hal in Hal2. injection Hal2 as <- <-.
  destruct Hpost as (p' & Hv' & Hvp' & Hon & Hc' & Hle & Hm & Hs & He & _).
  assert (Ep : p' = p).
  { rewrite <- (virt_to_page_to_virt HPS p' Hvp'), <- Hv'. reflexivity. }
  subst p'.
  assert (Hk : 0 <= page_order s p <= max_order s) by apply Hon.
  assert (Hhp : is_head s p) by (apply is_head_order; lia).
  destruct (wf_groups _ _ _ Hwf p Hrp Hhp) as (_ & Hap & Htails).
  assert (Hp0 : 0 <= p) by (destruct Hvp; assumption).
  pose proof (pow2_pos j ltac:(lia)) as Hpj.
  pose proof (pow2_succ j ltac:(lia)) as Hsj.
  assert (Hpw : 2 ^ want <= 2 ^ j) by (apply Z.pow_le_mono_r; lia).
  assert (Hpk : 2 ^ (j + 1) <= 2 ^ page_order s p)
    by (apply Z.pow_le_mono_r; lia).
  assert (Vin : forall q, in_range s' q <-> in_range s q)
    by (intros q; now apply in_range_frame).
  assert (Haj1 : aligned p (j + 1))
    by (apply (aligned_le p (j + 1) (page_order s p)); [lia | exact Hap]).
  assert (Haj : aligned p j)
    by (apply (aligned_le p j (j + 1)); [lia | exact Haj1]).
  assert (Hbj : aligned (p + 2 ^ j) j).
  { apply aligned_mult in Haj as [n Hn]; [| lia].
    apply aligned_mult; [lia|]. exists (n + 1). lia. }
  assert (Hall : forall q, in_group (p + 2 ^ j) j q ->
                           in_range s' q /\ free_covered s' q).
  { intros q Hq. unfold in_group in Hq. split.
    - apply Vin, Htails. lia.
    - destruct (Hcov q) as [Hc | Hc]; [| exact Hc |].
      + exists (page_order s p), p. split; [exact Hon|].
        unfold in_group. lia.
      + rewrite Hord in Hc. unfold in_group in Hc. lia. }
  destruct (covered_block_has_one_head s' ltac:(lia) Hwf' j ltac:(lia)
              (p + 2 ^ j) ltac:(lia) Hbj Hall)
    as (h & i & Hi & Honh & Hrh & Hah & Hin).
  assert (Hmid : in_group h i (p + 2 ^ j))
    by (apply Hin, in_group_head; lia).
  assert (Ei : i = j).
  { destruct (Z.le_gt_cases (j + 1) i) as [Hbig | Hsmall]; [| lia].
    exfalso.
    assert (Hg : in_group p (j + 1) (p + 2 ^ j)) by (unfold in_group; lia).
    destruct (groups_nested p (j + 1) h i (p + 2 ^ j) ltac:(lia) Haj1 Hah
                            Hg Hmid) as [G1 G2].
    assert (Hfree : free_covered s' p).
    { exists i, h. split; [exact Honh|]. unfold in_group. lia. }
    destruct (free_frame_unreferenced s' p Hwf' (proj2 (Vin p) Hrp) Hfree)
      as [Hz _].
    lia. }
  subst i.
  assert (Eh : h = p + 2 ^ j).
  { apply (aligned_group_head (p + 2 ^ j) h j (p + 2 ^ j));
      try assumption; try lia.
    apply in_group_head; lia. }
  subst h.
  destruct (wf_heads _ _ _ Hwf' j _ Honh) as [Ho Hc].
  split; [apply Honh|]. now split.
Qed.

Lemma alloc_scan_finds (s : state) :
  max_order s < 255 ->
  forall (fuel : nat) (i i0 : Z),
    0 <= i <= i0 -> i0 <= max_order s ->
    free_area s i0 <> [] ->
    i0 - i < Z.of_nat fuel ->
    alloc_scan fuel s i <= i0.
Proof.
  intros Hmax. induction fuel as [| fuel IH]; intros i i0 Hi Hi0 Hne Hfuel.
  - simpl in Hfuel. lia.
  - simpl. destruct (Z.leb_spec i (max_order s)) as [Hle | Hgt]; simpl;
      [| lia].
    destruct (free_area s i) eqn:E; simpl; [| lia].
    assert (i <> i0) by (intros ->; contradiction).
    rewrite u8_small by lia.
    apply IH; [lia | exact Hi0 | exact Hne | lia].
Qed.



(** *** The counter on pages from outside the range *)

(** X16: [hyp_put_page] of the last reference on a page outside the range
    counts the page exactly: no coalescing takes place, the page stays the
    head of its group, and [free_pages] goes up by [2^order] (in 64-bit
    arithmetic); the page is linked at the tail of the list of its order
    and no vmemmap entry other than its reference count changes. *)
Theorem put_of_external_page_counts_its_group (s : state) (p : Z) :
  0 <= PAGE_SHIFT <= 64 ->
  valid_pfn p ->
  ~ addr_in_range s (hyp_page_to_phys p) ->
  page_refcount s p = 1 ->
  0 <= page_order s p <= max_order s ->
  max_order s <= 30 ->
  exists s',
    hyp_put_page s (hyp_page_to_virt p) = Some s' /\
    free_pages s' = u64 (free_pages s + 2 ^ page_order s p) /\
    free_area s' (page_order s p) = free_area s (page_order s p) ++ [p] /\
    (forall k, k <> page_order s p -> free_area s' k = free_area s k) /\
    (forall q, page_order s' q = page_order s q) /\
    (forall q, page_refcount s' q = if q =? p then 0 else page_refcount s q).
Proof.
  intros HPS Hvp Hout Hc Ho Hmax.
  unfold hyp_put_page. rewrite virt_to_page_to_virt by assumption.
  destruct (Z.ltb_spec (max_order s) (page_order s p)) as [? | _]; [lia|].
  unfold __hyp_put_page, hyp_page_ref_dec_and_test.
  destruct (Z.leb_spec (page_refcount s p) 0) as [? | _]; [lia|].
  cbn [bind]. rewrite page_refcount_set_refcount, Z.eqb_refl.
  rewrite Hc. change (1 - 1) with 0. rewrite Z.eqb_refl.
  set (s0 := set_refcount s p 0).
  assert (Vo : forall q, page_order s0 q = page_order s q)
    by (intros q; apply page_order_set_refcount).
  assert (Vr : forall q, page_refcount s0 q
                         = if q =? p then 0 else page_refcount s q)
    by (intros q; apply page_refcount_set_refcount).
  destruct (attach_external s0 p Hout ltac:(rewrite Vo; exact Ho))
    as (s1 & Hatt & Hfa & Hvm & _ & _ & _ & Hfp).
  rewrite Hatt. cbn [bind]. eexists. split; [reflexivity|].
  assert (Vo1 : forall q, page_order s1 q = page_order s q).
  { intros q. unfold page_order at 1. rewrite Hvm. apply Vo. }
  cbn [free_pages free_area set_free_pages].
  split.
  { rewrite Vo1, Hfp, int_shl1_small by lia. reflexivity. }
  split.
  { rewrite Hfa, Vo, Z.eqb_refl. reflexivity. }
  split.
  { intros k Hk. rewrite Hfa, Vo. now apply Z.eqb_neq in Hk as ->. }
  split.
  { intros q. exact (Vo1 q). }
  intros q. unfold page_refcount at 1. cbn [vmemmap set_free_pages].
  rewrite Hvm. apply Vr.
Qed.

End Proofs.

(** * The scenarios, evaluated *)

(** C1: [put] of frame 1 of a two-page pool whose frame 0 is free.  The two
    coalesce and the head of the order-1 group is frame 0, but the counter is
    advanced by [1 << p->order] read from frame 1, which the attach has
    marked [HYP_NO_ORDER], and not by [1 << 1]. *)
Lemma put_counts_with_the_stale_order :
  observe two_pages_low_free [0; 1]
  = Some ([[0]; []; []; []; []], 1, [(0, 0, 0); (1, 1, 0)]) /\
  observe (s <- two_pages_low_free ;;
           hyp_put_page 12 s (hyp_page_to_virt 12 1)) [0; 1]
  = Some ([[]; [0]; []; []; []], u64 (1 + int_shl1 HYP_NO_ORDER),
          [(0, 0, 1); (1, 0, HYP_NO_ORDER)]) /\
  u64 (1 + int_shl1 HYP_NO_ORDER) <> 1 + 2 ^ 1.
Proof.
  split; [vm_compute; reflexivity|].
  split; [vm_compute; reflexivity|].
  vm_compute. discriminate.
Qed.

(** C2: S1 on a zeroed pool.  The free lists are as expected, one order-2
    head at frame 0, but [free_pages] is not 4: each of the two puts whose
    page coalesced with a lower buddy added [1 << HYP_NO_ORDER] instead of
    one page. *)
Lemma pool_init_miscounts_free_pages :
  observe S1 [0; 1; 2; 3]
  = Some ([[]; []; [0]; []; []], u64 (2 + 2 * int_shl1 HYP_NO_ORDER),
          [(0, 0, 2); (1, 0, HYP_NO_ORDER); (2, 0, HYP_NO_ORDER);
           (3, 0, HYP_NO_ORDER)]) /\
  option_map hyp_pool_free_pages S1 <> Some (4 - 0).
Proof.
  split; [vm_compute; reflexivity|].
  vm_compute. discriminate.
Qed.

(** C3 as stated fails: in an empty-range pool holding the external order-1
    group at frame 100, [alloc(order = 0)] cannot split the group, returns it
    at order 1 and takes 2, not [1 << 0], off [free_pages]. *)
Lemma alloc_returns_oversize_group :
  observe empty_pool_order1 [100]
  = Some ([[]; [100]; []; []; []], 2, [(100, 0, 1)]) /\
  option_map fst (s <- empty_pool_order1 ;; hyp_alloc_pages 12 s 0)
  = Some (Some (hyp_page_to_virt 12 100)) /\
  observe (s <- empty_pool_order1 ;;
           r <- hyp_alloc_pages 12 s 0 ;; Some (snd r)) [100]
  = Some ([[]; []; []; []; []], 0, [(100, 1, 1)]) /\
  0 <> u64 (2 - 2 ^ 0).
Proof.
  split; [vm_compute; reflexivity|].
  split; [vm_compute; reflexivity|].
  split; [vm_compute; reflexivity|].
  vm_compute. discriminate.
Qed.


(** C9: S6.  The order-1 group of a two-page pool is allocated and split,
    and both pages are put, in either order.  The free lists, the reference
    counts, the orders, the page bodies and the parameters of the pool are
    again what [hyp_pool_init] left, a single free head of order 1 at frame
    0, but [free_pages] is not: the allocation took 2 pages off, and the two
    puts add [1 << p->order] read after the attach, that is 1 and then 2
    when the lower half is put last (it stays the head and has the order of
    the coalesced group), and 1 and then [1 << HYP_NO_ORDER] when the upper
    half is put last. *)
Lemma split_then_put_miscounts_free_pages :
  observe S6 [0; 1]
  = Some ([[]; [0]; []; []; []], u64 (1 + int_shl1 HYP_NO_ORDER),
          [(0, 0, 1); (1, 0, HYP_NO_ORDER)]) /\
  observe (Some S6_alloc) [0; 1]
  = Some ([[]; []; []; []; []], u64 (1 + int_shl1 HYP_NO_ORDER - 2),
          [(0, 1, 1); (1, 0, HYP_NO_ORDER)]) /\
  observe (Some S6_split) [0; 1]
  = Some ([[]; []; []; []; []], u64 (1 + int_shl1 HYP_NO_ORDER - 2),
          [(0, 1, 0); (1, 1, 0)]) /\
  observe (put_pages 12 S6_split [1]) [0; 1]
  = Some ([[1]; []; []; []; []], u64 (1 + int_shl1 HYP_NO_ORDER - 2 + 1),
          [(0, 1, 0); (1, 0, 0)]) /\
  observe S6_put_all [0; 1]
  = Some ([[]; [0]; []; []; []], u64 (1 + int_shl1 HYP_NO_ORDER - 2 + 1 + 2),
          [(0, 0, 1); (1, 0, HYP_NO_ORDER)]) /\
  observe (put_pages 12 S6_split [0; 1]) [0; 1]
  = Some ([[]; [0]; []; []; []],
          u64 (1 + int_shl1 HYP_NO_ORDER - 2 + 1 + int_shl1 HYP_NO_ORDER),
          [(0, 0, 1); (1, 0, HYP_NO_ORDER)]) /\
  option_map pool_shape S6_put_all = option_map pool_shape S6 /\
  option_map pool_shape (put_pages 12 S6_split [0; 1])
  = option_map pool_shape S6 /\
  option_map hyp_pool_free_pages S6_put_all
  <> option_map hyp_pool_free_pages S6 /\
  option_map hyp_pool_free_pages (put_pages 12 S6_split [0; 1])
  <> option_map hyp_pool_free_pages S6.
Proof.
  do 8 (split; [vm_compute; reflexivity|]).
  split; vm_compute; discriminate.
Qed.

(** * Instances *)

Lemma alloc_null_leaves_pool_unchanged_witness :
  hyp_alloc_pages 12 S4 2 = Some (None, S4).
Proof.
  assert (E : max_order S4 = 2) by (vm_compute; reflexivity).
  apply (alloc_null_leaves_pool_unchanged 12 S4 2).
  - lia.
  - rewrite E. lia.
  - intros i Hi. rewrite E in Hi.
    assert (i = 2) as -> by lia. vm_compute. reflexivity.
Defined.

Lemma extract_page_splits_witness :
  exists s0 s',
    __hyp_extract_page 12 (state_of S1) 0 0 = Some (s', 0) /\
    unlinked (state_of S1) 0 s0 /\
    split_run 12 0 0 s0 s' /\
    (page_order s' 0 = 0 \/
     (0 < page_order s' 0 /\
      ~ addr_in_range s' (buddy_addr 12 0 (page_order s' 0 - 1)))).
Proof.
  assert (E : page_order (state_of S1) 0 = 2) by (vm_compute; reflexivity).
  assert (M : max_order (state_of S1) = 2) by (vm_compute; reflexivity).
  apply (extract_page_splits 12 (state_of S1) 0 0).
  - vm_compute. reflexivity.
  - rewrite E. lia.
  - rewrite E, M. lia.
Defined.

Lemma alloc_takes_lowest_order_witness :
  exists s1 s',
    __hyp_extract_page 12 (state_of S1) 0 0 = Some (s1, 0) /\
    hyp_alloc_pages 12 (state_of S1) 0
    = Some (Some (hyp_page_to_virt 12 0), s') /\
    s' = set_free_pages (hyp_set_page_refcounted s1 0) (free_pages s') /\
    page_refcount s' 0 = 1 /\
    free_pages s' = u64 (free_pages (state_of S1) - 2 ^ page_order s' 0) /\
    0 <= page_order s' 0 <= 2 /\
    (page_order s' 0 = 0 \/
     (0 < page_order s' 0 /\
      ~ addr_in_range s' (buddy_addr 12 0 (page_order s' 0 - 1)))).
Proof.
  assert (M : max_order (state_of S1) = 2) by (vm_compute; reflexivity).
  assert (H0 : 0 <= 0) by lia.
  assert (H1 : max_order (state_of S1) <= 30) by (rewrite M; lia).
  apply (proj2 (alloc_takes_lowest_order 12 (state_of S1) 0 H0 H1) 2 0 []).
  - rewrite M. lia.
  - intros j Hj. assert (j = 0 \/ j = 1) as [-> | ->] by lia;
      vm_compute; reflexivity.
  - vm_compute. reflexivity.
  - vm_compute. reflexivity.
Defined.

Lemma external_pages_never_coalesce_witness :
  exists s0 s1,
    hyp_pool_init_empty 12 4 S5_frames 8 = Some s0 /\
    range_start s0 = 2 ^ 64 - 1 /\
    range_end s0 = 0 /\
    (forall a, ~ addr_in_range s0 a) /\
    put_pages 12 s0 [100; 101] = Some s1 /\
    free_area s1 0 = [100; 101] /\
    (forall k, 1 <= k <= max_order s1 -> free_area s1 k = []) /\
    (forall p, In p [100; 101] ->
               page_order s1 p = 0 /\ page_refcount s1 p = 0) /\
    hyp_alloc_pages 12 s1 1 = Some (None, s1) /\
    (forall p l, [100; 101] = p :: l ->
                 exists s2, hyp_alloc_pages 12 s1 0
                            = Some (Some (hyp_page_to_virt 12 p), s2)).
Proof.
  assert (HPS : 0 <= 12 <= 64) by lia.
  assert (HMO : 0 <= 4 <= 30) by lia.
  apply (proj2 (external_pages_never_coalesce 12 4 HPS HMO) S5_frames 8
               [100; 101]).
  - repeat constructor; simpl; intuition discriminate.
  - intros p [<- | [<- | []]]; (split; [| split; vm_compute; reflexivity]);
      unfold valid_pfn; change (2 ^ (64 - 12)) with 4503599627370496; lia.
Defined.

Lemma some_state_of (r : option state) :
  succeeded r = true -> r = Some (state_of r).
Proof. destruct r; [reflexivity | discriminate]. Qed.

Lemma some_result_of (r : option (option Z * state)) :
  succeeded r = true -> r = Some (fst (result_of r), snd (result_of r)).
Proof. destruct r as [[v s]|]; [reflexivity | discriminate]. Qed.

Lemma S1_reachable : reachable 12 4 (state_of S1).
Proof.
  apply (reach_init 12 4 boot_state 0 4 0).
  - repeat split; try lia; try (vm_compute; reflexivity).
  - apply some_state_of. vm_compute. reflexivity.
Qed.


Lemma S1_put_back_reachable : reachable 12 4 S1_put_back.
Proof.
  assert (Ha : reachable 12 4 S1_alloc).
  { apply (reach_alloc 12 4 (state_of S1) 0
                       (fst (result_of (hyp_alloc_pages 12 (state_of S1) 0)))).
    - exact S1_reachable.
    - lia.
    - apply some_result_of. vm_compute. reflexivity. }
  assert (Hw : reachable 12 4 S1_written).
  { apply reach_write; [exact Ha | vm_compute; reflexivity]. }
  apply (reach_put 12 4 S1_written 0).
  - exact Hw.
  - split; [unfold valid_pfn; change (2 ^ (64 - 12)) with 4503599627370496;
            lia|].
    split; [vm_compute; discriminate|]. left. split.
    + split; [unfold valid_pfn;
              change (2 ^ (64 - 12)) with 4503599627370496; lia|].
      unfold addr_in_range. vm_compute. split; [discriminate | reflexivity].
    + unfold is_head. vm_compute. discriminate.
  - apply some_state_of. vm_compute. reflexivity.
Qed.


Lemma S6_alloc_reachable : reachable 12 4 S6_alloc.
Proof.
  apply (reach_alloc 12 4 (state_of S6) 1
                     (fst (result_of (hyp_alloc_pages 12 (state_of S6) 1)))).
  - apply (reach_init 12 4 boot_state 0 2 0).
    + repeat split; try lia; try (vm_compute; reflexivity).
    + apply some_state_of. vm_compute. reflexivity.
  - lia.
  - apply some_result_of. vm_compute. reflexivity.
Qed.

Lemma split_then_put_rebuilds_group_witness :
  exists s2,
    put_pages 12 S6_split [1; 0] = Some s2 /\
    pool_wf 12 s2 /\
    (forall q, In q [1; 0] -> page_refcount s2 q = 0) /\
    (forall q, ~ In q [1; 0] ->
               page_refcount s2 q = page_refcount S6_alloc q) /\
    exists h j,
      page_order S6_alloc 0 <= j /\ on_free_area s2 j h /\
      page_order s2 h = j /\ aligned h j /\
      (j = page_order S6_alloc 0 -> h = 0) /\
      (forall q, In q [1; 0] -> in_group h j q) /\
      (forall q, In q [1; 0] -> q <> h -> page_order s2 q = HYP_NO_ORDER).
Proof.
  assert (HPS : 0 <= 12 <= 64) by lia.
  assert (Hwf : pool_wf 12 S6_alloc).
  { apply (reachable_wf 12 4); [lia | lia | lia | exact S6_alloc_reachable]. }
  assert (Hr : in_range 12 S6_alloc 0).
  { split; [unfold valid_pfn; change (2 ^ (64 - 12)) with 4503599627370496;
            lia|].
    unfold addr_in_range. vm_compute. split; [discriminate | reflexivity]. }
  assert (Hh : is_head S6_alloc 0) by (unfold is_head; vm_compute; discriminate).
  assert (Hc : page_refcount S6_alloc 0 = 1) by (vm_compute; reflexivity).
  assert (Hnd : NoDup [1; 0]).
  { repeat constructor; simpl; intuition discriminate. }
  assert (Hl : forall q, In q [1; 0] <-> in_group 0 (page_order S6_alloc 0) q).
  { assert (E : page_order S6_alloc 0 = 1) by (vm_compute; reflexivity).
    intros q. rewrite E. unfold in_group. simpl. lia. }
  exact (proj2 (proj2 (proj2 (proj2 (proj2
           (split_then_put_rebuilds_group 12 S6_alloc 0 [1; 0]
                                          HPS Hwf Hr Hh Hc Hnd Hl)))))).
Defined.

(** ** Instances of the further properties *)

Ltac pfn_is_valid :=
  unfold valid_pfn; change (2 ^ (64 - 12)) with 4503599627370496; lia.

Ltac frame_in_range :=
  split; [pfn_is_valid
         | unfold addr_in_range; vm_compute;
           split; [discriminate | reflexivity]].

Lemma S1_alloc_reachable : reachable 12 4 S1_alloc.
Proof.
  apply (reach_alloc 12 4 (state_of S1) 0
                     (fst (result_of (hyp_alloc_pages 12 (state_of S1) 0)))).
  - exact S1_reachable.
  - lia.
  - apply some_result_of. vm_compute. reflexivity.
Qed.

Lemma S1_alloc_result :
  hyp_alloc_pages 12 (state_of S1) 0 = Some (Some 0, S1_alloc).
Proof.
  assert (Hv : fst (result_of (hyp_alloc_pages 12 (state_of S1) 0)) = Some 0)
    by (vm_compute; reflexivity).
  rewrite <- Hv. apply some_result_of. vm_compute. reflexivity.
Qed.

Lemma find_buddy_nocheck_symmetric_witness :
  1 = buddy_pfn 0 0 /\ 1 <> 0 /\
  __find_buddy_nocheck 12 (state_of S1) 1 0 = Some 0.
Proof.
  assert (H1 : 0 <= 12) by lia.
  assert (H2 : valid_pfn 12 0) by pfn_is_valid.
  assert (H3 : 0 <= 0) by lia.
  assert (H4 : 12 + 0 < 64) by lia.
  assert (H5 : addr_in_range (state_of S1) (hyp_page_to_phys 12 0)).
  { unfold addr_in_range. vm_compute. split; [discriminate | reflexivity]. }
  assert (H6 : __find_buddy_nocheck 12 (state_of S1) 0 0 = Some 1)
    by (vm_compute; reflexivity).
  destruct (find_buddy_nocheck_symmetric 12 (state_of S1) 0 0 1
                                         H1 H2 H3 H4 H5 H6)
    as (E & N & _ & _ & B & _).
  split; [exact E|]. split; [exact N | exact B].
Defined.


Lemma page_add_then_remove_witness :
  exists s1 s2,
    page_add_to_list S1_alloc 0 0 = Some s1 /\
    free_area s1 0 = free_area S1_alloc 0 ++ [0] /\
    page_remove_from_list s1 0 = Some s2 /\
    (forall j, free_area s2 j = free_area S1_alloc j) /\
    vmemmap s2 = vmemmap S1_alloc /\
    free_pages s2 = free_pages S1_alloc /\
    max_order s2 = max_order S1_alloc /\
    (forall q, q <> 0 -> mem s2 q = mem S1_alloc q) /\
    mem s2 0 = mkBody false (data_bytes (mem S1_alloc 0)).
Proof.
  assert (Em : max_order S1_alloc = 2) by (vm_compute; reflexivity).
  assert (H1 : 0 <= 0 <= max_order S1_alloc) by (rewrite Em; lia).
  assert (H2 : forall j, ~ In 0 (free_area S1_alloc j)).
  { intros j H. vm_compute in H.
    destruct j as [| [[q | q |] | [q | q |] |] | q]; cbn in H;
      intuition discriminate. }
  exact (page_add_then_remove S1_alloc 0 0 H1 H2).
Defined.

Lemma put_of_shared_page_only_decrements_witness :
  hyp_put_page 12 S1_shared (hyp_page_to_virt 12 0)
  = Some (set_refcount S1_shared 0 (page_refcount S1_shared 0 - 1)).
Proof.
  assert (H1 : 0 <= 12 <= 64) by lia.
  assert (H2 : valid_pfn 12 0) by pfn_is_valid.
  assert (H3 : page_order S1_shared 0 <= max_order S1_shared)
    by (vm_compute; discriminate).
  assert (H4 : 2 <= page_refcount S1_shared 0)
    by (vm_compute; discriminate).
  exact (put_of_shared_page_only_decrements 12 S1_shared 0 H1 H2 H3 H4).
Defined.

Lemma get_then_put_restores_witness :
  exists s',
    hyp_put_page 12 (hyp_get_page 12 S1_alloc (hyp_page_to_virt 12 0))
                 (hyp_page_to_virt 12 0)
    = Some s' /\
    (forall q, vmemmap s' q = vmemmap S1_alloc q) /\
    free_area s' = free_area S1_alloc /\
    free_pages s' = free_pages S1_alloc /\
    range_start s' = range_start S1_alloc /\
    range_end s' = range_end S1_alloc /\
    max_order s' = max_order S1_alloc /\
    mem s' = mem S1_alloc.
Proof.
  assert (H1 : 0 <= 12 <= 64) by lia.
  assert (H2 : valid_pfn 12 0) by pfn_is_valid.
  assert (H3 : page_order S1_alloc 0 <= max_order S1_alloc)
    by (vm_compute; discriminate).
  assert (H4 : 1 <= page_refcount S1_alloc 0)
    by (vm_compute; discriminate).
  exact (get_then_put_restores 12 S1_alloc 0 H1 H2 H3 H4).
Defined.

Lemma put_of_tail_page_stops_witness :
  hyp_put_page 12 (state_of S1) (hyp_page_to_virt 12 1) = None.
Proof.
  assert (H1 : 0 <= 12) by lia.
  assert (H2 : 0 <= 4 <= 30) by lia.
  assert (H3 : 12 + 4 < 64) by lia.
  assert (H4 : in_range 12 (state_of S1) 0) by frame_in_range.
  assert (H5 : is_head (state_of S1) 0)
    by (unfold is_head; vm_compute; discriminate).
  assert (H6 : 0 < 1 < 0 + 2 ^ page_order (state_of S1) 0).
  { assert (E : page_order (state_of S1) 0 = 2) by (vm_compute; reflexivity).
    rewrite E. simpl. lia. }
  exact (put_of_tail_page_stops 12 4 (state_of S1) 0 1 H1 H2 H3
                                S1_reachable H4 H5 H6).
Defined.

Lemma put_of_free_page_stops_witness :
  hyp_put_page 12 (state_of S1) (hyp_page_to_virt 12 0) = None /\
  hyp_put_page 12 (state_of S1) (hyp_page_to_virt 12 3) = None.
Proof.
  assert (H1 : 0 <= 12) by lia.
  assert (H2 : 0 <= 4 <= 30) by lia.
  assert (H3 : 12 + 4 < 64) by lia.
  assert (Em : max_order (state_of S1) = 2) by (vm_compute; reflexivity).
  assert (E2 : free_area (state_of S1) 2 = [0]) by (vm_compute; reflexivity).
  assert (Hon : on_free_area (state_of S1) 2 0).
  { split; [rewrite Em; lia | rewrite E2; now left]. }
  assert (Hr : in_range 12 (state_of S1) 3) by frame_in_range.
  assert (Hc : free_covered (state_of S1) 3).
  { exists 2, 0. split; [exact Hon | unfold in_group; simpl; lia]. }
  destruct (put_of_free_page_stops 12 4 (state_of S1) H1 H2 H3 S1_reachable)
    as [Hhead Hany].
  split; [exact (Hhead 2 0 Hon) | exact (Hany 3 Hr Hc)].
Defined.

Lemma reachable_groups_are_well_formed_witness :
  page_refcount S1_alloc 3 = 0 /\
  In 1 (free_area S1_alloc (page_order S1_alloc 1)).
Proof.
  assert (H1 : 0 <= 12) by lia.
  assert (H2 : 0 <= 4 <= 30) by lia.
  assert (H3 : 12 + 4 < 64) by lia.
  assert (Em : max_order S1_alloc = 2) by (vm_compute; reflexivity).
  assert (E1 : free_area S1_alloc 1 = [2]) by (vm_compute; reflexivity).
  assert (Hr3 : in_range 12 S1_alloc 3) by frame_in_range.
  assert (Hc3 : free_covered S1_alloc 3).
  { exists 1, 2. split.
    - split; [rewrite Em; lia | rewrite E1; now left].
    - unfold in_group. simpl. lia. }
  assert (Hr1 : in_range 12 S1_alloc 1) by frame_in_range.
  assert (Hh1 : is_head S1_alloc 1)
    by (unfold is_head; vm_compute; discriminate).
  assert (Hz1 : page_refcount S1_alloc 1 = 0) by (vm_compute; reflexivity).
  destruct (reachable_groups_are_well_formed 12 4 S1_alloc H1 H2 H3
                                             S1_alloc_reachable)
    as (_ & _ & Hlisted & Hfree).
  split; [exact (Hfree 3 Hr3 Hc3) | exact (Hlisted 1 Hr1 Hh1 Hz1)].
Defined.

Lemma alloc_returns_exact_block_witness :
  page_order S1_alloc (hyp_virt_to_page 12 0) = 0 /\
  aligned (hyp_virt_to_page 12 0) 0 /\
  free_pages S1_alloc = u64 (free_pages (state_of S1) - 2 ^ 0).
Proof.
  assert (H1 : 0 <= 12 <= 64) by lia.
  assert (H2 : 0 <= 4 <= 30) by lia.
  assert (H3 : 12 + 4 < 64) by lia.
  assert (H4 : 0 <= 0) by lia.
  assert (Ep : hyp_virt_to_page 12 0 = 0) by (vm_compute; reflexivity).
  assert (Hr : in_range 12 (state_of S1) (hyp_virt_to_page 12 0))
    by (rewrite Ep; frame_in_range).
  destruct (alloc_returns_exact_block 12 4 (state_of S1) 0 0 S1_alloc
              H1 H2 H3 S1_reachable H4 S1_alloc_result Hr)
    as (_ & _ & Ho & Ha & _ & _ & Hfp & _).
  split; [exact Ho|]. split; [exact Ha | exact Hfp].
Defined.

Lemma pool_init_frees_unreserved_pages_witness :
  exists s',
    hyp_pool_init 12 4 boot_state 0 4 1 = Some s' /\
    reachable 12 4 s' /\
    max_order s' = Z.min 4 (get_order 12 (shl32 4 12)) /\
    range_start s' = 0 * 2 ^ 12 /\
    range_end s' = (0 + 4) * 2 ^ 12 /\
    forall q, 0 <= q < 0 + 4 ->
      in_range 12 s' q /\
      (free_covered s' q <-> 0 + 1 <= q) /\
      page_refcount s' q = (if q <? 0 + 1 then 1 else 0).
Proof.
  assert (H1 : 0 <= 12) by lia.
  assert (H2 : 0 <= 4 <= 30) by lia.
  assert (H3 : 12 + 4 < 64) by lia.
  assert (H4 : init_ok 12 boot_state 0 4 1).
  { repeat split; try lia; try (vm_compute; reflexivity). }
  exact (pool_init_frees_unreserved_pages 12 4 boot_state 0 4 1 H1 H2 H3 H4).
Defined.

Lemma empty_pool_allocates_nothing_witness :
  exists s',
    hyp_pool_init_empty 12 4 boot_state 8 = Some s' /\
    vmemmap s' = vmemmap boot_state /\ mem s' = mem boot_state /\
    free_pages s' = free_pages boot_state /\
    0 <= max_order s' <= 4 /\
    (forall a, ~ addr_in_range s' a) /\
    (forall k, 0 <= k <= max_order s' -> free_area s' k = []) /\
    (forall k, ~ 0 <= k <= max_order s' ->
               free_area s' k = free_area boot_state k) /\
    (forall want, 0 <= want ->
                  hyp_alloc_pages 12 s' want = Some (None, s')).
Proof.
  assert (H : 0 <= 4 <= 30) by lia.
  exact (empty_pool_allocates_nothing 12 4 boot_state 8 H).
Defined.

Lemma alloc_then_put_keeps_free_frames_witness :
  exists s'',
    hyp_put_page 12 S1_alloc 0 = Some s'' /\
    reachable 12 4 s'' /\
    (forall q, free_covered (state_of S1) q -> free_covered s'' q) /\
    (forall q, page_refcount s'' q = page_refcount (state_of S1) q).
Proof.
  assert (H1 : 0 <= 12 <= 64) by lia.
  assert (H2 : 0 <= 4 <= 30) by lia.
  assert (H3 : 12 + 4 < 64) by lia.
  assert (H4 : 0 <= 0) by lia.
  assert (Ep : hyp_virt_to_page 12 0 = 0) by (vm_compute; reflexivity).
  assert (Hr : in_range 12 (state_of S1) (hyp_virt_to_page 12 0))
    by (rewrite Ep; frame_in_range).
  exact (alloc_then_put_keeps_free_frames 12 4 (state_of S1) 0 0 S1_alloc
           H1 H2 H3 S1_reachable H4 S1_alloc_result Hr).
Defined.

Lemma put_of_last_reference_frees_group_witness :
  exists s',
    hyp_put_page 12 S1_alloc (hyp_page_to_virt 12 0) = Some s' /\
    reachable 12 4 s' /\
    page_refcount s' 0 = 0.
Proof.
  assert (H1 : 0 <= 12 <= 64) by lia.
  assert (H2 : 0 <= 4 <= 30) by lia.
  assert (H3 : 12 + 4 < 64) by lia.
  assert (H4 : in_range 12 S1_alloc 0) by frame_in_range.
  assert (H5 : is_head S1_alloc 0)
    by (unfold is_head; vm_compute; discriminate).
  assert (H6 : page_refcount S1_alloc 0 = 1) by (vm_compute; reflexivity).
  destruct (put_of_last_reference_frees_group 12 4 S1_alloc 0 H1 H2 H3
              S1_alloc_reachable H4 H5 H6)
    as (s' & Hp & Hre & Hz & _).
  exists s'. split; [exact Hp|]. split; [exact Hre | exact Hz].
Defined.

Lemma alloc_gives_back_upper_halves_witness :
  In (hyp_virt_to_page 12 0 + 2 ^ 1) (free_area S1_alloc 1) /\
  page_order S1_alloc (hyp_virt_to_page 12 0 + 2 ^ 1) = 1 /\
  page_refcount S1_alloc (hyp_virt_to_page 12 0 + 2 ^ 1) = 0.
Proof.
  assert (H1 : 0 <= 12 <= 64) by lia.
  assert (H2 : 0 <= 4 <= 30) by lia.
  assert (H3 : 12 + 4 < 64) by lia.
  assert (H4 : 0 <= 0) by lia.
  assert (Ep : hyp_virt_to_page 12 0 = 0) by (vm_compute; reflexivity).
  assert (Hr : in_range 12 (state_of S1) (hyp_virt_to_page 12 0))
    by (rewrite Ep; frame_in_range).
  assert (Hj : 0 <= 1 < page_order (state_of S1) (hyp_virt_to_page 12 0)).
  { assert (E : page_order (state_of S1) (hyp_virt_to_page 12 0) = 2)
      by (vm_compute; reflexivity).
    rewrite E. lia. }
  exact (alloc_gives_back_upper_halves 12 4 (state_of S1) 0 0 S1_alloc
           H1 H2 H3 S1_reachable H4 S1_alloc_result Hr 1 Hj).
Defined.


Lemma put_of_external_page_counts_its_group_witness :
  exists s',
    hyp_put_page 12 S5_empty (hyp_page_to_virt 12 100) = Some s' /\
    free_pages s' = u64 (free_pages S5_empty + 2 ^ page_order S5_empty 100) /\
    free_area s' (page_order S5_empty 100)
    = free_area S5_empty (page_order S5_empty 100) ++ [100].
Proof.
  assert (H1 : 0 <= 12 <= 64) by lia.
  assert (H2 : valid_pfn 12 100) by pfn_is_valid.
  assert (H3 : ~ addr_in_range S5_empty (hyp_page_to_phys 12 100)).
  { assert (Ee : range_end S5_empty = 0) by (vm_compute; reflexivity).
    assert (Ea : hyp_page_to_phys 12 100 = 409600)
      by (vm_compute; reflexivity).
    unfold addr_in_range. rewrite Ee, Ea. lia. }
  assert (H4 : page_refcount S5_empty 100 = 1) by (vm_compute; reflexivity).
  assert (Eo : page_order S5_empty 100 = 0) by (vm_compute; reflexivity).
  assert (Em : max_order S5_empty = 3) by (vm_compute; reflexivity).
  assert (H5 : 0 <= page_order S5_empty 100 <= max_order S5_empty)
    by (rewrite Eo, Em; lia).
  assert (H6 : max_order S5_empty <= 30) by (rewrite Em; lia).
  destruct (put_of_external_page_counts_its_group 12 S5_empty 100
              H1 H2 H3 H4 H5 H6)
    as (s' & Hp & Hfp & Hfa & _).
  exists s'. split; [exact Hp|]. split; [exact Hfp | exact Hfa].
Defined.

Lemma attach_page_coalesces_witness :
  exists s0 s1 p1 k1 s2 r,
    __hyp_attach_page 12 (set_refcount S1_alloc 0 0) 0 = Some r /\
    attach_started (set_refcount S1_alloc 0 0) 0 s0 /\
    coalesce_run 12 s0 0 (page_order S1_alloc 0) s1 p1 k1 /\
    order_set s1 p1 k1 s2 /\
    linked_at_tail s2 p1 k1 r /\
    hyp_put_page 12 S1_alloc (hyp_page_to_virt 12 0)
    = Some (set_free_pages r
              (u64 (free_pages r + int_shl1 (page_order r 0)))).
Proof.
  assert (H1 : 0 <= 12 <= 64) by lia.
  assert (H2 : 0 <= 4 <= 30) by lia.
  assert (H3 : 12 + 4 < 64) by lia.
  assert (H4 : in_range 12 S1_alloc 0) by frame_in_range.
  assert (H5 : is_head S1_alloc 0)
    by (unfold is_head; vm_compute; discriminate).
  assert (H6 : page_refcount S1_alloc 0 = 1) by (vm_compute; reflexivity).
  exact (attach_page_coalesces 12 4 S1_alloc 0 H1 H2 H3
                               S1_alloc_reachable H4 H5 H6).
Defined.
